(** * AVB rebuild planner ([rebuild_avb.py]): shallow embedding and properties

    The development follows the layout of the script:

    - [Text], [Regex]: text primitives and the handful of regular
      expressions the metadata parser uses;
    - the data model and [AvbImageParser], the parser of the report text;
    - the external world the script talks to (signing toolkit subprocess,
      file system, random source) as the interface [External], and the
      monad of the script: state, exceptions and [sys.exit];
    - [Py], [Planner] and the section [Rebuilder]: the key selector, the
      two per-partition planners, the orchestrator and the entry point;
    - [Spec]: the notions the statements need; [Bench]: a small machine to
      run the script on;
    - the properties, one theorem for each.

    Python [str] values are modelled as [string]; the text is taken to be
    ASCII, as the reports of the signing toolkit are, and a theorem about
    what a pattern matches in an arbitrary text says so in a hypothesis.
    A Python value that may be [None] is an [option].  Of the lines the script prints, the
    [[WARNING]] and [[ERROR]] ones are kept, as structured messages. *)

From Stdlib Require Import String Ascii List Bool Arith NArith ZArith Lia.
From Stdlib Require Import DecimalString Permutation.
Import ListNotations.

Local Open Scope string_scope.
Local Open Scope list_scope.
Local Open Scope nat_scope.

Set Implicit Arguments.

Notation "s1 +++ s2" := (String.append s1 s2)
  (at level 60, right associativity) : string_scope.

(** ** Text primitives *)

Module Text.

(** Characters matched by [\s] on ASCII text (Python's [str.isspace]
    restricted to code points below 128). *)
Definition is_space (c : ascii) : bool :=
  let n := nat_of_ascii c in
  ((9 <=? n) && (n <=? 13)) || ((28 <=? n) && (n <=? 32)).

Definition is_nonspace (c : ascii) : bool := negb (is_space c).

(** [\d] on ASCII text (on other text Python's [\d] also matches the
    decimal digits of other scripts). *)
Definition is_digit (c : ascii) : bool :=
  let n := nat_of_ascii c in (48 <=? n) && (n <=? 57).

(** [[a-fA-F0-9]] *)
Definition is_hex (c : ascii) : bool :=
  let n := nat_of_ascii c in
  is_digit c || ((97 <=? n) && (n <=? 102)) || ((65 <=? n) && (n <=? 70)).

(** [[^']] *)
Definition is_not_quote (c : ascii) : bool :=
  negb (Ascii.eqb c "'"%char).

(** A character of ASCII.  On text made of such characters the classes
    above are the ones of Python's [re]; on other text [\s] and [\d]
    match more (the no-break space, the digits of other scripts). *)
Definition is_ascii (c : ascii) : bool := nat_of_ascii c <? 128.

(** Longest prefix whose characters satisfy [p], and what follows it. *)
Fixpoint span (p : ascii -> bool) (s : string) : string * string :=
  match s with
  | EmptyString => (EmptyString, EmptyString)
  | String c s' =>
      if p c then let (a, b) := span p s' in (String c a, b)
      else (EmptyString, s)
  end.

(** [strip_prefix p s = Some r] when [s = p +++ r]. *)
Fixpoint strip_prefix (p s : string) : option string :=
  match p with
  | EmptyString => Some s
  | String a p' =>
      match s with
      | EmptyString => None
      | String b s' => if Ascii.eqb a b then strip_prefix p' s' else None
      end
  end.

(** [s.endswith(suffix)] *)
Definition endswith (s suffix : string) : bool :=
  let n := String.length s in
  let m := String.length suffix in
  (m <=? n) && String.eqb (substring (n - m) m s) suffix.

(** [needle in s] for strings. *)
Fixpoint contains (needle s : string) : bool :=
  match strip_prefix needle s with
  | Some _ => true
  | None =>
      match s with
      | EmptyString => false
      | String _ s' => contains needle s'
      end
  end.

(** [s.replace(old, "")] for a non-empty [old]: occurrences are removed
    left to right without overlap.  [skip] counts the characters of the
    occurrence being removed that are still to be dropped. *)
Fixpoint remove_from (old : string) (skip : nat) (s : string) : string :=
  match s with
  | EmptyString => EmptyString
  | String c s' =>
      match skip with
      | S k => remove_from old k s'
      | O =>
          match strip_prefix old s with
          | Some _ => remove_from old (String.length old - 1) s'
          | None => String c (remove_from old 0 s')
          end
      end
  end.

Definition remove_all (old s : string) : string := remove_from old 0 s.

(** [s.upper()] on ASCII letters. *)
Definition upper_char (c : ascii) : ascii :=
  let n := nat_of_ascii c in
  if (97 <=? n) && (n <=? 122) then ascii_of_nat (n - 32) else c.

Fixpoint upper (s : string) : string :=
  match s with
  | EmptyString => EmptyString
  | String c s' => String (upper_char c) (upper s')
  end.

(** ["0" * n] *)
Fixpoint zeros (n : nat) : string :=
  match n with
  | O => EmptyString
  | S k => String "0"%char (zeros k)
  end.

Fixpoint all_chars (p : ascii -> bool) (s : string) : bool :=
  match s with
  | EmptyString => true
  | String c s' => p c && all_chars p s'
  end.

(** [" ".join(parts)] *)
Fixpoint join (sep : string) (parts : list string) : string :=
  match parts with
  | [] => EmptyString
  | [p] => p
  | p :: rest => p +++ sep +++ join sep rest
  end.

End Text.

(** ** The regular expressions of the parser

    Every scalar pattern of the script has the shape
    [label \s+ (class+) suffix], where the class is disjoint from [\s] and
    from the first character of the suffix.  With such a pattern the greedy
    choices of the matcher are the only ones that can succeed, so matching
    at a position is: the label, the longest non-empty run of blanks, the
    longest non-empty run of the class, the suffix. *)

Module Regex.
Import Text.

Record Field := {
  f_label  : string;
  f_class  : ascii -> bool;
  f_suffix : string
}.

Definition nonempty (s : string) : bool :=
  match s with EmptyString => false | _ => true end.

(** The pattern anchored at the start of [s]; the capture group. *)
Definition match_here (f : Field) (s : string) : option string :=
  match strip_prefix (f_label f) s with
  | None => None
  | Some r =>
      let (ws, r1) := span is_space r in
      if nonempty ws then
        let (cap, r2) := span (f_class f) r1 in
        if nonempty cap then
          match strip_prefix (f_suffix f) r2 with
          | Some _ => Some cap
          | None => None
          end
        else None
      else None
  end.

(** [re.search]: the first position, left to right, where the anchored
    matcher succeeds. *)
Fixpoint search {A : Type} (m : string -> option A) (s : string) : option A :=
  match m s with
  | Some x => Some x
  | None =>
      match s with
      | EmptyString => None
      | String _ s' => search m s'
      end
  end.

(** [_extract_pattern(text, pattern)] *)
Definition _extract_pattern (text : string) (f : Field) : option string :=
  search (match_here f) text.

(** The pattern of a property line, anchored at the start of [s]: a
    non-empty run of non-blanks (the key), blanks, an arrow [->], blanks,
    and between two single quotes a possibly empty run of characters
    other than the single quote (the value). *)
Definition match_prop_here (s : string) : option (string * string) :=
  let (key, r1) := span is_nonspace s in
  if nonempty key then
    let (ws1, r2) := span is_space r1 in
    if nonempty ws1 then
      match strip_prefix "->" r2 with
      | None => None
      | Some r3 =>
          let (ws2, r4) := span is_space r3 in
          if nonempty ws2 then
            match strip_prefix "'" r4 with
            | None => None
            | Some r5 =>
                let (val, r6) := span is_not_quote r5 in
                match strip_prefix "'" r6 with
                | Some _ => Some (key, val)
                | None => None
                end
            end
          else None
      end
    else None
  else None.

Definition nonspace_after (label : string) : Field :=
  {| f_label := label; f_class := is_nonspace; f_suffix := "" |}.
Definition digits_after (label : string) : Field :=
  {| f_label := label; f_class := is_digit; f_suffix := "" |}.
Definition bytes_after (label : string) : Field :=
  {| f_label := label; f_class := is_digit; f_suffix := " bytes" |}.
Definition hex_after (label : string) : Field :=
  {| f_label := label; f_class := is_hex; f_suffix := "" |}.

End Regex.

(** ** Data model *)

(** A Hash descriptor as [_parse_hash_descriptor] builds it: every key is
    present, the value is [None] where the pattern did not match. *)
Record HashDescriptor := {
  h_image_size     : option string;
  h_hash_algorithm : option string;
  h_partition_name : option string;
  h_salt           : option string;
  h_digest         : option string;
  h_flags          : option string
}.

Record HashtreeDescriptor := {
  t_image_size      : option string;
  t_hash_algorithm  : option string;
  t_partition_name  : option string;
  t_salt            : option string;
  t_root_digest     : option string;
  t_flags           : option string;
  t_tree_offset     : option string;
  t_tree_size       : option string;
  t_data_block_size : option string;
  t_hash_block_size : option string
}.

Record ChainDescriptor := {
  c_partition_name          : option string;
  c_rollback_index_location : option string;
  c_public_key_sha1         : option string;
  c_flags                   : option string
}.

(** A Prop descriptor is a dictionary in which the keys ['key'] and
    ['value'] may be missing ([_parse_prop_descriptor] returns [{}] when the
    pattern does not match): [None] is a missing key. *)
Record PropDescriptor := {
  p_key   : option string;
  p_value : option string
}.

(** The ['type'] entry of the dictionary is the constructor. *)
Inductive Descriptor :=
| DHash (h : HashDescriptor)
| DHashtree (t : HashtreeDescriptor)
| DChain (c : ChainDescriptor)
| DProp (p : PropDescriptor).

Definition desc_type (d : Descriptor) : string :=
  match d with
  | DHash _ => "hash"
  | DHashtree _ => "hashtree"
  | DChain _ => "chain"
  | DProp _ => "prop"
  end.

(** The dictionary [parse_image_info] returns. *)
Record ImageInfo := {
  algorithm           : option string;
  rollback_index      : option string;
  flags               : option string;
  image_size          : option string;
  original_image_size : option string;
  descriptors         : list Descriptor
}.

(** ** [AvbImageParser]: the text part *)

Module AvbImageParser.
Import Text Regex.

Definition _parse_hash_descriptor (content : string) : HashDescriptor :=
  {| h_image_size     := _extract_pattern content (bytes_after "Image Size:");
     h_hash_algorithm := _extract_pattern content (nonspace_after "Hash Algorithm:");
     h_partition_name := _extract_pattern content (nonspace_after "Partition Name:");
     h_salt           := _extract_pattern content (hex_after "Salt:");
     h_digest         := _extract_pattern content (hex_after "Digest:");
     h_flags          := _extract_pattern content (digits_after "Flags:") |}.

Definition _parse_hashtree_descriptor (content : string) : HashtreeDescriptor :=
  {| t_image_size      := _extract_pattern content (bytes_after "Image Size:");
     t_hash_algorithm  := _extract_pattern content (nonspace_after "Hash Algorithm:");
     t_partition_name  := _extract_pattern content (nonspace_after "Partition Name:");
     t_salt            := _extract_pattern content (hex_after "Salt:");
     t_root_digest     := _extract_pattern content (hex_after "Root Digest:");
     t_flags           := _extract_pattern content (digits_after "Flags:");
     t_tree_offset     := _extract_pattern content (digits_after "Tree Offset:");
     t_tree_size       := _extract_pattern content (bytes_after "Tree Size:");
     t_data_block_size := _extract_pattern content (bytes_after "Data Block Size:");
     t_hash_block_size := _extract_pattern content (bytes_after "Hash Block Size:") |}.

Definition _parse_chain_descriptor (content : string) : ChainDescriptor :=
  {| c_partition_name          := _extract_pattern content (nonspace_after "Partition Name:");
     c_rollback_index_location := _extract_pattern content (digits_after "Rollback Index Location:");
     c_public_key_sha1         := _extract_pattern content (hex_after "Public key (sha1):");
     c_flags                   := _extract_pattern content (digits_after "Flags:") |}.

Definition _parse_prop_descriptor (content : string) : PropDescriptor :=
  match search match_prop_here content with
  | Some (k, v) => {| p_key := Some k; p_value := Some v |}
  | None => {| p_key := None; p_value := None |}
  end.

(** The alternatives of the splitting pattern, in the order of the
    alternation. *)
Definition labels : list string :=
  ["Hash descriptor"; "Hashtree descriptor"; "Chain Partition descriptor"; "Prop"].

(** The text one alternative matches: four blanks, the label, a colon. *)
Definition delimiter (label : string) : string := "    " +++ label +++ ":".

(** The splitting pattern anchored at the start of [s]: the label
    captured and the number of characters matched. *)
Fixpoint match_label_in (ls : list string) (s : string) : option (string * nat) :=
  match ls with
  | [] => None
  | l :: ls' =>
      match strip_prefix (delimiter l) s with
      | Some _ => Some (l, String.length (delimiter l))
      | None => match_label_in ls' s
      end
  end.

Definition match_label : string -> option (string * nat) := match_label_in labels.

(** [re.split] with one capture group: the text before the first match,
    then alternately the captured label and the text up to the next
    match.  [re_split_from skip s] returns the chunk that is open at [s]
    and the items after it; [skip] counts the characters of the current
    match that are still to be consumed. *)
Fixpoint re_split_from (skip : nat) (s : string) : string * list string :=
  match s with
  | EmptyString => (EmptyString, [])
  | String c s' =>
      match skip with
      | S k => re_split_from k s'
      | O =>
          match match_label s with
          | Some (l, n) =>
              let (chunk, rest) := re_split_from (n - 1) s' in
              (EmptyString, l :: chunk :: rest)
          | None =>
              let (chunk, rest) := re_split_from 0 s' in
              (String c chunk, rest)
          end
      end
  end.

Definition re_split (s : string) : list string :=
  let (chunk, rest) := re_split_from 0 s in chunk :: rest.

(** The loop [for i in range(1, len(descriptor_blocks), 2)] over
    [descriptor_blocks[1:]]: the label at [i], the content at [i+1] or
    [""] when there is none. *)
Fixpoint blocks_from (items : list string) : list (string * string) :=
  match items with
  | [] => []
  | [t] => [(t, EmptyString)]
  | t :: c :: rest => (t, c) :: blocks_from rest
  end.

(** The body of the loop: the descriptors one block appends. *)
Definition parse_block (desc_type desc_content : string) : list Descriptor :=
  if String.eqb desc_type "Hash descriptor" then
    [DHash (_parse_hash_descriptor desc_content)]
  else if String.eqb desc_type "Hashtree descriptor" then
    [DHashtree (_parse_hashtree_descriptor desc_content)]
  else if String.eqb desc_type "Chain Partition descriptor" then
    [DChain (_parse_chain_descriptor desc_content)]
  else if String.eqb desc_type "Prop" then
    [DProp (_parse_prop_descriptor desc_content)]
  else [].

Definition _parse_descriptors (output : string) : list Descriptor :=
  flat_map (fun b => parse_block (fst b) (snd b))
           (blocks_from (tl (re_split output))).

(** The part of [parse_image_info] after the subprocess returned
    [output]. *)
Definition parse_output (output : string) : ImageInfo :=
  {| algorithm           := _extract_pattern output (nonspace_after "Algorithm:");
     rollback_index      := _extract_pattern output (digits_after "Rollback Index:");
     flags               := _extract_pattern output (digits_after "Flags:");
     image_size          := _extract_pattern output (bytes_after "Image size:");
     original_image_size := _extract_pattern output (bytes_after "Original image size:");
     descriptors         := _parse_descriptors output |}.

End AvbImageParser.

(** ** Outcomes, events and the external world *)

(** The exceptions the script can raise: on the values it handles, and
    [OSError] (as [FileNotFoundError], [NotADirectoryError] or
    [PermissionError]) from [os.chdir]. *)
Inductive PyExn := TypeError | AttributeError | ValueError | OSError.

(** What running a piece of the script yields: a value, an uncaught
    exception, or [sys.exit(code)]. *)
Inductive Outcome (A : Type) :=
| Ok (a : A)
| Raise (e : PyExn)
| SysExit (code : Z).

Arguments Ok {A} a.
Arguments Raise {A} e.
Arguments SysExit {A} code.

(** The [[WARNING]] and [[ERROR]] lines of the script, by the place that
    prints them.  Informational lines ([[INFO]], [[CMD]], [[OUTPUT]],
    [[DETECT]], [[SUCCESS]], ...) are not recorded. *)
Inductive Message :=
| ErrCommandFailed (argv : list string)
| ErrNoPrivateKeys
| ErrUnsupportedAlgorithm (algorithm : option string)
| ErrNoMatchingKey (algorithm : option string)
| ErrNoSizeInfo (partition_name : string)
| ErrChainedRebuildFailed (partition_name : string)
| ErrRegularRebuildFailed (partition_name : string)
| ErrVbmetaParse
| ErrVbmetaRebuildFailed
| WarnSpecifiedImageMissing (img_file : string)
| ErrNoPartitionImages
| WarnRegularInChainedMode (names : list string)
| WarnRegularSkipped
| ErrNoChainedPartitions
| ErrMissingVbmeta
| WarnVbmetaRebuildFailed
| ErrNoneRebuilt
| ErrMissingRequiredFiles (missing : list string).

(** What an observer of a run sees, in order: the commands handed to
    [subprocess.run] and the messages above. *)
Inductive Event :=
| Invoked (argv : list string)
| Logged (m : Message).

(** The collaborators of the script.  [Env] is the state of the machine
    (files, current directory, entropy).  [subprocess_run] gives the
    standard output of a command that exits with status zero and [None]
    for one that fails ([check=True] turns a failure into
    [CalledProcessError], which [run_command] catches).  [chdir] gives
    [None] when [os.chdir] raises: the directory is missing, is not a
    directory, or may not be entered. *)
Class External (Env : Type) := {
  subprocess_run : list string -> Env -> option string * Env;
  path_exists    : string -> Env -> bool;
  listdir        : string -> Env -> list string;
  getcwd         : Env -> string;
  chdir          : string -> Env -> option Env;
  shutil_move    : string -> string -> Env -> Env;
  token_hex      : nat -> Env -> string * Env;
  path_join      : list string -> string;
  path_isabs     : string -> bool;
  path_normpath  : string -> string
}.

Record State (Env : Type) := {
  env    : Env;
  events : list Event
}.

(** ** The monad of the script: state, exceptions and exit *)

Definition Run (Env : Type) (A : Type) : Type :=
  State Env -> Outcome A * State Env.

Section Monad.
Context {Env : Type} `{External Env}.

Local Abbreviation M := (Run Env).

Definition ret {A : Type} (a : A) : M A := fun st => (Ok a, st).

Definition bind {A B : Type} (m : M A) (k : A -> M B) : M B :=
  fun st =>
    match m st with
    | (Ok a, st') => k a st'
    | (Raise e, st') => (Raise e, st')
    | (SysExit c, st') => (SysExit c, st')
    end.

Definition raise {A : Type} (e : PyExn) : M A := fun st => (Raise e, st).

Definition sys_exit {A : Type} (code : Z) : M A := fun st => (SysExit code, st).

Definition lift {A : Type} (o : Outcome A) : M A := fun st => (o, st).

Definition emit (e : Event) : M unit :=
  fun st => (Ok tt, {| env := env st; events := events st ++ [e] |}).

Definition log (m : Message) : M unit := emit (Logged m).

(** Reading and changing the machine. *)
Definition ask {A : Type} (f : Env -> A) : M A := fun st => (Ok (f (env st)), st).

Definition act {A : Type} (f : Env -> A * Env) : M A :=
  fun st => let (a, e') := f (env st) in (Ok a, {| env := e'; events := events st |}).

Definition os_path_exists (p : string) : M bool := ask (path_exists p).

(** [os.chdir(d)] *)
Definition os_chdir (d : string) : M unit :=
  fun st =>
    match chdir d (env st) with
    | Some e' => (Ok tt, {| env := e'; events := events st |})
    | None => (Raise OSError, st)
    end.

(** [for x in xs: acc = body x acc] *)
Fixpoint for_each {A S : Type} (xs : list A) (body : A -> S -> M S) (acc : S) : M S :=
  match xs with
  | [] => ret acc
  | x :: xs' => bind (body x acc) (for_each xs' body)
  end.

End Monad.

Notation "x <- m ;; k" := (bind m (fun x => k))
  (at level 61, m at next level, right associativity).
Notation "m ;;; k" := (bind m (fun _ => k))
  (at level 61, right associativity).

(** ** Python values *)

Module Py.
Import Text.

(** Truth value of a string that may be [None]: [None] and [""] are
    false. *)
Definition truthy (o : option string) : bool :=
  match o with
  | Some s => Regex.nonempty s
  | None => false
  end.

(** [o == s] for a string [s] and a value [o] that may be [None]. *)
Definition eq_str (o : option string) (s : string) : bool :=
  match o with
  | Some x => String.eqb x s
  | None => false
  end.

(** [o in xs] for a list of strings. *)
Definition in_strs (o : option string) (xs : list string) : bool :=
  existsb (eq_str o) xs.

(** [d.get(key, '')] on a key that may be missing. *)
Definition get_or_empty (o : option string) : string :=
  match o with
  | Some s => s
  | None => EmptyString
  end.

Definition digit_value (c : ascii) : N := N.of_nat (nat_of_ascii c - 48).

Fixpoint int_digits (acc : N) (s : string) : N :=
  match s with
  | EmptyString => acc
  | String c s' => int_digits (10 * acc + digit_value c)%N s'
  end.

(** [sys.get_int_max_str_digits()]: the longest decimal string CPython
    converts (the default of 3.11 and of the releases the limit was
    added to). *)
Definition int_max_str_digits : nat := 4300.

(** [int(s)] for the decimal strings the parser captures: the digits are
    counted, leading zeros included, and a string longer than the limit
    raises [ValueError].  On a string that is not made of digits the
    model answers [ValueError] too; Python does so for most of them (it
    accepts signs, surrounding blanks and underscores), and none reaches
    [int] from the parser. *)
Definition int (s : string) : Outcome N :=
  if Regex.nonempty s && all_chars is_digit s then
    if String.length s <=? int_max_str_digits then Ok (int_digits 0%N s)
    else Raise ValueError
  else Raise ValueError.

(** [str(n)] for a non-negative integer. *)
Definition str (n : N) : string := NilZero.string_of_uint (N.to_uint n).

(** [' '.join(cmd)]: every item has to be a string. *)
Fixpoint all_strings (cmd : list (option string)) : option (list string) :=
  match cmd with
  | [] => Some []
  | Some s :: rest =>
      match all_strings rest with
      | Some ss => Some (s :: ss)
      | None => None
      end
  | None :: _ => None
  end.

(** An insertion-ordered dictionary with string keys: [d[k] = v] keeps
    the position of a key that is already there. *)
Fixpoint dict_set {V : Type} (k : string) (v : V) (d : list (string * V))
  : list (string * V) :=
  match d with
  | [] => [(k, v)]
  | (k', v') :: d' =>
      if String.eqb k' k then (k, v) :: d' else (k', v') :: dict_set k v d'
  end.

(** [dict(pairs)] *)
Definition dict_of {V : Type} (pairs : list (string * V)) : list (string * V) :=
  fold_left (fun d kv => dict_set (fst kv) (snd kv) d) pairs [].

End Py.

(** ** [AvbRebuilder] *)

(** The attributes of the object. *)
Record AvbRebuilder := {
  working_dir    : string;
  avbtool_path   : string;
  private_key    : option string;
  available_keys : list string
}.

(** The loop state of [_rebuild_hash_partition]. *)
Record HashScan := {
  hs_salt      : option string;
  hs_algorithm : string;
  hs_props     : list string
}.

(** The loop state of [_rebuild_chained_partition]. *)
Record ChainScan := {
  cs_hash_desc : option HashDescriptor;
  cs_props     : list PropDescriptor
}.

(** The parsed command line. *)
Record Args := {
  a_partitions      : option (list string);
  a_working_dir     : option string;
  a_avbtool         : option string;
  a_private_key     : option string;
  a_regenerate_salt : bool;
  a_verify_only     : bool;
  a_chained_mode    : bool
}.

Module Planner.
Import Text Py.

(** [desc.get('type') == 'hash' and desc.get('partition_name') == partition_name] *)
Definition matching_hash (partition_name : string) (desc : Descriptor)
  : option HashDescriptor :=
  match desc with
  | DHash h => if eq_str (h_partition_name h) partition_name then Some h else None
  | _ => None
  end.

(** One turn of the loop of [_rebuild_hash_partition].  On a matching
    Hash descriptor with salt reuse on: the salt is taken, the hash
    algorithm is upper-cased ([AttributeError] on [None]) and [SHA256]
    becomes [NONE], and the log line slices the salt ([TypeError] on
    [None]). *)
Definition hash_scan_step (partition_name : string) (use_original_salt : bool)
           (desc : Descriptor) (acc : HashScan) : Outcome HashScan :=
  match matching_hash partition_name desc with
  | Some h =>
      if use_original_salt then
        match h_hash_algorithm h with
        | None => Raise AttributeError
        | Some a =>
            let alg := upper a in
            let alg := if String.eqb alg "SHA256" then "NONE" else alg in
            match h_salt h with
            | None => Raise TypeError
            | Some s =>
                Ok {| hs_salt := Some s; hs_algorithm := alg; hs_props := hs_props acc |}
            end
        end
      else Ok acc
  | None =>
      match desc with
      | DProp p =>
          Ok {| hs_salt := hs_salt acc;
                hs_algorithm := hs_algorithm acc;
                hs_props := hs_props acc ++
                  [get_or_empty (p_key p) +++ ":" +++ get_or_empty (p_value p)] |}
      | _ => Ok acc
      end
  end.

Fixpoint hash_scan (partition_name : string) (use_original_salt : bool)
         (descs : list Descriptor) (acc : HashScan) : Outcome HashScan :=
  match descs with
  | [] => Ok acc
  | d :: ds =>
      match hash_scan_step partition_name use_original_salt d acc with
      | Ok acc' => hash_scan partition_name use_original_salt ds acc'
      | Raise e => Raise e
      | SysExit c => SysExit c
      end
  end.

Definition hash_scan_init : HashScan :=
  {| hs_salt := None; hs_algorithm := "NONE"; hs_props := [] |}.

(** One turn of the loop of [_rebuild_chained_partition]. *)
Definition chain_scan_step (partition_name : string) (acc : ChainScan)
           (desc : Descriptor) : ChainScan :=
  match matching_hash partition_name desc with
  | Some h => {| cs_hash_desc := Some h; cs_props := cs_props acc |}
  | None =>
      match desc with
      | DProp p => {| cs_hash_desc := cs_hash_desc acc; cs_props := cs_props acc ++ [p] |}
      | _ => acc
      end
  end.

Definition chain_scan (partition_name : string) (descs : list Descriptor) : ChainScan :=
  fold_left (chain_scan_step partition_name) descs
            {| cs_hash_desc := None; cs_props := [] |}.

(** [if hash_desc and use_original_salt: salt = hash_desc['salt'] else: salt = None] *)
Definition chain_salt (hash_desc : option HashDescriptor) (use_original_salt : bool)
  : option string :=
  match hash_desc with
  | Some h => if use_original_salt then h_salt h else None
  | None => None
  end.

(** [if salt and salt != "0" * len(salt): cmd.extend(["--salt", salt])] *)
Definition chain_salt_args (salt : option string) : list (option string) :=
  match salt with
  | Some s =>
      if Regex.nonempty s && negb (String.eqb s (zeros (String.length s)))
      then [Some "--salt"; Some s] else []
  | None => []
  end.

(** [if prop.get('key') and prop.get('value'): cmd.extend(["--prop", ...])] *)
Definition chain_prop_args (p : PropDescriptor) : list (option string) :=
  match p_key p, p_value p with
  | Some k, Some v =>
      if Regex.nonempty k && Regex.nonempty v
      then [Some "--prop"; Some (k +++ ":" +++ v)] else []
  | _, _ => []
  end.

(** [for prop in partition_props: cmd.extend(["--prop", prop])] *)
Definition hash_prop_args (prop : string) : list (option string) :=
  [Some "--prop"; Some prop].

End Planner.

Section Rebuilder.
Context {Env : Type} `{External Env}.

Local Abbreviation M := (Run Env).

(** [sys.executable or "python3"] *)
Variable PYTHON_EXECUTABLE : string.

Import Text Py Planner.

(** [AvbImageParser.run_command]: the [[CMD]] line joins the items of
    the command, so a [None] among them raises [TypeError] before the
    subprocess starts. *)
Definition run_command (cmd : list (option string)) : M (option string) :=
  match all_strings cmd with
  | None => raise TypeError
  | Some argv =>
      emit (Invoked argv) ;;;
      result <- act (subprocess_run argv) ;;
      match result with
      | Some stdout => ret (Some stdout)
      | None => log (ErrCommandFailed argv) ;;; ret None
      end
  end.

Definition parse_image_info (avbtool : string) (image_path : string)
  : M (option ImageInfo) :=
  result <- run_command [Some PYTHON_EXECUTABLE; Some avbtool; Some "info_image";
                         Some "--image"; Some image_path] ;;
  match result with
  | Some stdout =>
      if Regex.nonempty stdout then ret (Some (AvbImageParser.parse_output stdout))
      else ret None
  | None => ret None
  end.

(** *** Construction *)

Definition key_candidates : list string :=
  ["tools/pem/testkey_rsa4096.pem"; "tools/pem/testkey_rsa2048.pem"].

Definition auto_detect_private_key (wd : string) : M (list string) :=
  found <- for_each key_candidates
             (fun key_path acc =>
                let absolute_key_path := path_normpath (path_join [wd; key_path]) in
                e <- os_path_exists absolute_key_path ;;
                ret (if e then acc ++ [absolute_key_path] else acc))
             [] ;;
  match found with
  | [] => log ErrNoPrivateKeys ;;; sys_exit 1%Z
  | _ => ret found
  end.

(** [AvbRebuilder.__init__] *)
Definition init (working_dir_arg avbtool_arg private_key_arg : option string)
  : M AvbRebuilder :=
  cwd <- ask getcwd ;;
  let wd := if truthy working_dir_arg then get_or_empty working_dir_arg else cwd in
  let tool := if truthy avbtool_arg then get_or_empty avbtool_arg
              else path_join [wd; "tools"; "avbtool.py"] in
  os_chdir wd ;;;
  match private_key_arg with
  | Some pk =>
      if Regex.nonempty pk then
        let key := if path_isabs pk then path_normpath pk
                   else path_normpath (path_join [wd; pk]) in
        ret {| working_dir := wd; avbtool_path := tool;
               private_key := Some key; available_keys := [key] |}
      else
        keys <- auto_detect_private_key wd ;;
        ret {| working_dir := wd; avbtool_path := tool;
               private_key := None; available_keys := keys |}
  | None =>
      keys <- auto_detect_private_key wd ;;
      ret {| working_dir := wd; avbtool_path := tool;
             private_key := None; available_keys := keys |}
  end.

(** *** Key selector *)

Definition detect_required_key_type (algorithm : option string) : M string :=
  if in_strs algorithm ["SHA256_RSA4096"; "SHA512_RSA4096"] then ret "4096"
  else if in_strs algorithm ["SHA256_RSA2048"; "SHA512_RSA2048"] then ret "2048"
  else log (ErrUnsupportedAlgorithm algorithm) ;;; sys_exit 1%Z.

Definition get_key_for_algorithm (self : AvbRebuilder) (algorithm : option string)
  : M string :=
  required_type <- detect_required_key_type algorithm ;;
  if truthy (private_key self) then ret (get_or_empty (private_key self))
  else
    match find (fun key_path => contains ("rsa" +++ required_type) key_path)
               (available_keys self) with
    | Some key_path => ret key_path
    | None => log (ErrNoMatchingKey algorithm) ;;; sys_exit 1%Z
    end.

(** *** Discovery *)

(** The parameter [exclude_vbmeta] of the script is not read. *)
Definition detect_partition_images : M (list (string * string)) :=
  for_each ["boot"; "init_boot"]
    (fun partition acc =>
       let img_file := partition +++ ".img" in
       e <- os_path_exists img_file ;;
       ret (if e then dict_set partition img_file acc else acc))
    [].

(** *** Per-partition planners *)

(** The initial value of [cmd] in [_rebuild_chained_partition]. *)
Definition chained_base_cmd (self : AvbRebuilder) (partition_name image_path : string)
           (partition_size : N) (algorithm suitable_key : string)
           (rollback_index : option string) : list (option string) :=
  [Some PYTHON_EXECUTABLE; Some (avbtool_path self);
   Some "add_hash_footer";
   Some "--image"; Some image_path;
   Some "--partition_name"; Some partition_name;
   Some "--partition_size"; Some (str partition_size);
   Some "--algorithm"; Some algorithm;
   Some "--key"; Some suitable_key;
   Some "--rollback_index"; rollback_index].

(** The initial value of [cmd] in [_rebuild_hash_partition]. *)
Definition hash_base_cmd (self : AvbRebuilder) (partition_name image_path : string)
           (partition_size : N) (algorithm : string) : list (option string) :=
  [Some PYTHON_EXECUTABLE; Some (avbtool_path self);
   Some "add_hash_footer";
   Some "--image"; Some image_path;
   Some "--partition_name"; Some partition_name;
   Some "--partition_size"; Some (str partition_size);
   Some "--algorithm"; Some algorithm].

(** The command [_rebuild_chained_partition] builds. *)
Definition chained_plan (self : AvbRebuilder) (partition_name image_path : string)
           (partition_size : N) (algorithm : string) (rollback_index : option string)
           (current_info : ImageInfo) (use_original_salt : bool)
  : M (list (option string)) :=
  let scan := chain_scan partition_name (descriptors current_info) in
  let salt := chain_salt (cs_hash_desc scan) use_original_salt in
  suitable_key <- get_key_for_algorithm self (Some algorithm) ;;
  ret (chained_base_cmd self partition_name image_path partition_size algorithm
                        suitable_key rollback_index
       ++ chain_salt_args salt
       ++ flat_map chain_prop_args (cs_props scan)).

Definition _rebuild_chained_partition (self : AvbRebuilder)
           (partition_name image_path : string) (partition_size : N)
           (algorithm : string) (rollback_index : option string)
           (current_info : ImageInfo) (use_original_salt : bool) : M bool :=
  cmd <- chained_plan self partition_name image_path partition_size algorithm
                      rollback_index current_info use_original_salt ;;
  result <- run_command cmd ;;
  match result with
  | Some _ => ret true
  | None => log (ErrChainedRebuildFailed partition_name) ;;; ret false
  end.

(** The command [_rebuild_hash_partition] builds.  [vbmeta_info] is
    accepted and not used, as in the script. *)
Definition hash_plan (self : AvbRebuilder) (partition_name image_path : string)
           (partition_size : N) (vbmeta_info : option ImageInfo)
           (current_info : ImageInfo) (use_original_salt : bool)
  : M (list (option string)) :=
  scan <- lift (hash_scan partition_name use_original_salt
                          (descriptors current_info) hash_scan_init) ;;
  salt <- (if truthy (hs_salt scan) then ret (get_or_empty (hs_salt scan))
           else act (token_hex 32)) ;;
  ret (hash_base_cmd self partition_name image_path partition_size (hs_algorithm scan)
       ++ [Some "--salt"; Some salt]
       ++ flat_map hash_prop_args (hs_props scan)).

Definition _rebuild_hash_partition (self : AvbRebuilder)
           (partition_name image_path : string) (partition_size : N)
           (vbmeta_info : option ImageInfo) (current_info : ImageInfo)
           (use_original_salt : bool) : M bool :=
  cmd <- hash_plan self partition_name image_path partition_size vbmeta_info
                   current_info use_original_salt ;;
  result <- run_command cmd ;;
  match result with
  | Some _ => ret true
  | None => log (ErrRegularRebuildFailed partition_name) ;;; ret false
  end.

(** *** Classifier *)

(** [current_info and current_info.get('algorithm') and
    current_info['algorithm'] != 'NONE'], the test of both
    [rebuild_partition] and [rebuild_all]. *)
Definition is_chained (current_info : option ImageInfo) : bool :=
  match current_info with
  | Some info => truthy (algorithm info) && negb (eq_str (algorithm info) "NONE")
  | None => false
  end.

Definition erase_footer_cmd (self : AvbRebuilder) (image_path : string)
  : list (option string) :=
  [Some PYTHON_EXECUTABLE; Some (avbtool_path self); Some "erase_footer";
   Some "--image"; Some image_path].

Definition rebuild_partition (self : AvbRebuilder) (partition_name image_path : string)
           (vbmeta_info : option ImageInfo) (use_original_salt : bool) : M bool :=
  current_info <- parse_image_info (avbtool_path self) image_path ;;
  match current_info with
  | Some info =>
      if truthy (image_size info) then
        partition_size <- lift (int (get_or_empty (image_size info))) ;;
        if is_chained current_info then
          run_command (erase_footer_cmd self image_path) ;;;
          _rebuild_chained_partition self partition_name image_path partition_size
            (get_or_empty (algorithm info)) (rollback_index info) info use_original_salt
        else
          run_command (erase_footer_cmd self image_path) ;;;
          _rebuild_hash_partition self partition_name image_path partition_size
            vbmeta_info info use_original_salt
      else log (ErrNoSizeInfo partition_name) ;;; ret false
  | None => log (ErrNoSizeInfo partition_name) ;;; ret false
  end.

(** *** Umbrella container *)

(** [create_backup]: the backup is disabled, the result is [None]. *)
Definition create_backup : M (option string) := ret None.

(** [backup_dir] is accepted and not used, as in the script. *)
Definition rebuild_vbmeta (self : AvbRebuilder) (backup_dir : option string)
           (partition_images : list (string * string)) : M bool :=
  let original_vbmeta := "vbmeta.img" in
  vbmeta_info <- parse_image_info (avbtool_path self) original_vbmeta ;;
  match vbmeta_info with
  | None => log ErrVbmetaParse ;;; ret false
  | Some info =>
      let vbmeta_algorithm := algorithm info in
      suitable_key <- get_key_for_algorithm self vbmeta_algorithm ;;
      let cmd := [Some PYTHON_EXECUTABLE; Some (avbtool_path self);
                  Some "make_vbmeta_image";
                  Some "--output"; Some "vbmeta_new.img";
                  Some "--algorithm"; vbmeta_algorithm;
                  Some "--key"; Some suitable_key;
                  Some "--rollback_index"; rollback_index info;
                  Some "--flags"; flags info;
                  Some "--rollback_index_location"; Some "0";
                  Some "--padding_size"; Some "4096"]
                 ++ [Some "--include_descriptors_from_image"; Some original_vbmeta] in
      cmd <- for_each partition_images
               (fun item acc =>
                  e <- os_path_exists (snd item) ;;
                  ret (if e then acc ++ [Some "--include_descriptors_from_image";
                                         Some (snd item)]
                       else acc))
               cmd ;;
      result <- run_command cmd ;;
      produced <- match result with
                  | Some _ => os_path_exists "vbmeta_new.img"
                  | None => ret false
                  end ;;
      if produced then
        act (fun e => (tt, shutil_move "vbmeta_new.img" "vbmeta.img" e)) ;;;
        ret true
      else log ErrVbmetaRebuildFailed ;;; ret false
  end.

Definition verify_result (self : AvbRebuilder) : M unit :=
  e <- os_path_exists "vbmeta.img" ;;
  (if e then parse_image_info (avbtool_path self) "vbmeta.img" ;;; ret tt
   else ret tt) ;;;
  partition_images <- detect_partition_images ;;
  for_each partition_images
    (fun item _ => parse_image_info (avbtool_path self) (snd item) ;;; ret tt)
    tt.

(** *** Orchestrator, phase by phase *)

(** Discover: the partition images of the run. *)
Definition discover (partitions : option (list string)) : M (list (string * string)) :=
  match partitions with
  | Some ((_ :: _) as ps) =>
      for_each ps
        (fun partition acc =>
           let img_file := if endswith partition ".img" then partition
                           else partition +++ ".img" in
           e <- os_path_exists img_file ;;
           if e then ret (dict_set (remove_all ".img" img_file) img_file acc)
           else log (WarnSpecifiedImageMissing img_file) ;;; ret acc)
        []
  | _ => detect_partition_images
  end.

(** Classify: the chained and the regular partitions, in order. *)
Definition classify (self : AvbRebuilder) (partition_images : list (string * string))
  : M (list (string * string) * list (string * string)) :=
  for_each partition_images
    (fun item acc =>
       current_info <- parse_image_info (avbtool_path self) (snd item) ;;
       ret (if is_chained current_info then (fst acc ++ [item], snd acc)
            else (fst acc, snd acc ++ [item])))
    ([], []).

(** The loop [for partition_name, image_path in ...: if
    self.rebuild_partition(...): success_count += 1]. *)
Definition rebuild_each (self : AvbRebuilder) (items : list (string * string))
           (vbmeta_info : option ImageInfo) (use_original_salt : bool)
           (success_count : nat) : M nat :=
  for_each items
    (fun item count =>
       ok <- rebuild_partition self (fst item) (snd item) vbmeta_info use_original_salt ;;
       ret (if ok then count + 1 else count))
    success_count.

(** The argument [{'descriptors': []}] the chained loop passes. *)
Definition no_vbmeta_info : ImageInfo :=
  {| algorithm := None; rollback_index := None; flags := None; image_size := None;
     original_image_size := None; descriptors := [] |}.

(** The regular partitions and the umbrella container:
    [if regular_partitions and not chained_mode: ...]. *)
Definition regular_and_umbrella (self : AvbRebuilder) (backup_dir : option string)
           (regular_partitions : list (string * string))
           (use_original_salt chained_mode : bool) (success_count : nat) : M nat :=
  match regular_partitions with
  | _ :: _ =>
      if chained_mode then ret success_count
      else
        vbmeta_info <- parse_image_info (avbtool_path self) "vbmeta.img" ;;
        success_count <- rebuild_each self regular_partitions vbmeta_info
                           use_original_salt success_count ;;
        ok <- rebuild_vbmeta self backup_dir (dict_of regular_partitions) ;;
        (if ok then ret tt else log WarnVbmetaRebuildFailed) ;;;
        ret success_count
  | [] => ret success_count
  end.

(** The end of the run: [if success_count == 0: ... return False], then
    the verification pass. *)
Definition finish (self : AvbRebuilder) (success_count : nat) : M bool :=
  if Nat.eqb success_count 0 then log ErrNoneRebuilt ;;; ret false
  else verify_result self ;;; ret true.

(** The mode gate between classification and the first mutation: the
    regular partitions that remain, or [None] when the run stops here
    with [return False].  (In chained mode the script also resets
    [partition_images], which it does not read again.) *)
Definition mode_gate (chained_mode : bool)
           (chained_partitions regular_partitions : list (string * string))
  : M (option (list (string * string))) :=
  if chained_mode then
    regular_partitions <-
      match regular_partitions with
      | _ :: _ =>
          log (WarnRegularInChainedMode (map fst regular_partitions)) ;;;
          log WarnRegularSkipped ;;;
          ret []
      | [] => ret regular_partitions
      end ;;
    match chained_partitions with
    | [] => log ErrNoChainedPartitions ;;; ret None
    | _ => ret (Some regular_partitions)
    end
  else
    match regular_partitions with
    | _ :: _ =>
        e <- os_path_exists "vbmeta.img" ;;
        if e then ret (Some regular_partitions)
        else log ErrMissingVbmeta ;;; ret None
    | [] => ret (Some regular_partitions)
    end.

Definition rebuild_all (self : AvbRebuilder) (partitions : option (list string))
           (use_original_salt chained_mode : bool) : M bool :=
  backup_dir <- create_backup ;;
  partition_images <- discover partitions ;;
  match partition_images with
  | [] => log ErrNoPartitionImages ;;; ret false
  | _ =>
      buckets <- classify self partition_images ;;
      let chained_partitions := fst buckets in
      gate <- mode_gate chained_mode chained_partitions (snd buckets) ;;
      match gate with
      | None => ret false
      | Some regular_partitions =>
          success_count <- rebuild_each self chained_partitions (Some no_vbmeta_info)
                             use_original_salt 0 ;;
          success_count <- regular_and_umbrella self backup_dir regular_partitions
                             use_original_salt chained_mode success_count ;;
          finish self success_count
      end
  end.

(** *** Entry point *)

(** [has_partition_images] of [main]. *)
Definition has_partition_images (partitions : option (list string)) : M bool :=
  match partitions with
  | Some ((_ :: _) as ps) =>
      for_each ps
        (fun partition (found : bool) =>
           if found then ret true
           else os_path_exists (if endswith partition ".img" then partition
                                else partition +++ ".img"))
        false
  | _ =>
      files <- ask (listdir ".") ;;
      ret (existsb (fun file => endswith file ".img"
                                && negb (String.eqb file "vbmeta.img")) files)
  end.

Definition main (args : Args) : M bool :=
  cwd <- ask getcwd ;;
  let wd := if truthy (a_working_dir args) then get_or_empty (a_working_dir args)
            else cwd in
  let tool := if truthy (a_avbtool args) then get_or_empty (a_avbtool args)
              else path_join [wd; "tools"; "avbtool.py"] in
  tool_exists <- os_path_exists tool ;;
  let missing_files := if tool_exists then [] else [tool] in
  missing_files <-
    (if a_chained_mode args then ret missing_files
     else if negb (a_verify_only args) then
       e <- os_path_exists "vbmeta.img" ;;
       ret (if e then missing_files else missing_files ++ ["vbmeta.img"])
     else ret missing_files) ;;
  missing_files <-
    (if negb (a_verify_only args) then
       found <- has_partition_images (a_partitions args) ;;
       ret (if found then missing_files
            else missing_files ++ ["partition image files (e.g. boot.img)"])
     else ret missing_files) ;;
  match missing_files with
  | _ :: _ =>
      if negb (a_verify_only args) then
        log (ErrMissingRequiredFiles missing_files) ;;; ret false
      else
        self <- init (Some wd) (Some tool) (a_private_key args) ;;
        verify_result self ;;; ret true
  | [] =>
      self <- init (Some wd) (Some tool) (a_private_key args) ;;
      if a_verify_only args then verify_result self ;;; ret true
      else rebuild_all self (a_partitions args) (negb (a_regenerate_salt args))
                       (a_chained_mode args)
  end.

(** [success = main(); sys.exit(0 if success else 1)] *)
Definition script (args : Args) : M unit :=
  success <- main args ;;
  sys_exit (if success then 0%Z else 1%Z).

End Rebuilder.


(** ** Vocabulary of the specification

    Notions the statements below use and the script does not name. *)

Module Spec.
Import Text Py Planner.

(** The four algorithm names [detect_required_key_type] knows. *)
Definition recognized (algorithm : option string) : bool :=
  in_strs algorithm
    ["SHA256_RSA4096"; "SHA512_RSA4096"; "SHA256_RSA2048"; "SHA512_RSA2048"].

(** The Hash descriptor of a partition: the last one of the sequence
    whose partition name is the partition's. *)
Fixpoint last_matching_hash (partition_name : string) (descs : list Descriptor)
  : option HashDescriptor :=
  match descs with
  | [] => None
  | d :: ds =>
      match last_matching_hash partition_name ds with
      | Some h => Some h
      | None => matching_hash partition_name d
      end
  end.

(** The Prop descriptors of a sequence, in order. *)
Definition prop_descriptors (descs : list Descriptor) : list PropDescriptor :=
  flat_map (fun d => match d with DProp p => [p] | _ => [] end) descs.

(** A salt made of one or more zero digits and nothing else. *)
Definition all_zero_digits (s : string) : bool :=
  Regex.nonempty s && all_chars (Ascii.eqb "0"%char) s.

(** Some item of a command is the string [flag]. *)
Definition has_flag (flag : string) (args : list (option string)) : bool :=
  existsb (fun o => eq_str o flag) args.

(** The [key:value] text of a property, an absent side rendered empty. *)
Definition render_prop (p : PropDescriptor) : string :=
  get_or_empty (p_key p) +++ ":" +++ get_or_empty (p_value p).

(** The footer algorithm of a regular plan, read off the metadata: [NONE]
    unless the salt is reused and the partition has a Hash descriptor, in
    which case the upper-cased hash algorithm of that descriptor with
    [SHA256] replaced by [NONE]. *)
Definition regular_footer_algorithm (use_original_salt : bool)
           (partition_name : string) (descs : list Descriptor) : string :=
  match (if use_original_salt then last_matching_hash partition_name descs else None) with
  | Some h =>
      match h_hash_algorithm h with
      | Some a => if String.eqb (upper a) "SHA256" then "NONE" else upper a
      | None => "NONE"
      end
  | None => "NONE"
  end.

(** A metadata report as a sequence of descriptor blocks: the text before
    the first block, then for each block its introducing label and its
    body. *)
Inductive Label := LHash | LHashtree | LChain | LProp.

Definition label_text (l : Label) : string :=
  match l with
  | LHash => "Hash descriptor"
  | LHashtree => "Hashtree descriptor"
  | LChain => "Chain Partition descriptor"
  | LProp => "Prop"
  end.

(** The variant a label announces. *)
Definition label_tag (l : Label) : string :=
  match l with
  | LHash => "hash"
  | LHashtree => "hashtree"
  | LChain => "chain"
  | LProp => "prop"
  end.

Definition render_blocks (blocks : list (Label * string)) : string :=
  fold_right
    (fun b acc => AvbImageParser.delimiter (label_text (fst b)) +++ snd b +++ acc)
    EmptyString blocks.

Definition render_report (pre : string) (blocks : list (Label * string)) : string :=
  pre +++ render_blocks blocks.

(** A piece of text in which no block starts. *)
Definition label_free (s : string) : bool :=
  forallb (fun l => negb (contains (AvbImageParser.delimiter l) s))
          AvbImageParser.labels.

(** The record a block stands for. *)
Definition expected_descriptor (b : Label * string) : Descriptor :=
  match fst b with
  | LHash => DHash (AvbImageParser._parse_hash_descriptor (snd b))
  | LHashtree => DHashtree (AvbImageParser._parse_hashtree_descriptor (snd b))
  | LChain => DChain (AvbImageParser._parse_chain_descriptor (snd b))
  | LProp => DProp (AvbImageParser._parse_prop_descriptor (snd b))
  end.

(** All the suffixes of a string, the string itself first. *)
Fixpoint tails (s : string) : list string :=
  s :: match s with
       | EmptyString => []
       | String _ s' => tails s'
       end.

(** The first four characters of the text, as far as it goes, are
    blanks. *)
Definition blank_start (u : string) : bool :=
  all_chars (fun a => Ascii.eqb a " "%char) (substring 0 4 u).

(** No proper non-empty suffix of the delimiter of [l] starts like a
    delimiter. *)
Definition no_overlap (l : string) : bool :=
  let d := AvbImageParser.delimiter l in
  forallb (fun u => Nat.eqb (String.length u) 0
                    || Nat.eqb (String.length u) (String.length d)
                    || negb (blank_start u))
          (tails d).

(** What may follow a piece of text in a report: nothing, or a block. *)
Definition follows (r : string) : Prop :=
  r = "" \/ exists l r', r = AvbImageParser.delimiter l +++ r'.

(** The items [re.split] yields after the leading text: label and body of
    every block. *)
Definition block_items (blocks : list (Label * string)) : list string :=
  flat_map (fun b => [label_text (fst b); snd b]) blocks.

(** An event that leaves every image as it is: a message, or a call of
    the report subcommand. *)
Definition read_only (e : Event) : Prop :=
  match e with
  | Invoked argv => nth 2 argv EmptyString = "info_image"
  | Logged _ => True
  end.

(** A computation that always returns, and adds read-only events only. *)
Definition quiet {Env A : Type} (m : Run Env A) : Prop :=
  forall st, exists a st' evs,
    m st = (Ok a, st')
    /\ events st' = events st ++ evs
    /\ Forall read_only evs.

(** A computation that always returns and leaves the state as it is. *)
Definition silent {Env A : Type} (m : Run Env A) : Prop :=
  forall st, exists a, m st = (Ok a, st).

End Spec.

(** ** A small machine to run the script on

    Files are names, the report of [info_image] for an image is a fixed
    text, footer commands succeed, and [make_vbmeta_image] succeeds (and
    writes its output file) or fails as the machine says. *)

Module Bench.
Import Text.

Record Machine := {
  m_files       : list string;
  m_reports     : list (string * string);
  m_make_vbmeta : bool
}.

Fixpoint lookup (k : string) (d : list (string * string)) : option string :=
  match d with
  | [] => None
  | (k', v) :: d' => if String.eqb k' k then Some v else lookup k d'
  end.

Definition has_file (p : string) (m : Machine) : bool :=
  existsb (String.eqb p) (m_files m).

Definition add_file (p : string) (m : Machine) : Machine :=
  {| m_files := if has_file p m then m_files m else p :: m_files m;
     m_reports := m_reports m;
     m_make_vbmeta := m_make_vbmeta m |}.

Definition remove_file (p : string) (m : Machine) : Machine :=
  {| m_files := filter (fun f => negb (String.eqb f p)) (m_files m);
     m_reports := m_reports m; m_make_vbmeta := m_make_vbmeta m |}.

Definition run (argv : list string) (m : Machine) : option string * Machine :=
  match argv with
  | [_; _; "info_image"; "--image"; img] =>
      (if has_file img m then lookup img (m_reports m) else None, m)
  | [_; _; "erase_footer"; "--image"; img] =>
      (if has_file img m then Some EmptyString else None, m)
  | _ :: _ :: "add_hash_footer" :: _ => (Some EmptyString, m)
  | _ :: _ :: "make_vbmeta_image" :: "--output" :: out :: _ =>
      if m_make_vbmeta m then (Some EmptyString, add_file out m) else (None, m)
  | _ => (None, m)
  end.

Definition fixed_salt : string :=
  "5a5a5a5a5a5a5a5a5a5a5a5a5a5a5a5a5a5a5a5a5a5a5a5a5a5a5a5a5a5a5a5a".

#[global] Instance machine_external : External Machine := {|
  subprocess_run := run;
  path_exists := has_file;
  listdir := fun _ m => m_files m;
  getcwd := fun _ => "/work";
  chdir := fun d m => if String.eqb d "/work" then Some m else None;
  shutil_move := fun src dst m => add_file dst (remove_file src m);
  token_hex := fun _ m => (fixed_salt, m);
  path_join := join "/";
  path_isabs := fun p => match p with String "/" _ => true | _ => false end;
  path_normpath := fun p => p
|}.

Definition boot (m : Machine) : State Machine := {| env := m; events := [] |}.

Definition nl : string := String (ascii_of_nat 10) EmptyString.

Definition lines (ls : list string) : string :=
  fold_right (fun l acc => l +++ nl +++ acc) EmptyString ls.

(** The head of a report: footer and header fields. *)
Definition report_head (algorithm : string) (rollback_lines : list string)
  : list string :=
  ["Footer version:           1.0";
   "Image size:               67108864 bytes";
   "Original image size:      33554432 bytes";
   "VBMeta offset:            33554432";
   "VBMeta size:              704 bytes";
   "--";
   "Minimum libavb version:   1.0";
   "Header Block:             256 bytes";
   "Authentication Block:     0 bytes";
   "Auxiliary Block:          448 bytes";
   "Algorithm:                " +++ algorithm]
  ++ rollback_lines ++
  ["Flags:                    0";
   "Rollback Index Location:  0";
   "Release String:           'avbtool 1.2.0'";
   "Descriptors:"].

Definition rollback_line : list string := ["Rollback Index:           0"].

(** A Hash descriptor block for [boot]; [salt_line] is its salt line, or
    nothing. *)
Definition hash_block (hash_algorithm : string) (salt_line : list string) : list string :=
  ["    Hash descriptor:";
   "      Image Size:            33554432 bytes";
   "      Hash Algorithm:        " +++ hash_algorithm;
   "      Partition Name:        boot"]
  ++ salt_line ++
  ["      Digest:                9bd1f2a3";
   "      Flags:                 0"].

Definition salt_line (salt : string) : list string :=
  ["      Salt:                  " +++ salt].

Definition prop_lines : list string :=
  ["    Prop: com.android.build.boot.os_version -> '13'";
   "    Prop: com.android.build.boot.fingerprint -> ''"].

(** A regular [boot.img]. *)
Definition regular_report (hash_algorithm : string) (salt : list string) : string :=
  lines (report_head "NONE" rollback_line ++ hash_block hash_algorithm salt ++ prop_lines).

(** A chained [boot.img]. *)
Definition chained_report (algorithm : string) (rollback_lines salt : list string)
  : string :=
  lines (report_head algorithm rollback_lines ++ hash_block "sha256" salt ++ prop_lines).

(** The report of a [vbmeta.img]. *)
Definition vbmeta_report (algorithm : string) : string :=
  lines (["Minimum libavb version:   1.0";
          "Header Block:             256 bytes";
          "Authentication Block:     576 bytes";
          "Auxiliary Block:          2368 bytes";
          "Algorithm:                " +++ algorithm;
          "Rollback Index:           0";
          "Flags:                    0";
          "Rollback Index Location:  0";
          "Release String:           'avbtool 1.2.0'";
          "Descriptors:"]
         ++ hash_block "sha256" (salt_line "1f2e3d4c")).

Definition key4096 : string := "/work/tools/pem/testkey_rsa4096.pem".
Definition key2048 : string := "/work/tools/pem/testkey_rsa2048.pem".

Definition tool : string := "/work/tools/avbtool.py".

(** A rebuilder with auto-detected keys. *)
Definition auto_self (keys : list string) : AvbRebuilder :=
  {| working_dir := "/work"; avbtool_path := tool;
     private_key := None; available_keys := keys |}.

(** A rebuilder with the key given on the command line. *)
Definition manual_self (key : string) : AvbRebuilder :=
  {| working_dir := "/work"; avbtool_path := tool;
     private_key := Some key; available_keys := [key] |}.

Definition python : string := "python3".

(** Parsed metadata of images used below. *)
Definition zero_salt_info : ImageInfo :=
  AvbImageParser.parse_output
    (chained_report "SHA256_RSA2048" rollback_line (salt_line "00000000")).

Definition zero_salt_hash : HashDescriptor :=
  {| h_image_size := Some "33554432"; h_hash_algorithm := Some "sha256";
     h_partition_name := Some "boot"; h_salt := Some "00000000";
     h_digest := Some "9bd1f2a3"; h_flags := Some "0" |}.

(** A chained [boot.img] whose report has two Hash descriptors for
    [boot]: the first with a salt of zero digits, the second with another
    salt. *)
Definition two_hash_info : ImageInfo :=
  AvbImageParser.parse_output
    (lines (report_head "SHA256_RSA2048" rollback_line
            ++ hash_block "sha256" (salt_line "00000000")
            ++ hash_block "sha256" (salt_line "abcd1234"))).

Definition sha256_info : ImageInfo :=
  AvbImageParser.parse_output (regular_report "sha256" (salt_line "a1b2c3d4")).

Definition sha512_info : ImageInfo :=
  AvbImageParser.parse_output (regular_report "sha512" (salt_line "a1b2c3d4")).

Definition no_salt_info : ImageInfo :=
  AvbImageParser.parse_output (regular_report "sha256" []).

Definition no_rollback_info : ImageInfo :=
  AvbImageParser.parse_output
    (chained_report "SHA256_RSA2048" [] (salt_line "a1b2c3d4")).

(** Working directories. *)
Definition machine (reports : list (string * string)) (make_vbmeta : bool) : Machine :=
  {| m_files := map fst reports ++ [key4096; key2048; tool];
     m_reports := reports;
     m_make_vbmeta := make_vbmeta |}.

Definition size_64m : N := 67108864%N.

(** A report cut into its head and its descriptor blocks. *)
Definition sample_head : string := lines (report_head "NONE" rollback_line).

Definition sample_blocks : list (Spec.Label * string) :=
  [(Spec.LHash,
    nl +++ lines (tl (hash_block "sha256" (salt_line "a1b2c3d4"))));
   (Spec.LProp, " com.android.build.boot.os_version -> '13'" +++ nl);
   (Spec.LProp, " com.android.build.boot.fingerprint -> ''" +++ nl)].

(** A regular [boot.img] whose Hash descriptor has no salt line, next to
    its [vbmeta.img]. *)
Definition no_salt_machine : Machine :=
  machine [("boot.img", regular_report "sha256" []);
           ("vbmeta.img", vbmeta_report "SHA256_RSA2048")] true.

(** A chained [boot.img] whose report has no rollback index line. *)
Definition no_rollback_machine : Machine :=
  machine [("boot.img", chained_report "SHA256_RSA2048" [] (salt_line "a1b2c3d4"))] true.

(** A regular [boot.img] and no [vbmeta.img]. *)
Definition no_vbmeta_machine : Machine :=
  machine [("boot.img", regular_report "sha256" (salt_line "a1b2c3d4"))] true.

(** A regular [boot.img] next to a [vbmeta.img] signed with [algorithm];
    [make_vbmeta] tells whether the signer can build the new container. *)
Definition umbrella_machine (algorithm : string) (make_vbmeta : bool) : Machine :=
  machine [("boot.img", regular_report "sha256" (salt_line "a1b2c3d4"));
           ("vbmeta.img", vbmeta_report algorithm)] make_vbmeta.

(** A chained [init_boot.img] next to a regular [boot.img] and its
    [vbmeta.img]. *)
Definition mixed_machine : Machine :=
  machine [("init_boot.img",
            chained_report "SHA256_RSA2048" rollback_line (salt_line "00000000"));
           ("boot.img", regular_report "sha256" (salt_line "a1b2c3d4"));
           ("vbmeta.img", vbmeta_report "SHA256_RSA2048")] true.


(** The command line with no option given. *)
Definition default_args : Args :=
  {| a_partitions := None; a_working_dir := None; a_avbtool := None;
     a_private_key := None; a_regenerate_salt := false; a_verify_only := false;
     a_chained_mode := false |}.

End Bench.


(** ** Vocabulary of the further properties *)

Module Trace.
Import Text Py.

(** The strength a recognised algorithm name asks for. *)
Definition strength_of (algorithm : option string) : string :=
  if in_strs algorithm ["SHA256_RSA4096"; "SHA512_RSA4096"] then "4096" else "2048".

(** Whatever its outcome, the computation only adds events, and the ones
    it adds satisfy [P]. *)
Definition emits {Env A : Type} (P : Event -> Prop) (m : Run Env A) : Prop :=
  forall st, exists evs,
    events (snd (m st)) = events st ++ evs /\ Forall P evs.

(** When the computation returns, its result satisfies [Q]. *)
Definition returns {Env A : Type} (Q : A -> Prop) (m : Run Env A) : Prop :=
  forall st a st', m st = (Ok a, st') -> Q a.

(** A call of the signing toolkit: the interpreter, the tool, and one of
    the subcommands [subs]; messages pass. *)
Definition toolkit_call (python tool : string) (subs : list string) (e : Event) : Prop :=
  match e with
  | Invoked argv => exists sub rest, argv = python :: tool :: sub :: rest /\ In sub subs
  | Logged _ => True
  end.

(** A command starts with the interpreter, the tool and the subcommand
    [sub]. *)
Definition calls (python tool sub : string) (cmd : list (option string)) : Prop :=
  exists rest, cmd = Some python :: Some tool :: Some sub :: rest.

(** A message, as opposed to a command. *)
Definition is_message (e : Event) : Prop :=
  match e with
  | Logged _ => True
  | Invoked _ => False
  end.

(** Among the events there is a call of [add_hash_footer]. *)
Definition footer_written (evs : list Event) : Prop :=
  exists argv, In (Invoked argv) evs /\ nth 2 argv EmptyString = "add_hash_footer".

(** The subcommands of the toolkit the script uses. *)
Definition all_subcommands : list string :=
  ["info_image"; "erase_footer"; "add_hash_footer"; "make_vbmeta_image"].

(** The image file [rebuild_all] looks for when a partition is named on
    the command line. *)
Definition image_file_of (partition : string) : string :=
  if endswith partition ".img" then partition else partition +++ ".img".

(** The image files a run looks for. *)
Definition requested_files (partitions : option (list string)) : list string :=
  match partitions with
  | Some ((_ :: _) as ps) => map image_file_of ps
  | _ => ["boot.img"; "init_boot.img"]
  end.

(** The arguments of [make_vbmeta_image] that name the images whose
    descriptors are folded in: the original container, then the images. *)
Definition include_args (images : list string) : list string :=
  flat_map (fun image => ["--include_descriptors_from_image"; image])
           ("vbmeta.img" :: images).

(** The salt a plan may reuse: the one of the partition's Hash
    descriptor, when salt reuse is on and that salt is not empty. *)
Definition reusable_salt (use_original_salt : bool) (partition_name : string)
           (descs : list Descriptor) : option string :=
  match (if use_original_salt then Spec.last_matching_hash partition_name descs
         else None) with
  | Some h =>
      match h_salt h with
      | Some s => if Regex.nonempty s then Some s else None
      | None => None
      end
  | None => None
  end.

(** The report command of an image. *)
Definition info_argv (python tool image : string) : list string :=
  [python; tool; "info_image"; "--image"; image].

(** The paths of the images that exist, in the order of the dictionary. *)
Definition existing_images {Env : Type} `{External Env}
           (partition_images : list (string * string)) (e : Env) : list string :=
  map snd (filter (fun item => path_exists (snd item) e) partition_images).

(** The working directory of a run: the one given, or the current
    directory. *)
Definition working_dir_of {Env : Type} `{External Env}
           (working_dir_arg : option string) (e : Env) : string :=
  if truthy working_dir_arg then get_or_empty working_dir_arg else getcwd e.

(** The tool [main] checks for: the one given, or [tools/avbtool.py]
    under the working directory. *)
Definition tool_of {Env : Type} `{External Env} (args : Args) (e : Env) : string :=
  let wd := if truthy (a_working_dir args) then get_or_empty (a_working_dir args)
            else getcwd e in
  if truthy (a_avbtool args) then get_or_empty (a_avbtool args)
  else path_join [wd; "tools"; "avbtool.py"].

(** The two candidates of [auto_detect_private_key], as absolute paths. *)
Definition candidate_paths {Env : Type} `{External Env} (wd : string) : list string :=
  map (fun key_path => path_normpath (path_join [wd; key_path])) key_candidates.

End Trace.

(** * Properties *)

(** ** Text *)

Section TextFacts.
Import Text.

Lemma append_empty_r (s : string) : s +++ "" = s.
Proof. induction s as [| c s IH]; simpl; [reflexivity | now rewrite IH]. Qed.

Lemma append_assoc (a b c : string) : (a +++ b) +++ c = a +++ b +++ c.
Proof. induction a as [| x a IH]; simpl; [reflexivity | now rewrite IH]. Qed.

Lemma append_length (a b : string) :
  String.length (a +++ b) = String.length a + String.length b.
Proof. induction a as [| x a IH]; simpl; [reflexivity | now rewrite IH]. Qed.

Lemma strip_prefix_app (p r : string) : strip_prefix p (p +++ r) = Some r.
Proof.
  induction p as [| a p IH]; simpl; [reflexivity |].
  rewrite Ascii.eqb_refl. exact IH.
Qed.

(** A match over a concatenation lies within the first part or runs past
    its end. *)
Lemma strip_prefix_split (p : string) :
  forall c r t,
    strip_prefix p (c +++ r) = Some t ->
    (exists t', strip_prefix p c = Some t')
    \/ (exists u, u <> "" /\ p = c +++ u /\ strip_prefix u r = Some t).
Proof.
  induction p as [| a p IH]; intros c r t Hp.
  - left. exists c. reflexivity.
  - destruct c as [| b c].
    + right. exists (String a p). split; [discriminate |]. split; [reflexivity | exact Hp].
    + simpl in Hp. simpl. destruct (Ascii.eqb a b) eqn:Eab; [| discriminate].
      apply Ascii.eqb_eq in Eab. subst b.
      destruct (IH c r t Hp) as [[t' Ht'] | [u [Hu [Hpu Hur]]]].
      * left. now exists t'.
      * right. exists u. split; [exact Hu |]. split; [now rewrite Hpu | exact Hur].
Qed.

Lemma contains_head (p c t : string) :
  strip_prefix p c = Some t -> contains p c = true.
Proof. intro Hp. destruct c; simpl; now rewrite Hp. Qed.

Lemma contains_middle (p l r : string) : contains p (l +++ p +++ r) = true.
Proof.
  induction l as [| a l IH].
  - exact (contains_head _ _ (strip_prefix_app p r)).
  - cbn [append contains]. rewrite IH. now destruct (strip_prefix p _).
Qed.

End TextFacts.

(** ** Classifier *)

Lemma nonempty_true_iff (s : string) : Regex.nonempty s = true <-> s <> "".
Proof.
  destruct s; simpl; split; intro Hs; try reflexivity; try discriminate.
  exfalso; apply Hs; reflexivity.
Qed.

Lemma eq_str_some (x s : string) : Py.eq_str (Some x) s = true <-> x = s.
Proof. simpl. apply String.eqb_eq. Qed.

(** The test both classification sites use: true exactly when the
    algorithm field is present, non-empty and different from ["NONE"]. *)
Lemma is_chained_rule (info : ImageInfo) :
  (is_chained (Some info) = true <->
     exists a, algorithm info = Some a /\ a <> "" /\ a <> "NONE")
  /\ (algorithm info = None -> is_chained (Some info) = false)
  /\ (algorithm info = Some "NONE" -> is_chained (Some info) = false).
Proof.
  unfold is_chained. split; [| split].
  - destruct (algorithm info) as [a |]; simpl.
    + split.
      * intro Hc. apply andb_true_iff in Hc. destruct Hc as [Hne Hnn].
        exists a. split; [reflexivity |]. split.
        -- now apply nonempty_true_iff.
        -- intro Heq. apply String.eqb_eq in Heq. rewrite Heq in Hnn. discriminate.
      * intros [b [Hb [Hne Hnn]]]. injection Hb as <-.
        apply andb_true_iff. split.
        -- now apply nonempty_true_iff.
        -- destruct (String.eqb a "NONE") eqn:E; [| reflexivity].
           apply String.eqb_eq in E. contradiction.
    + split; [discriminate |]. intros [b [Hb _]]. discriminate.
  - intros ->. reflexivity.
  - intros ->. reflexivity.
Qed.

(** ** Key selector *)

Section KeySelector.
Context {Env : Type} `{External Env}.

Lemma in_strs_app (o : option string) (xs ys : list string) :
  Py.in_strs o (xs ++ ys) = Py.in_strs o xs || Py.in_strs o ys.
Proof. unfold Py.in_strs. apply existsb_app. Qed.

Lemma detect_recognized (algorithm : option string) (st : State Env) :
  Spec.recognized algorithm = true ->
  exists t, detect_required_key_type algorithm st = (Ok t, st).
Proof.
  unfold Spec.recognized, detect_required_key_type.
  change ["SHA256_RSA4096"; "SHA512_RSA4096"; "SHA256_RSA2048"; "SHA512_RSA2048"]
    with (["SHA256_RSA4096"; "SHA512_RSA4096"] ++ ["SHA256_RSA2048"; "SHA512_RSA2048"]).
  rewrite in_strs_app. intro Hr.
  destruct (Py.in_strs algorithm ["SHA256_RSA4096"; "SHA512_RSA4096"]).
  - exists "4096". reflexivity.
  - rewrite orb_false_l in Hr. rewrite Hr. exists "2048". reflexivity.
Qed.

Lemma detect_unrecognized (algorithm : option string) (st : State Env) :
  Spec.recognized algorithm = false ->
  detect_required_key_type algorithm st =
    (SysExit 1%Z,
     {| env := env st;
        events := events st ++ [Logged (ErrUnsupportedAlgorithm algorithm)] |}).
Proof.
  unfold Spec.recognized, detect_required_key_type.
  change ["SHA256_RSA4096"; "SHA512_RSA4096"; "SHA256_RSA2048"; "SHA512_RSA2048"]
    with (["SHA256_RSA4096"; "SHA512_RSA4096"] ++ ["SHA256_RSA2048"; "SHA512_RSA2048"]).
  rewrite in_strs_app. intro Hr. apply orb_false_iff in Hr. destruct Hr as [H1 H2].
  rewrite H1, H2. reflexivity.
Qed.

Lemma find_first {A : Type} (f : A -> bool) (l : list A) (x : A) :
  find f l = Some x ->
  exists before after,
    l = before ++ x :: after /\ f x = true /\ Forall (fun y => f y = false) before.
Proof.
  induction l as [| y l IH]; simpl; [discriminate |].
  destruct (f y) eqn:Hy.
  - intro Hx. injection Hx as <-. exists [], l. repeat split; [exact Hy | constructor].
  - intro Hfind. destruct (IH Hfind) as [before [after [-> [Hx Hbefore]]]].
    exists (y :: before), after. repeat split; [exact Hx | now constructor].
Qed.

Lemma find_nothing {A : Type} (f : A -> bool) (l : list A) :
  (forall y, In y l -> f y = false) -> find f l = None.
Proof.
  induction l as [| y l IH]; intro Hnone; simpl; [reflexivity |].
  rewrite (Hnone y (or_introl eq_refl)). apply IH. intros z Hz. apply Hnone. now right.
Qed.

Lemma detect_strength (algorithm : option string) (st : State Env) :
  Spec.recognized algorithm = true ->
  detect_required_key_type algorithm st = (Ok (Trace.strength_of algorithm), st).
Proof.
  intro Hr. destruct (detect_recognized algorithm st Hr) as [t Ht].
  rewrite Ht. f_equal. f_equal.
  unfold detect_required_key_type, Trace.strength_of in *.
  destruct (Py.in_strs algorithm ["SHA256_RSA4096"; "SHA512_RSA4096"]).
  - now injection Ht.
  - destruct (Py.in_strs algorithm ["SHA256_RSA2048"; "SHA512_RSA2048"]);
      [now injection Ht | discriminate].
Qed.

(** The two ways the selector ends the process: an algorithm that is not
    one of the four, whatever the keys; or one of the four, no key given
    at start-up, and no available key of the strength it asks for. *)
Lemma selector_exits (self : AvbRebuilder) (algorithm : option string)
      (st : State Env) :
  Spec.recognized algorithm = false
  \/ (Spec.recognized algorithm = true
      /\ Py.truthy (private_key self) = false
      /\ forall k, In k (available_keys self) ->
                   Text.contains ("rsa" +++ Trace.strength_of algorithm) k = false) ->
  exists m,
    (m = ErrUnsupportedAlgorithm algorithm \/ m = ErrNoMatchingKey algorithm)
    /\ get_key_for_algorithm self algorithm st
       = (SysExit 1%Z, {| env := env st; events := events st ++ [Logged m] |}).
Proof.
  unfold get_key_for_algorithm, bind. intros [Hr | [Hr [Hmanual Hnone]]].
  - exists (ErrUnsupportedAlgorithm algorithm). split; [now left |].
    now rewrite (detect_unrecognized algorithm st Hr).
  - exists (ErrNoMatchingKey algorithm). split; [now right |].
    rewrite (detect_strength algorithm st Hr). cbv beta iota. rewrite Hmanual.
    rewrite (find_nothing
               (fun key_path : string =>
                  Text.contains ("rsa" +++ Trace.strength_of algorithm) key_path)
               _ Hnone).
    reflexivity.
Qed.

(** C2 (as the script has it).  With a key given at start-up, the selector
    returns that key for each of the four recognised algorithm names,
    whatever the strength the name asks for and whatever other keys are
    available; for any other algorithm value it reports the algorithm as
    unsupported and exits with status 1, the given key notwithstanding. *)
Theorem explicit_key_override (self : AvbRebuilder) (key : string)
        (algorithm : option string) (st : State Env) :
  private_key self = Some key ->
  key <> "" ->
  (Spec.recognized algorithm = true ->
     get_key_for_algorithm self algorithm st = (Ok key, st))
  /\ (Spec.recognized algorithm = false ->
     get_key_for_algorithm self algorithm st =
       (SysExit 1%Z,
        {| env := env st;
           events := events st ++ [Logged (ErrUnsupportedAlgorithm algorithm)] |})).
Proof.
  intros Hkey Hne. unfold get_key_for_algorithm, bind. split; intro Hr.
  - destruct (detect_recognized algorithm st Hr) as [t Ht]. rewrite Ht.
    rewrite Hkey. simpl. apply nonempty_true_iff in Hne. rewrite Hne. reflexivity.
  - rewrite (detect_unrecognized algorithm st Hr). reflexivity.
Qed.

End KeySelector.

(** C2 does not hold as stated: with a key given at start-up, the
    algorithm name [SHA256_RSA8192] ends in [sys.exit(1)]. *)
Lemma explicit_key_unrecognized_exits :
  private_key (Bench.manual_self Bench.key2048) = Some Bench.key2048
  /\ fst (get_key_for_algorithm (Bench.manual_self Bench.key2048)
            (Some "SHA256_RSA8192") (Bench.boot
               {| Bench.m_files := []; Bench.m_reports := []; Bench.m_make_vbmeta := true |}))
     = SysExit 1%Z.
Proof. split; reflexivity. Qed.

Lemma explicit_key_override_witness :
  get_key_for_algorithm (Bench.manual_self Bench.key2048) (Some "SHA512_RSA4096")
    (Bench.boot {| Bench.m_files := []; Bench.m_reports := []; Bench.m_make_vbmeta := true |})
  = (Ok Bench.key2048,
     Bench.boot {| Bench.m_files := []; Bench.m_reports := []; Bench.m_make_vbmeta := true |}).
Proof.
  apply (explicit_key_override (Bench.manual_self Bench.key2048) (key := Bench.key2048)
           (Some "SHA512_RSA4096")).
  - reflexivity.
  - discriminate.
  - reflexivity.
Defined.

(** ** The two planners *)

Section PlannerFacts.
Import Text Py Planner Spec.

Variable partition_name : string.

Lemma matching_hash_prop (p : PropDescriptor) :
  matching_hash partition_name (DProp p) = None.
Proof. reflexivity. Qed.

Lemma matching_hash_inv (d : Descriptor) (h : HashDescriptor) :
  matching_hash partition_name d = Some h ->
  d = DHash h /\ h_partition_name h = Some partition_name.
Proof.
  destruct d as [h' | | |]; simpl; try discriminate.
  destruct (h_partition_name h') as [n |] eqn:En; simpl; try discriminate.
  destruct (String.eqb n partition_name) eqn:E; try discriminate.
  intro Hh. injection Hh as <-. apply String.eqb_eq in E. subst n. now split.
Qed.

(** The loop of the chained planner ends with the last matching Hash
    descriptor and with all the Prop descriptors. *)
Lemma chain_scan_fold (descs : list Descriptor) (acc : ChainScan) :
  fold_left (chain_scan_step partition_name) descs acc =
    {| cs_hash_desc := match last_matching_hash partition_name descs with
                       | Some h => Some h
                       | None => cs_hash_desc acc
                       end;
       cs_props := cs_props acc ++ prop_descriptors descs |}.
Proof.
  revert acc. induction descs as [| d ds IH]; intro acc.
  - simpl. rewrite app_nil_r. now destruct acc.
  - simpl fold_left. rewrite IH. simpl last_matching_hash.
    unfold chain_scan_step.
    destruct (last_matching_hash partition_name ds) as [h |];
      destruct d as [hd | | | p]; simpl;
      try (destruct (eq_str (h_partition_name hd) partition_name); simpl);
      try rewrite <- app_assoc; reflexivity.
Qed.

Lemma chain_scan_spec (descs : list Descriptor) :
  chain_scan partition_name descs =
    {| cs_hash_desc := last_matching_hash partition_name descs;
       cs_props := prop_descriptors descs |}.
Proof.
  unfold chain_scan. rewrite chain_scan_fold. simpl.
  now destruct (last_matching_hash partition_name descs).
Qed.

(** What the loop of the regular planner leaves when it does not raise. *)
Lemma hash_scan_spec (use : bool) (descs : list Descriptor) :
  forall acc scan,
    hash_scan partition_name use descs acc = Ok scan ->
    hs_props scan = hs_props acc ++ map render_prop (prop_descriptors descs)
    /\ match (if use then last_matching_hash partition_name descs else None) with
       | Some h =>
           exists a s, h_hash_algorithm h = Some a /\ h_salt h = Some s
                       /\ hs_salt scan = Some s
                       /\ hs_algorithm scan =
                            (if String.eqb (upper a) "SHA256" then "NONE" else upper a)
       | None => hs_salt scan = hs_salt acc /\ hs_algorithm scan = hs_algorithm acc
       end.
Proof.
  induction descs as [| d ds IH]; intros acc scan Hscan.
  - simpl in Hscan. injection Hscan as <-. simpl. rewrite app_nil_r.
    destruct use; auto.
  - simpl in Hscan.
    destruct (hash_scan_step partition_name use d acc) as [acc' | e | c] eqn:Hstep;
      try discriminate.
    destruct (IH acc' scan Hscan) as [Hprops Hrest]. clear IH Hscan.
    unfold hash_scan_step in Hstep. simpl last_matching_hash.
    destruct (matching_hash partition_name d) as [h |] eqn:Hm.
    + destruct (matching_hash_inv d Hm) as [-> _].
      simpl prop_descriptors. destruct use.
      * destruct (h_hash_algorithm h) as [a |] eqn:Ha; try discriminate.
        destruct (h_salt h) as [s |] eqn:Hs; try discriminate.
        injection Hstep as <-. simpl in Hprops, Hrest. split; [exact Hprops |].
        destruct (last_matching_hash partition_name ds) as [h' |]; [exact Hrest |].
        destruct Hrest as [Hsalt Halg]. exists a, s. rewrite Ha, Hs.
        repeat split; assumption.
      * injection Hstep as <-. split; assumption.
    + destruct d as [hd | td | cd | p]; try (injection Hstep as <-).
      * simpl prop_descriptors. split; [exact Hprops |].
        destruct use; [| exact Hrest].
        destruct (last_matching_hash partition_name ds); exact Hrest.
      * simpl prop_descriptors. split; [exact Hprops |].
        destruct use; [| exact Hrest].
        destruct (last_matching_hash partition_name ds); exact Hrest.
      * simpl prop_descriptors. split; [exact Hprops |].
        destruct use; [| exact Hrest].
        destruct (last_matching_hash partition_name ds); exact Hrest.
      * simpl in Hprops, Hrest. simpl prop_descriptors. simpl map.
        rewrite <- app_assoc in Hprops. split; [exact Hprops |].
        destruct use; [| exact Hrest].
        destruct (last_matching_hash partition_name ds); exact Hrest.
Qed.

(** With salt regeneration the loop never raises and touches neither the
    salt nor the algorithm. *)
Lemma hash_scan_regenerate (descs : list Descriptor) :
  forall acc,
    hash_scan partition_name false descs acc =
      Ok {| hs_salt := hs_salt acc; hs_algorithm := hs_algorithm acc;
            hs_props := hs_props acc ++ map render_prop (prop_descriptors descs) |}.
Proof.
  induction descs as [| d ds IH]; intro acc.
  - simpl. rewrite app_nil_r. now destruct acc.
  - simpl hash_scan. unfold hash_scan_step.
    destruct (matching_hash partition_name d) as [h |] eqn:Hm.
    + destruct (matching_hash_inv d Hm) as [-> _]. rewrite IH. reflexivity.
    + destruct d as [hd | td | cd | p]; rewrite IH; try reflexivity.
      simpl. rewrite <- app_assoc. reflexivity.
Qed.

(** The loop runs to its end when every Hash descriptor of the partition
    has both its hash algorithm and its salt. *)
Lemma hash_scan_total (use : bool) (descs : list Descriptor) :
  (forall h, In (DHash h) descs -> h_partition_name h = Some partition_name ->
             h_hash_algorithm h <> None /\ h_salt h <> None) ->
  forall acc, exists scan, hash_scan partition_name use descs acc = Ok scan.
Proof.
  induction descs as [| d ds IH]; intros Hgood acc.
  - now exists acc.
  - simpl hash_scan. unfold hash_scan_step.
    assert (Hds : forall h, In (DHash h) ds -> h_partition_name h = Some partition_name ->
                            h_hash_algorithm h <> None /\ h_salt h <> None)
      by (intros h Hin; apply Hgood; now right).
    destruct (matching_hash partition_name d) as [h |] eqn:Hm.
    + destruct (matching_hash_inv d Hm) as [-> Hname].
      destruct (Hgood h (or_introl eq_refl) Hname) as [Ha Hs].
      destruct use; [| now apply IH].
      destruct (h_hash_algorithm h) as [a |]; [| now contradiction Ha].
      destruct (h_salt h) as [s |]; [| now contradiction Hs].
      now apply IH.
    + destruct d; now apply IH.
Qed.

End PlannerFacts.

Lemma all_zero_is_zeros (s : string) :
  Text.all_chars (Ascii.eqb "0"%char) s = true -> s = Text.zeros (String.length s).
Proof.
  induction s as [| c s IH]; cbn [Text.all_chars Text.zeros String.length]; intro Hz.
  - reflexivity.
  - apply andb_true_iff in Hz. destruct Hz as [Hc Hs].
    apply Ascii.eqb_eq in Hc. subst c. f_equal. now apply IH.
Qed.

Lemma chain_salt_args_zero (s : string) :
  Spec.all_zero_digits s = true -> Planner.chain_salt_args (Some s) = [].
Proof.
  unfold Spec.all_zero_digits, Planner.chain_salt_args. intro Hz.
  apply andb_true_iff in Hz. destruct Hz as [Hne Hall].
  rewrite Hne. rewrite <- (all_zero_is_zeros s Hall). rewrite String.eqb_refl.
  reflexivity.
Qed.

Lemma all_zero_truthy (s : string) :
  Spec.all_zero_digits s = true -> Py.truthy (Some s) = true.
Proof.
  unfold Spec.all_zero_digits. intro Hz. apply andb_true_iff in Hz. now destruct Hz.
Qed.

Lemma chain_prop_args_no_salt (props : list PropDescriptor) :
  Spec.has_flag "--salt" (flat_map Planner.chain_prop_args props) = false.
Proof.
  unfold Spec.has_flag. induction props as [| p ps IH]; [reflexivity |].
  cbn [flat_map]. rewrite existsb_app, IH, orb_false_r.
  unfold Planner.chain_prop_args.
  destruct (p_key p) as [k |]; [| reflexivity].
  destruct (p_value p) as [v |]; [| reflexivity].
  destruct (Regex.nonempty k && Regex.nonempty v); [| reflexivity].
  cbn [existsb Py.eq_str]. rewrite orb_false_r.
  replace (String.eqb "--prop" "--salt") with false by reflexivity.
  cbn [orb]. apply String.eqb_neq. intro Heq.
  pose proof (contains_middle ":" k v) as Hcolon. rewrite Heq in Hcolon.
  discriminate Hcolon.
Qed.

Section PlanTheorems.
Context {Env : Type} `{External Env}.
Variable PYTHON_EXECUTABLE : string.
Import Text Py Planner Spec.

Variable self : AvbRebuilder.
Variables partition_name image_path : string.
Variable partition_size : N.

(** The regular plan is built whenever the loop runs to its end. *)
Lemma hash_plan_built (vbmeta_info : option ImageInfo) (info : ImageInfo) (use : bool)
      (st : State Env) :
  (forall h, In (DHash h) (descriptors info) ->
             h_partition_name h = Some partition_name ->
             h_hash_algorithm h <> None /\ h_salt h <> None) ->
  exists cmd st',
    hash_plan PYTHON_EXECUTABLE self partition_name image_path partition_size
              vbmeta_info info use st = (Ok cmd, st').
Proof.
  intro Hgood.
  destruct (@hash_scan_total partition_name use (descriptors info) Hgood hash_scan_init)
    as [scan Hscan].
  unfold hash_plan, bind, lift. rewrite Hscan.
  destruct (truthy (hs_salt scan)).
  - unfold ret. now eexists _, _.
  - unfold act, ret. destruct (token_hex 32 (env st)). now eexists _, _.
Qed.

(** A key given on the command line becomes the [private_key] attribute
    and the only available key, once the working directory is entered. *)
Lemma init_explicit_key (working_dir_arg avbtool_arg : option string) (pk : string)
      (st : State Env) (e' : Env) :
  pk <> "" ->
  chdir (Trace.working_dir_of working_dir_arg (env st)) (env st) = Some e' ->
  exists r,
    init working_dir_arg avbtool_arg (Some pk) st
    = (Ok r, {| env := e'; events := events st |})
    /\ exists key, private_key r = Some key /\ available_keys r = [key].
Proof.
  intros Hpk Hdir. apply nonempty_true_iff in Hpk.
  unfold Trace.working_dir_of in Hdir.
  unfold init, bind, ask, os_chdir, ret. cbv beta iota zeta. rewrite Hdir, Hpk.
  eexists. split; [reflexivity |]. eexists. split; reflexivity.
Qed.

(** A chained plan that is built is the base command with the key the
    selector returned, the salt arguments of the partition's Hash
    descriptor, and the property arguments. *)
Lemma chained_plan_inv (algorithm : string) (rollback_index : option string)
      (info : ImageInfo) (use : bool) (st st' : State Env)
      (cmd : list (option string)) :
  chained_plan PYTHON_EXECUTABLE self partition_name image_path partition_size
               algorithm rollback_index info use st = (Ok cmd, st') ->
  exists key,
    get_key_for_algorithm self (Some algorithm) st = (Ok key, st')
    /\ cmd = chained_base_cmd PYTHON_EXECUTABLE self partition_name image_path
                              partition_size algorithm key rollback_index
             ++ chain_salt_args
                  (chain_salt (last_matching_hash partition_name (descriptors info)) use)
             ++ flat_map chain_prop_args (prop_descriptors (descriptors info)).
Proof.
  unfold chained_plan, bind. rewrite chain_scan_spec. simpl cs_hash_desc. simpl cs_props.
  destruct (get_key_for_algorithm self (Some algorithm) st) as [[key | e | c] st1];
    try discriminate.
  unfold ret. intro Hplan. injection Hplan as <- <-. exists key. split; reflexivity.
Qed.

(** A regular plan that is built is the base command with the algorithm
    the loop left, the salt, and the property arguments; the salt is the
    one the loop left when it is usable and otherwise a fresh one drawn
    from the random source. *)
Lemma hash_plan_inv (vbmeta_info : option ImageInfo) (info : ImageInfo) (use : bool)
      (st st' : State Env) (cmd : list (option string)) :
  hash_plan PYTHON_EXECUTABLE self partition_name image_path partition_size
            vbmeta_info info use st = (Ok cmd, st') ->
  exists scan salt,
    hash_scan partition_name use (descriptors info) hash_scan_init = Ok scan
    /\ cmd = hash_base_cmd PYTHON_EXECUTABLE self partition_name image_path
                           partition_size (hs_algorithm scan)
             ++ [Some "--salt"; Some salt]
             ++ flat_map hash_prop_args (hs_props scan)
    /\ ((truthy (hs_salt scan) = true /\ hs_salt scan = Some salt /\ st' = st)
        \/ (truthy (hs_salt scan) = false
            /\ token_hex 32 (env st) = (salt, env st')
            /\ events st' = events st)).
Proof.
  unfold hash_plan, bind, lift.
  destruct (hash_scan partition_name use (descriptors info) hash_scan_init)
    as [scan | e | c] eqn:Hscan; try discriminate.
  destruct (truthy (hs_salt scan)) eqn:Ht.
  - unfold ret. intro Hplan. injection Hplan as <- <-.
    exists scan, (get_or_empty (hs_salt scan)). split; [reflexivity |].
    split; [reflexivity |]. left. split; [exact Ht |]. split; [| reflexivity].
    destruct (hs_salt scan); [reflexivity | discriminate].
  - unfold act, ret. destruct (token_hex 32 (env st)) as [salt e'] eqn:Htok.
    intro Hplan. injection Hplan as <- <-.
    exists scan, salt. split; [reflexivity |]. split; [reflexivity |].
    right. split; [exact Ht |]. split; reflexivity.
Qed.

(** C1 (as the script has it).  Zero-salt asymmetry.  Salt reuse is on
    and the partition's Hash descriptor, the last one of the metadata that
    names the partition, carries a salt made of zero digits only.  Then a chained
    plan that is built goes from the fifteen items of the base command
    straight to the property arguments, and no item after the base is
    [--salt]; while a regular plan that is built passes [--salt] followed
    by that very salt, and draws nothing from the random source. *)
Theorem zero_salt_asymmetry (algorithm : string) (rollback_index : option string)
        (vbmeta_info : option ImageInfo) (info : ImageInfo)
        (h : HashDescriptor) (salt : string) (st : State Env) :
  last_matching_hash partition_name (descriptors info) = Some h ->
  h_salt h = Some salt ->
  all_zero_digits salt = true ->
  (forall cmd st',
      chained_plan PYTHON_EXECUTABLE self partition_name image_path partition_size
                   algorithm rollback_index info true st = (Ok cmd, st') ->
      (exists key,
          cmd = chained_base_cmd PYTHON_EXECUTABLE self partition_name image_path
                                 partition_size algorithm key rollback_index
                ++ flat_map chain_prop_args (prop_descriptors (descriptors info)))
      /\ has_flag "--salt" (skipn 15 cmd) = false)
  /\ (forall cmd st',
      hash_plan PYTHON_EXECUTABLE self partition_name image_path partition_size
                vbmeta_info info true st = (Ok cmd, st') ->
      st' = st
      /\ exists footer_algorithm,
        cmd = hash_base_cmd PYTHON_EXECUTABLE self partition_name image_path
                            partition_size footer_algorithm
              ++ [Some "--salt"; Some salt]
              ++ flat_map hash_prop_args
                          (map render_prop (prop_descriptors (descriptors info)))).
Proof.
  intros Hlast Hsalt Hzero. split; intros cmd st' Hplan.
  - destruct (chained_plan_inv _ _ _ _ _ Hplan) as [key [_ Hcmd]].
    rewrite Hlast in Hcmd. simpl chain_salt in Hcmd. rewrite Hsalt in Hcmd.
    rewrite (chain_salt_args_zero salt Hzero) in Hcmd. cbn [app] in Hcmd.
    split; [now exists key |].
    rewrite Hcmd. unfold chained_base_cmd. cbn [app skipn].
    apply chain_prop_args_no_salt.
  - destruct (hash_plan_inv _ _ _ _ Hplan) as [scan [s [Hscan [Hcmd Hcase]]]].
    destruct (hash_scan_spec partition_name true (descriptors info) _ Hscan)
      as [Hprops Hrest].
    rewrite Hlast in Hrest. destruct Hrest as [a [s0 [_ [Hs0 [Hss _]]]]].
    rewrite Hsalt in Hs0. injection Hs0 as <-.
    destruct Hcase as [[_ [Hsome ->]] | [Hfalse _]].
    + split; [reflexivity |]. rewrite Hss in Hsome. injection Hsome as <-.
      exists (hs_algorithm scan). rewrite Hcmd, Hprops. reflexivity.
    + rewrite Hss in Hfalse. rewrite (all_zero_truthy salt Hzero) in Hfalse. discriminate.
Qed.

(** The footer algorithm of a regular plan that is built, in general: it
    is [NONE] when the salt is regenerated or the partition has no Hash
    descriptor; with salt reuse and a Hash descriptor it is that
    descriptor's hash algorithm in upper case, with [SHA256] replaced by
    [NONE] and any other name passed on as it is. *)
Theorem regular_plan_footer_algorithm (vbmeta_info : option ImageInfo)
        (info : ImageInfo) (use : bool) (st st' : State Env)
        (cmd : list (option string)) :
  hash_plan PYTHON_EXECUTABLE self partition_name image_path partition_size
            vbmeta_info info use st = (Ok cmd, st') ->
  exists rest,
    cmd = hash_base_cmd PYTHON_EXECUTABLE self partition_name image_path partition_size
            (regular_footer_algorithm use partition_name (descriptors info))
          ++ rest.
Proof.
  intro Hplan.
  destruct (hash_plan_inv _ _ _ _ Hplan) as [scan [s [Hscan [Hcmd _]]]].
  destruct (hash_scan_spec partition_name use (descriptors info) _ Hscan) as [_ Hrest].
  eexists. rewrite Hcmd. f_equal. unfold hash_base_cmd. do 10 f_equal.
  unfold regular_footer_algorithm.
  destruct (if use then last_matching_hash partition_name (descriptors info) else None)
    as [h |].
  - destruct Hrest as [a [s0 [Ha [_ [_ Halg]]]]]. rewrite Ha. rewrite Halg. reflexivity.
  - destruct Hrest as [_ Halg]. rewrite Halg. reflexivity.
Qed.

Lemma last_matching_hash_in (descs : list Descriptor) (h : HashDescriptor) :
  last_matching_hash partition_name descs = Some h ->
  In (DHash h) descs /\ h_partition_name h = Some partition_name.
Proof.
  induction descs as [| d ds IH]; simpl; [discriminate |].
  destruct (last_matching_hash partition_name ds) as [h' |].
  - intro Hh. injection Hh as ->. destruct (IH eq_refl) as [Hin Hname].
    split; [now right | exact Hname].
  - intro Hm. destruct (matching_hash_inv partition_name d Hm) as [-> Hname].
    split; [now left | exact Hname].
Qed.

Lemma flat_map_after_map {A B C : Type} (f : B -> list C) (g : A -> B) (l : list A) :
  flat_map f (map g l) = flat_map (fun x => f (g x)) l.
Proof.
  induction l as [| x l IH]; simpl; [reflexivity | now rewrite IH].
Qed.

(** C9. The footer algorithm of a regular plan is tied to the salt-reuse
    switch.  With salt regeneration the plan is always built and its
    footer algorithm is [NONE], whatever hash algorithm the metadata
    records.  And a plan whose footer algorithm differs from [NONE] can
    only come from a run with salt reuse on and a Hash descriptor named
    after the partition in the metadata. *)
Theorem algorithm_follows_salt_reuse (vbmeta_info : option ImageInfo)
        (info : ImageInfo) (st : State Env) :
  (exists salt st',
      hash_plan PYTHON_EXECUTABLE self partition_name image_path partition_size
                vbmeta_info info false st =
        (Ok (hash_base_cmd PYTHON_EXECUTABLE self partition_name image_path
                           partition_size "NONE"
             ++ [Some "--salt"; Some salt]
             ++ flat_map (fun p => hash_prop_args (render_prop p))
                         (prop_descriptors (descriptors info))),
         st'))
  /\ (forall use cmd st' footer_algorithm rest,
        hash_plan PYTHON_EXECUTABLE self partition_name image_path partition_size
                  vbmeta_info info use st = (Ok cmd, st') ->
        cmd = hash_base_cmd PYTHON_EXECUTABLE self partition_name image_path
                            partition_size footer_algorithm ++ rest ->
        footer_algorithm <> "NONE" ->
        use = true
        /\ exists h, In (DHash h) (descriptors info)
                     /\ h_partition_name h = Some partition_name).
Proof.
  split.
  - unfold hash_plan, bind, lift. rewrite hash_scan_regenerate. simpl.
    unfold act, ret. destruct (token_hex 32 (env st)) as [salt e'].
    exists salt. eexists. rewrite flat_map_after_map. reflexivity.
  - intros use cmd st' alg rest Hplan Hcmd Halg.
    destruct (hash_plan_inv _ _ _ _ Hplan) as [scan [s [Hscan [Hcmd' _]]]].
    destruct (hash_scan_spec partition_name use (descriptors info) _ Hscan) as [_ Hrest].
    rewrite Hcmd' in Hcmd. unfold hash_base_cmd in Hcmd. simpl in Hcmd.
    injection Hcmd as Heq _. subst alg.
    destruct use.
    + split; [reflexivity |].
      destruct (last_matching_hash partition_name (descriptors info)) as [h |] eqn:Hl.
      * exists h. now apply last_matching_hash_in.
      * destruct Hrest as [_ Hnone]. simpl in Hnone. contradiction.
    + destruct Hrest as [_ Hnone]. simpl in Hnone. contradiction.
Qed.

(** C10. Property forwarding differs between the two plans.  A chained
    plan that is built ends with the arguments of the Prop descriptors
    that have a non-empty key and a non-empty value, in order, the others
    contributing nothing; a regular plan that is built ends with a
    [--prop key:value] pair for every Prop descriptor, in order, an absent
    key or value rendered as the empty string. *)
Theorem property_forwarding_asymmetry (algorithm : string)
        (rollback_index : option string) (vbmeta_info : option ImageInfo)
        (info : ImageInfo) (use : bool) (st : State Env) :
  (forall cmd st',
      chained_plan PYTHON_EXECUTABLE self partition_name image_path partition_size
                   algorithm rollback_index info use st = (Ok cmd, st') ->
      exists key,
        cmd = chained_base_cmd PYTHON_EXECUTABLE self partition_name image_path
                               partition_size algorithm key rollback_index
              ++ chain_salt_args
                   (chain_salt (last_matching_hash partition_name (descriptors info)) use)
              ++ flat_map chain_prop_args (prop_descriptors (descriptors info)))
  /\ (forall p,
        chain_prop_args p =
          if truthy (p_key p) && truthy (p_value p)
          then [Some "--prop"; Some (render_prop p)] else [])
  /\ (forall cmd st',
        hash_plan PYTHON_EXECUTABLE self partition_name image_path partition_size
                  vbmeta_info info use st = (Ok cmd, st') ->
        exists footer_algorithm salt,
          cmd = hash_base_cmd PYTHON_EXECUTABLE self partition_name image_path
                              partition_size footer_algorithm
                ++ [Some "--salt"; Some salt]
                ++ flat_map (fun p => [Some "--prop"; Some (render_prop p)])
                            (prop_descriptors (descriptors info))).
Proof.
  split; [| split].
  - intros cmd st' Hplan.
    destruct (chained_plan_inv _ _ _ _ _ Hplan) as [key [_ Hcmd]]. now exists key.
  - intros [pk pv]. unfold chain_prop_args, render_prop. simpl.
    destruct pk as [k |]; destruct pv as [v |]; simpl; try reflexivity.
    now rewrite andb_false_r.
  - intros cmd st' Hplan.
    destruct (hash_plan_inv _ _ _ _ Hplan) as [scan [s [Hscan [Hcmd _]]]].
    destruct (hash_scan_spec partition_name use (descriptors info) _ Hscan) as [Hprops _].
    exists (hs_algorithm scan), s. rewrite Hcmd, Hprops. simpl app at 3.
    rewrite flat_map_after_map. reflexivity.
Qed.

End PlanTheorems.

(** ** The planners on concrete metadata *)

(** C1 does not hold as stated.  The metadata contains a Hash descriptor
    of [boot] whose salt is made of zero digits, followed by a second Hash
    descriptor of [boot] with the salt [abcd1234].  Both planners use the
    descriptor they met last: the chained plan passes [--salt abcd1234]
    and so does the regular plan, which does not forward the salt of zero
    digits. *)
Lemma zero_salt_superseded :
  In (DHash Bench.zero_salt_hash) (descriptors Bench.two_hash_info)
  /\ Spec.all_zero_digits "00000000" = true
  /\ chained_plan Bench.python (Bench.auto_self [Bench.key2048]) "boot" "boot.img"
                  Bench.size_64m "SHA256_RSA2048" (Some "0") Bench.two_hash_info true
                  (Bench.boot (Bench.machine [] true))
     = (Ok [Some "python3"; Some Bench.tool; Some "add_hash_footer";
            Some "--image"; Some "boot.img"; Some "--partition_name"; Some "boot";
            Some "--partition_size"; Some "67108864";
            Some "--algorithm"; Some "SHA256_RSA2048";
            Some "--key"; Some Bench.key2048;
            Some "--rollback_index"; Some "0";
            Some "--salt"; Some "abcd1234"],
        Bench.boot (Bench.machine [] true))
  /\ hash_plan Bench.python (Bench.auto_self [Bench.key2048]) "boot" "boot.img"
               Bench.size_64m None Bench.two_hash_info true
               (Bench.boot (Bench.machine [] true))
     = (Ok [Some "python3"; Some Bench.tool; Some "add_hash_footer";
            Some "--image"; Some "boot.img"; Some "--partition_name"; Some "boot";
            Some "--partition_size"; Some "67108864";
            Some "--algorithm"; Some "NONE";
            Some "--salt"; Some "abcd1234"],
        Bench.boot (Bench.machine [] true)).
Proof.
  split; [vm_compute; now left |]. split; [reflexivity |].
  split; vm_compute; reflexivity.
Qed.

Lemma zero_salt_asymmetry_witness :
  (exists key,
      [Some "python3"; Some Bench.tool; Some "add_hash_footer";
       Some "--image"; Some "boot.img"; Some "--partition_name"; Some "boot";
       Some "--partition_size"; Some "67108864";
       Some "--algorithm"; Some "SHA256_RSA2048";
       Some "--key"; Some Bench.key2048;
       Some "--rollback_index"; Some "0";
       Some "--prop"; Some "com.android.build.boot.os_version:13"]
      = chained_base_cmd Bench.python (Bench.auto_self [Bench.key2048]) "boot" "boot.img"
          Bench.size_64m "SHA256_RSA2048" key (Some "0")
        ++ flat_map Planner.chain_prop_args
             (Spec.prop_descriptors (descriptors Bench.zero_salt_info)))
  /\ (exists footer_algorithm,
      [Some "python3"; Some Bench.tool; Some "add_hash_footer";
       Some "--image"; Some "boot.img"; Some "--partition_name"; Some "boot";
       Some "--partition_size"; Some "67108864";
       Some "--algorithm"; Some "NONE";
       Some "--salt"; Some "00000000";
       Some "--prop"; Some "com.android.build.boot.os_version:13";
       Some "--prop"; Some "com.android.build.boot.fingerprint:"]
      = hash_base_cmd Bench.python (Bench.auto_self [Bench.key2048]) "boot" "boot.img"
          Bench.size_64m footer_algorithm
        ++ [Some "--salt"; Some "00000000"]
        ++ flat_map Planner.hash_prop_args
             (map Spec.render_prop
                (Spec.prop_descriptors (descriptors Bench.zero_salt_info)))).
Proof.
  destruct (zero_salt_asymmetry Bench.python (Bench.auto_self [Bench.key2048])
              "boot" "boot.img" Bench.size_64m "SHA256_RSA2048" (Some "0") None
              Bench.zero_salt_info (h := Bench.zero_salt_hash) (salt := "00000000")
              (Bench.boot (Bench.machine [] true)))
    as [Hchained Hregular].
  - vm_compute. reflexivity.
  - reflexivity.
  - vm_compute. reflexivity.
  - split.
    + apply (Hchained _ (Bench.boot (Bench.machine [] true))). vm_compute. reflexivity.
    + apply (Hregular _ (Bench.boot (Bench.machine [] true))). vm_compute. reflexivity.
Defined.

(** C6 at an input where the script departs from it.  [boot.img] is a
    regular partition (its own algorithm is [NONE]) whose Hash descriptor
    records the hash algorithm [sha512].  With salt reuse the regular plan
    hands [--algorithm SHA512] to the footer step, where the same metadata
    with salt regeneration gives [--algorithm NONE]: only the name
    [SHA256] is translated. *)
Theorem regular_plan_passes_sha512 :
  hash_plan Bench.python (Bench.auto_self [Bench.key2048]) "boot" "boot.img"
            Bench.size_64m None Bench.sha512_info true
            (Bench.boot (Bench.machine [] true))
  = (Ok [Some "python3"; Some Bench.tool; Some "add_hash_footer";
         Some "--image"; Some "boot.img"; Some "--partition_name"; Some "boot";
         Some "--partition_size"; Some "67108864";
         Some "--algorithm"; Some "SHA512";
         Some "--salt"; Some "a1b2c3d4";
         Some "--prop"; Some "com.android.build.boot.os_version:13";
         Some "--prop"; Some "com.android.build.boot.fingerprint:"],
     Bench.boot (Bench.machine [] true)).
Proof. vm_compute. reflexivity. Qed.

Lemma regular_plan_footer_algorithm_witness :
  exists rest,
    [Some "python3"; Some Bench.tool; Some "add_hash_footer";
     Some "--image"; Some "boot.img"; Some "--partition_name"; Some "boot";
     Some "--partition_size"; Some "67108864";
     Some "--algorithm"; Some "NONE";
     Some "--salt"; Some "a1b2c3d4";
     Some "--prop"; Some "com.android.build.boot.os_version:13";
     Some "--prop"; Some "com.android.build.boot.fingerprint:"]
    = hash_base_cmd Bench.python (Bench.auto_self [Bench.key2048]) "boot" "boot.img"
        Bench.size_64m
        (Spec.regular_footer_algorithm true "boot" (descriptors Bench.sha256_info))
      ++ rest.
Proof.
  apply (regular_plan_footer_algorithm Bench.python (Bench.auto_self [Bench.key2048])
           "boot" "boot.img" Bench.size_64m None Bench.sha256_info true
           (Bench.boot (Bench.machine [] true))
           (st' := Bench.boot (Bench.machine [] true))).
  vm_compute. reflexivity.
Defined.

(** ** The parser: splitting a report into descriptor blocks *)

Section Splitting.
Import Text AvbImageParser Spec.

Lemma contains_tail (p : string) (a : ascii) (c : string) :
  contains p (String a c) = false -> contains p c = false.
Proof.
  simpl. destruct (strip_prefix p (String a c)); [discriminate | trivial].
Qed.

Lemma label_free_tail (a : ascii) (c : string) :
  label_free (String a c) = true -> label_free c = true.
Proof.
  unfold label_free. rewrite !forallb_forall. intros Hfree l Hl.
  specialize (Hfree l Hl). apply negb_true_iff in Hfree. apply negb_true_iff.
  exact (contains_tail _ _ _ Hfree).
Qed.

Lemma tails_suffix (c u : string) : In u (tails (c +++ u)).
Proof.
  induction c as [| a c IH]; simpl.
  - destruct u; simpl; now left.
  - now right.
Qed.

Lemma blank_start_prefix (u x t : string) :
  strip_prefix u ("    " +++ x) = Some t -> blank_start u = true.
Proof.
  unfold blank_start.
  destruct u as [| a [| b [| c [| d u]]]];
    cbn [append strip_prefix substring all_chars]; intro Hs;
    repeat match goal with
           | Hm : (if Ascii.eqb ?x " "%char then _ else _) = Some _ |- _ =>
               destruct (Ascii.eqb x " "%char); [| discriminate Hm]
           end;
    try reflexivity.
  destruct u; reflexivity.
Qed.

Lemma labels_no_overlap : forallb no_overlap labels = true.
Proof. vm_compute. reflexivity. Qed.

Lemma match_label_in_none (ls : list string) (s : string) :
  (forall l, In l ls -> strip_prefix (delimiter l) s = None) ->
  match_label_in ls s = None.
Proof.
  induction ls as [| l ls IH]; intro Hnone; cbn [match_label_in]; [reflexivity |].
  rewrite (Hnone l (or_introl eq_refl)). apply IH.
  intros l' Hl'. apply Hnone. now right.
Qed.

(** No block starts inside a label-free piece, whatever follows it. *)
Lemma no_straddle (c r : string) :
  label_free c = true -> c <> "" -> follows r -> match_label (c +++ r) = None.
Proof.
  intros Hfree Hc Hr. apply match_label_in_none. intros l0 Hl0.
  destruct (strip_prefix (delimiter l0) (c +++ r)) as [t |] eqn:Hp; [| reflexivity].
  exfalso. destruct (strip_prefix_split _ _ _ Hp) as [[t' Ht'] | [u [Hu [Hpu Hur]]]].
  - unfold label_free in Hfree. rewrite forallb_forall in Hfree.
    specialize (Hfree l0 Hl0). rewrite (contains_head _ _ Ht') in Hfree. discriminate.
  - destruct Hr as [-> | [l [r' ->]]].
    + destruct u; [now apply Hu | discriminate].
    + assert (Hblank : blank_start u = true)
        by (exact (blank_start_prefix u _ Hur)).
      pose proof labels_no_overlap as Hall. rewrite forallb_forall in Hall.
      specialize (Hall l0 Hl0). unfold no_overlap in Hall.
      rewrite forallb_forall in Hall.
      assert (Hin : In u (tails (delimiter l0)))
        by (rewrite Hpu; apply tails_suffix).
      specialize (Hall u Hin). rewrite Hblank in Hall. simpl negb in Hall.
      rewrite orb_false_r in Hall. apply orb_true_iff in Hall.
      destruct Hall as [H0 | Hfull]; apply Nat.eqb_eq in H0 || apply Nat.eqb_eq in Hfull.
      * destruct u; [now apply Hu | discriminate].
      * rewrite Hpu, append_length in Hfull.
        destruct c; [now apply Hc | simpl in Hfull; lia].
Qed.

(** A label-free piece is copied to the open chunk. *)
Lemma split_chunk (c r : string) :
  label_free c = true -> follows r ->
  re_split_from 0 (c +++ r) =
    (c +++ fst (re_split_from 0 r), snd (re_split_from 0 r)).
Proof.
  induction c as [| a c IH]; intros Hfree Hr.
  - simpl. now destruct (re_split_from 0 r).
  - assert (Hnone : match_label (String a c +++ r) = None)
      by (apply no_straddle; [exact Hfree | discriminate | exact Hr]).
    cbn [append] in *. cbn [re_split_from]. rewrite Hnone.
    rewrite (IH (label_free_tail _ _ Hfree) Hr). reflexivity.
Qed.

(** Skipping the rest of a match. *)
Lemma split_skip (d x : string) :
  re_split_from (String.length d) (d +++ x) = re_split_from 0 x.
Proof.
  induction d as [| a d IH]; simpl; [reflexivity | exact IH].
Qed.

Lemma match_label_at (lab : Label) (x : string) :
  match_label (delimiter (label_text lab) +++ x) =
    Some (label_text lab, String.length (delimiter (label_text lab))).
Proof. destruct lab; reflexivity. Qed.

(** A block closes the open chunk and opens the chunk of its body. *)
Lemma split_block (lab : Label) (x : string) :
  re_split_from 0 (delimiter (label_text lab) +++ x) =
    (EmptyString,
     label_text lab :: fst (re_split_from 0 x) :: snd (re_split_from 0 x)).
Proof.
  pose proof (match_label_at lab x) as Hm.
  pose proof (split_skip (label_text lab +++ ":") x) as Hskip.
  rewrite append_length in Hskip.
  assert (Hd : delimiter (label_text lab) +++ x
               = String " " ("   " +++ (label_text lab +++ ":") +++ x)).
  { unfold delimiter. rewrite !append_assoc. reflexivity. }
  rewrite Hd in *. cbn [re_split_from]. rewrite Hm.
  assert (Hlen : String.length (delimiter (label_text lab)) - 1
                 = 3 + String.length (label_text lab +++ ":")).
  { unfold delimiter. rewrite !append_length. simpl. lia. }
  rewrite Hlen. rewrite append_length. cbn [append Nat.add re_split_from].
  rewrite Hskip. now destruct (re_split_from 0 x).
Qed.

Lemma render_blocks_follows (blocks : list (Label * string)) :
  follows (render_blocks blocks).
Proof.
  destruct blocks as [| b bs]; [now left |].
  right. exists (label_text (fst b)), (snd b +++ render_blocks bs). reflexivity.
Qed.

Lemma split_blocks (blocks : list (Label * string)) :
  Forall (fun b => label_free (snd b) = true) blocks ->
  re_split_from 0 (render_blocks blocks) = (EmptyString, block_items blocks).
Proof.
  induction 1 as [| b bs Hb Hbs IH]; [reflexivity |].
  cbn [render_blocks fold_right]. fold (render_blocks bs).
  rewrite split_block.
  rewrite (split_chunk _ Hb (render_blocks_follows bs)). rewrite IH.
  cbn [fst snd]. rewrite append_empty_r. reflexivity.
Qed.

Lemma re_split_report (pre : string) (blocks : list (Label * string)) :
  label_free pre = true ->
  Forall (fun b => label_free (snd b) = true) blocks ->
  re_split (render_report pre blocks) = pre :: block_items blocks.
Proof.
  intros Hpre Hblocks. unfold re_split, render_report.
  rewrite (split_chunk _ Hpre (render_blocks_follows blocks)).
  rewrite (split_blocks Hblocks). cbn [fst snd]. now rewrite append_empty_r.
Qed.

Lemma parse_block_label (lab : Label) (body : string) :
  parse_block (label_text lab) body = [expected_descriptor (lab, body)].
Proof. destruct lab; reflexivity. Qed.

Lemma blocks_from_items (blocks : list (Label * string)) :
  flat_map (fun b => parse_block (fst b) (snd b)) (blocks_from (block_items blocks))
  = map expected_descriptor blocks.
Proof.
  induction blocks as [| [lab body] bs IH]; [reflexivity |].
  cbn [block_items flat_map app fst snd blocks_from map].
  fold (block_items bs). rewrite parse_block_label, IH. reflexivity.
Qed.

Lemma desc_type_expected (b : Label * string) :
  desc_type (expected_descriptor b) = label_tag (fst b).
Proof. destruct b as [[] body]; reflexivity. Qed.

(** C8. A report that consists of a label-free head followed by [N]
    descriptor blocks, each a label of the four and a label-free body, is
    parsed into exactly [N] records: the record of the k-th block is the
    one its label announces, built from its body, and the order of the
    blocks is kept. *)
Theorem parse_descriptors_complete (pre : string) (blocks : list (Label * string)) :
  label_free pre = true ->
  Forall (fun b => label_free (snd b) = true) blocks ->
  _parse_descriptors (render_report pre blocks) = map expected_descriptor blocks
  /\ List.length (_parse_descriptors (render_report pre blocks)) = List.length blocks
  /\ map desc_type (_parse_descriptors (render_report pre blocks))
     = map (fun b => label_tag (fst b)) blocks.
Proof.
  intros Hpre Hblocks.
  assert (Heq : _parse_descriptors (render_report pre blocks)
                = map expected_descriptor blocks).
  { unfold _parse_descriptors. rewrite (@re_split_report pre blocks Hpre Hblocks).
    cbn [tl]. apply blocks_from_items. }
  rewrite Heq. split; [reflexivity |]. split.
  - apply length_map.
  - rewrite map_map. apply map_ext. intro b. apply desc_type_expected.
Qed.

End Splitting.

Lemma parse_descriptors_complete_witness :
  Spec.render_report Bench.sample_head Bench.sample_blocks
    = Bench.regular_report "sha256" (Bench.salt_line "a1b2c3d4")
  /\ List.length (AvbImageParser._parse_descriptors
                    (Spec.render_report Bench.sample_head Bench.sample_blocks)) = 3
  /\ map desc_type (AvbImageParser._parse_descriptors
                      (Spec.render_report Bench.sample_head Bench.sample_blocks))
     = ["hash"; "prop"; "prop"].
Proof.
  split; [vm_compute; reflexivity |].
  refine (proj2 (@parse_descriptors_complete Bench.sample_head Bench.sample_blocks _ _)).
  - vm_compute. reflexivity.
  - repeat constructor; vm_compute; reflexivity.
Defined.

(** ** Absent fields downstream of the parser *)

(** C4 at two inputs the parser can produce.  A regular [boot.img] whose
    Hash descriptor has no salt line: with salt reuse on the regular
    planner raises [TypeError] where it slices the salt for its log line,
    before the test that would have generated a fresh salt; in a full run
    this happens after the footer of the image was erased.  A chained
    [boot.img] whose report has no rollback index line: the command is
    built with [None] after [--rollback_index] and [run_command] raises
    [TypeError] when it joins the command for its log line. *)
Theorem absent_fields_raise :
  Spec.last_matching_hash "boot" (descriptors Bench.no_salt_info)
    = Some {| h_image_size := Some "33554432"; h_hash_algorithm := Some "sha256";
              h_partition_name := Some "boot"; h_salt := None;
              h_digest := Some "9bd1f2a3"; h_flags := Some "0" |}
  /\ hash_plan Bench.python (Bench.auto_self [Bench.key2048]) "boot" "boot.img"
               Bench.size_64m None Bench.no_salt_info true
               (Bench.boot Bench.no_salt_machine)
     = (Raise TypeError, Bench.boot Bench.no_salt_machine)
  /\ (let run := rebuild_all Bench.python (Bench.auto_self [Bench.key2048]) None true false
                             (Bench.boot Bench.no_salt_machine) in
      fst run = Raise TypeError
      /\ events (snd run)
         = [Invoked ["python3"; Bench.tool; "info_image"; "--image"; "boot.img"];
            Invoked ["python3"; Bench.tool; "info_image"; "--image"; "vbmeta.img"];
            Invoked ["python3"; Bench.tool; "info_image"; "--image"; "boot.img"];
            Invoked ["python3"; Bench.tool; "erase_footer"; "--image"; "boot.img"]])
  /\ rollback_index Bench.no_rollback_info = None
  /\ (let run := rebuild_all Bench.python (Bench.auto_self [Bench.key2048]) None true true
                             (Bench.boot Bench.no_rollback_machine) in
      fst run = Raise TypeError
      /\ events (snd run)
         = [Invoked ["python3"; Bench.tool; "info_image"; "--image"; "boot.img"];
            Invoked ["python3"; Bench.tool; "info_image"; "--image"; "boot.img"];
            Invoked ["python3"; Bench.tool; "erase_footer"; "--image"; "boot.img"]]).
Proof. repeat split; vm_compute; reflexivity. Qed.

(** ** The orchestrator *)

Section Orchestration.
Context {Env : Type} `{External Env}.
Variable PYTHON_EXECUTABLE : string.
Import Text Py Planner Spec.

Local Abbreviation M := (Run Env).

Lemma quiet_ret {A : Type} (a : A) : quiet (ret a : M A).
Proof.
  intro st. exists a, st, []. rewrite app_nil_r. repeat split. constructor.
Qed.

Lemma quiet_bind {A B : Type} (m : M A) (k : A -> M B) :
  quiet m -> (forall a, quiet (k a)) -> quiet (bind m k).
Proof.
  intros Hm Hk st. destruct (Hm st) as [a [st1 [evs1 [Hrun1 [Hev1 Hro1]]]]].
  destruct (Hk a st1) as [b [st2 [evs2 [Hrun2 [Hev2 Hro2]]]]].
  exists b, st2, (evs1 ++ evs2). unfold bind. rewrite Hrun1, Hrun2.
  split; [reflexivity |]. split.
  - rewrite Hev2, Hev1, app_assoc. reflexivity.
  - apply Forall_app. now split.
Qed.

Lemma quiet_ask {A : Type} (f : Env -> A) : quiet (ask f).
Proof.
  intro st. exists (f (env st)), st, []. rewrite app_nil_r. repeat split. constructor.
Qed.

Lemma quiet_log (m : Message) : quiet (log m : M unit).
Proof.
  intro st. eexists tt, _, [Logged m]. split; [reflexivity |].
  split; [reflexivity |]. repeat constructor.
Qed.

Lemma quiet_for_each {A S : Type} (xs : list A) (body : A -> S -> M S) :
  (forall x acc, quiet (body x acc)) -> forall acc, quiet (for_each xs body acc).
Proof.
  intro Hbody. induction xs as [| x xs IH]; intro acc; simpl.
  - apply quiet_ret.
  - apply quiet_bind; [apply Hbody | exact IH].
Qed.

(** Reading the metadata of an image returns, and runs the report
    subcommand only. *)
Lemma quiet_parse_image_info (avbtool image_path : string) :
  quiet (parse_image_info PYTHON_EXECUTABLE avbtool image_path).
Proof.
  intro st. unfold parse_image_info, run_command, bind, emit, act, log, emit, ret.
  cbn [all_strings env events].
  destruct (subprocess_run
              [PYTHON_EXECUTABLE; avbtool; "info_image"; "--image"; image_path] (env st))
    as [[stdout |] e'] eqn:Hsub.
  - destruct (Regex.nonempty stdout); eexists _, _, [_];
      (split; [reflexivity |]); (split; [reflexivity |]);
      repeat constructor.
  - eexists _, _, [_; _]. split; [reflexivity |].
    split; [cbn [events]; rewrite <- app_assoc; reflexivity |].
    repeat constructor.
Qed.

Lemma quiet_detect_partition_images : quiet (detect_partition_images : M _).
Proof.
  unfold detect_partition_images. apply quiet_for_each. intros p acc.
  apply quiet_bind; [apply quiet_ask | intro e; apply quiet_ret].
Qed.

Lemma quiet_discover (partitions : option (list string)) :
  quiet (discover partitions : M _).
Proof.
  unfold discover. destruct partitions as [[| p ps] |];
    try apply quiet_detect_partition_images.
  apply quiet_for_each. intros q acc.
  apply quiet_bind; [apply quiet_ask |]. intros [|]; [apply quiet_ret |].
  apply quiet_bind; [apply quiet_log | intro; apply quiet_ret].
Qed.

Lemma quiet_classify (self : AvbRebuilder) (images : list (string * string)) :
  quiet (classify PYTHON_EXECUTABLE self images).
Proof.
  unfold classify. apply quiet_for_each. intros item acc.
  apply quiet_bind; [apply quiet_parse_image_info | intro; apply quiet_ret].
Qed.

Lemma quiet_verify_result (self : AvbRebuilder) :
  quiet (verify_result PYTHON_EXECUTABLE self).
Proof.
  unfold verify_result.
  apply quiet_bind; [apply quiet_ask |]. intro e.
  apply quiet_bind.
  - destruct e; [| apply quiet_ret].
    apply quiet_bind; [apply quiet_parse_image_info | intro; apply quiet_ret].
  - intros _. apply quiet_bind; [apply quiet_detect_partition_images |].
    intro images. apply quiet_for_each. intros item acc.
    apply quiet_bind; [apply quiet_parse_image_info | intro; apply quiet_ret].
Qed.

(** The bucket of an image is decided by the classifier on its parsed
    metadata; an image whose metadata cannot be read is regular. *)
Lemma classify_one (self : AvbRebuilder) (item : string * string) (st : State Env) :
  exists info st',
    parse_image_info PYTHON_EXECUTABLE (avbtool_path self) (snd item) st = (Ok info, st')
    /\ classify PYTHON_EXECUTABLE self [item] st
       = (Ok (if is_chained info then ([item], []) else ([], [item])), st').
Proof.
  destruct (quiet_parse_image_info (avbtool_path self) (snd item) st)
    as [info [st' [evs [Hrun _]]]].
  exists info, st'. split; [exact Hrun |].
  unfold classify. cbn [for_each]. unfold bind. rewrite Hrun.
  destruct (is_chained info); reflexivity.
Qed.

Lemma discover_events (partitions : option (list string)) (st0 s1 : State Env)
      (images : list (string * string)) :
  discover partitions st0 = (Ok images, s1) ->
  exists evs, events s1 = events st0 ++ evs /\ Forall read_only evs.
Proof.
  intro Hrun. destruct (quiet_discover partitions st0) as [a [st' [evs [Hq [Hev Hro]]]]].
  rewrite Hrun in Hq. injection Hq as <- <-. now exists evs.
Qed.

Lemma classify_events (self : AvbRebuilder) (images : list (string * string))
      (s1 s2 : State Env) (buckets : list (string * string) * list (string * string)) :
  classify PYTHON_EXECUTABLE self images s1 = (Ok buckets, s2) ->
  exists evs, events s2 = events s1 ++ evs /\ Forall read_only evs.
Proof.
  intro Hrun.
  destruct (quiet_classify self images s1) as [a [st' [evs [Hq [Hev Hro]]]]].
  rewrite Hrun in Hq. injection Hq as <- <-. now exists evs.
Qed.

(** C7. A run in default mode in which classification leaves at least
    one regular partition and finds no [vbmeta.img] returns failure right
    after the gate: between the start of the run and its end nothing was
    run but the report subcommand, so no footer was erased or rebuilt. *)
Theorem missing_vbmeta_fails_before_mutation (self : AvbRebuilder)
        (partitions : option (list string)) (use_original_salt : bool)
        (st0 s1 s2 : State Env)
        (images chained_partitions regular_partitions : list (string * string)) :
  discover partitions st0 = (Ok images, s1) ->
  classify PYTHON_EXECUTABLE self images s1
    = (Ok (chained_partitions, regular_partitions), s2) ->
  regular_partitions <> [] ->
  path_exists "vbmeta.img" (env s2) = false ->
  exists evs,
    rebuild_all PYTHON_EXECUTABLE self partitions use_original_salt false st0
      = (Ok false, {| env := env s2; events := events st0 ++ evs |})
    /\ Forall read_only evs.
Proof.
  intros Hdiscover Hclassify Hregular Hmissing.
  destruct (discover_events _ _ Hdiscover) as [evs1 [Hev1 Hro1]].
  destruct (classify_events _ _ _ Hclassify) as [evs2 [Hev2 Hro2]].
  exists (evs1 ++ evs2 ++ [Logged ErrMissingVbmeta]). split.
  - unfold rebuild_all. unfold bind at 1. unfold create_backup, ret at 1.
    cbv beta iota. unfold bind. rewrite Hdiscover.
    destruct images as [| image images'].
    + simpl in Hclassify. injection Hclassify as _ Hnil _. now symmetry in Hnil.
    + rewrite Hclassify. cbn [fst snd]. unfold mode_gate.
      destruct regular_partitions as [| r rs]; [now contradiction Hregular |].
      unfold bind, os_path_exists, ask. rewrite Hmissing.
      unfold log, emit, ret. cbn. rewrite Hev2, Hev1, <- !app_assoc. reflexivity.
  - repeat (apply Forall_app; split); try assumption. repeat constructor.
Qed.

(** The loop of [classify] appends to whatever buckets it starts from. *)
Lemma classify_loop (self : AvbRebuilder) (images : list (string * string)) :
  forall st, exists cs rs st',
    forall acc,
      for_each images
        (fun item acc =>
           current_info <- parse_image_info PYTHON_EXECUTABLE (avbtool_path self)
                                            (snd item) ;;
           ret (if is_chained current_info then (fst acc ++ [item], snd acc)
                else (fst acc, snd acc ++ [item])))
        acc st
      = (Ok (fst acc ++ cs, snd acc ++ rs), st').
Proof.
  induction images as [| item images IH]; intro st.
  - exists [], [], st. intros [cs rs]. cbn. unfold ret. now rewrite !app_nil_r.
  - destruct (quiet_parse_image_info (avbtool_path self) (snd item) st)
      as [info [s1 [evs [Hparse _]]]].
    destruct (IH s1) as [cs [rs [st' Hloop]]].
    destruct (is_chained info) eqn:Hchained.
    + exists (item :: cs), rs, st'. intro acc. cbn [for_each].
      unfold bind at 1. unfold bind at 1. rewrite Hparse. unfold ret at 1.
      rewrite Hchained, Hloop. cbn [fst snd]. now rewrite <- app_assoc.
    + exists cs, (item :: rs), st'. intro acc. cbn [for_each].
      unfold bind at 1. unfold bind at 1. rewrite Hparse. unfold ret at 1.
      rewrite Hchained, Hloop. cbn [fst snd]. now rewrite <- app_assoc.
Qed.

(** C5. A parsed image is chained exactly when its algorithm field is
    present, non-empty and different from ["NONE"]; with the algorithm
    absent or equal to ["NONE"] it is regular.  Both sites of the script
    decide by this rule.  In [rebuild_all] no image gives two empty lists,
    and the image whose metadata was read goes to the front of the chained
    partitions when the rule holds and to the front of the regular ones
    when it does not, the images that follow being classified after it.  In [rebuild_partition], once
    the size is known, the footer is erased and the chained rebuild is
    called with that algorithm when the rule holds, and the regular
    rebuild when it does not. *)
Theorem classification_rule (self : AvbRebuilder) (info : ImageInfo) :
  let chained := exists a, algorithm info = Some a /\ a <> "" /\ a <> "NONE" in
  (is_chained (Some info) = true <-> chained)
  /\ (algorithm info = None -> is_chained (Some info) = false)
  /\ (algorithm info = Some "NONE" -> is_chained (Some info) = false)
  /\ (forall st : State Env,
        classify PYTHON_EXECUTABLE self [] st = (Ok ([], []), st))
  /\ (forall (item : string * string) (rest : list (string * string))
             (st s1 s2 : State Env)
             (chained_partitions regular_partitions : list (string * string)),
        parse_image_info PYTHON_EXECUTABLE (avbtool_path self) (snd item) st
          = (Ok (Some info), s1) ->
        classify PYTHON_EXECUTABLE self rest s1
          = (Ok (chained_partitions, regular_partitions), s2) ->
        (chained ->
           classify PYTHON_EXECUTABLE self (item :: rest) st
           = (Ok (item :: chained_partitions, regular_partitions), s2))
        /\ (~ chained ->
           classify PYTHON_EXECUTABLE self (item :: rest) st
           = (Ok (chained_partitions, item :: regular_partitions), s2)))
  /\ (forall (partition_name image_path : string) (vbmeta_info : option ImageInfo)
             (use_original_salt : bool) (st s1 : State Env) (size : string) (n : N),
        parse_image_info PYTHON_EXECUTABLE (avbtool_path self) image_path st
          = (Ok (Some info), s1) ->
        image_size info = Some size ->
        Py.int size = Ok n ->
        (forall a, algorithm info = Some a -> a <> "" -> a <> "NONE" ->
           rebuild_partition PYTHON_EXECUTABLE self partition_name image_path
                             vbmeta_info use_original_salt st
           = (run_command (erase_footer_cmd PYTHON_EXECUTABLE self image_path) ;;;
              _rebuild_chained_partition PYTHON_EXECUTABLE self partition_name
                image_path n a (rollback_index info) info use_original_salt) s1)
        /\ (~ chained ->
           rebuild_partition PYTHON_EXECUTABLE self partition_name image_path
                             vbmeta_info use_original_salt st
           = (run_command (erase_footer_cmd PYTHON_EXECUTABLE self image_path) ;;;
              _rebuild_hash_partition PYTHON_EXECUTABLE self partition_name
                image_path n vbmeta_info info use_original_salt) s1)).
Proof.
  cbv zeta. destruct (is_chained_rule info) as [Hrule [Hnone Hsentinel]].
  split; [exact Hrule |]. split; [exact Hnone |]. split; [exact Hsentinel |].
  assert (Hnot : ~ (exists a, algorithm info = Some a /\ a <> "" /\ a <> "NONE") ->
                 is_chained (Some info) = false).
  { intro Hn. apply not_true_is_false. intro Hc. apply Hn. now apply Hrule. }
  split; [reflexivity |].
  split.
  - intros item rest st s1 s2 cs rs Hparse Hrest.
    destruct (classify_loop self rest s1) as [cs' [rs' [s2' Hloop]]].
    unfold classify in Hrest. rewrite (Hloop ([], [])) in Hrest.
    cbn [fst snd app] in Hrest. injection Hrest as -> -> ->.
    split; intro Hc.
    + apply Hrule in Hc. unfold classify. cbn [for_each].
      unfold bind at 1. unfold bind at 1. rewrite Hparse. unfold ret at 1.
      rewrite Hc, Hloop. reflexivity.
    + apply Hnot in Hc. unfold classify. cbn [for_each].
      unfold bind at 1. unfold bind at 1. rewrite Hparse. unfold ret at 1.
      rewrite Hc, Hloop. reflexivity.
  - intros partition_name image_path vbmeta_info use st s1 size n Hparse Hsize Hint.
    assert (Htruthy : truthy (Some size) = true).
    { unfold Py.int in Hint. cbn [truthy].
      destruct (Regex.nonempty size); [reflexivity | discriminate]. }
    split.
    + intros a Ha Hne Hnn.
      assert (Hc : is_chained (Some info) = true)
        by (apply Hrule; now exists a).
      unfold rebuild_partition. unfold bind at 1. rewrite Hparse. cbv beta iota.
      rewrite Hsize, Htruthy. cbn [get_or_empty]. unfold bind at 1, lift.
      rewrite Hint, Hc, Ha. reflexivity.
    + intro Hc. apply Hnot in Hc.
      unfold rebuild_partition. unfold bind at 1. rewrite Hparse. cbv beta iota.
      rewrite Hsize, Htruthy. cbn [get_or_empty]. unfold bind at 1, lift.
      rewrite Hint, Hc. reflexivity.
Qed.

(** C3 (as the script has it).  A run in default mode reaches the
    umbrella step with at least one partition rebuilt.  When the step
    returns failure, the run logs the warning, runs the verification pass,
    which uses the report subcommand only, and returns success.  When the
    metadata of [vbmeta.img] is read and the key selector cannot serve its
    algorithm (the algorithm is absent or not one of the four names; or it
    is one of them, no key was given at start-up and no available key has
    the strength it asks for), the selector ends the process with status 1
    from inside the step: the run ends there, with the message of the
    selector as its last event, no warning and no verification pass. *)
Theorem umbrella_failure_is_a_warning (self : AvbRebuilder)
        (partitions : option (list string)) (use_original_salt : bool)
        (st0 s1 s2 s3 s4 s5 : State Env)
        (images chained_partitions regular_partitions : list (string * string))
        (vbmeta_info : option ImageInfo) (n1 n2 : nat) :
  discover partitions st0 = (Ok images, s1) ->
  classify PYTHON_EXECUTABLE self images s1
    = (Ok (chained_partitions, regular_partitions), s2) ->
  regular_partitions <> [] ->
  path_exists "vbmeta.img" (env s2) = true ->
  rebuild_each PYTHON_EXECUTABLE self chained_partitions (Some no_vbmeta_info)
               use_original_salt 0 s2 = (Ok n1, s3) ->
  parse_image_info PYTHON_EXECUTABLE (avbtool_path self) "vbmeta.img" s3
    = (Ok vbmeta_info, s4) ->
  rebuild_each PYTHON_EXECUTABLE self regular_partitions vbmeta_info
               use_original_salt n1 s4 = (Ok n2, s5) ->
  0 < n2 ->
  (forall s6,
      rebuild_vbmeta PYTHON_EXECUTABLE self None (dict_of regular_partitions) s5
        = (Ok false, s6) ->
      exists s7 evs,
        verify_result PYTHON_EXECUTABLE self
          {| env := env s6; events := events s6 ++ [Logged WarnVbmetaRebuildFailed] |}
          = (Ok tt, s7)
        /\ rebuild_all PYTHON_EXECUTABLE self partitions use_original_salt false st0
           = (Ok true, s7)
        /\ events s7 = events s6 ++ Logged WarnVbmetaRebuildFailed :: evs
        /\ Forall read_only evs)
  /\ (forall umbrella_info s5',
      parse_image_info PYTHON_EXECUTABLE (avbtool_path self) "vbmeta.img" s5
        = (Ok (Some umbrella_info), s5') ->
      recognized (algorithm umbrella_info) = false
      \/ (recognized (algorithm umbrella_info) = true
          /\ truthy (private_key self) = false
          /\ forall k, In k (available_keys self) ->
                       contains ("rsa" +++ Trace.strength_of (algorithm umbrella_info)) k
                       = false) ->
      exists m,
        (m = ErrUnsupportedAlgorithm (algorithm umbrella_info)
         \/ m = ErrNoMatchingKey (algorithm umbrella_info))
        /\ rebuild_vbmeta PYTHON_EXECUTABLE self None (dict_of regular_partitions) s5
           = (SysExit 1%Z, {| env := env s5'; events := events s5' ++ [Logged m] |})
        /\ rebuild_all PYTHON_EXECUTABLE self partitions use_original_salt false st0
           = (SysExit 1%Z, {| env := env s5'; events := events s5' ++ [Logged m] |})).
Proof.
  intros Hdiscover Hclassify Hregular Hvbmeta Hchained Hparse Hregs Hcount.
  assert (Hprefix :
            rebuild_all PYTHON_EXECUTABLE self partitions use_original_salt false st0
            = (ok <- rebuild_vbmeta PYTHON_EXECUTABLE self None
                                    (dict_of regular_partitions) ;;
               (if ok then ret tt else log WarnVbmetaRebuildFailed) ;;;
               verify_result PYTHON_EXECUTABLE self ;;; ret true : M bool) s5).
  { unfold rebuild_all. unfold bind at 1. unfold create_backup, ret at 1.
    cbv beta iota. unfold bind at 1. rewrite Hdiscover.
    destruct images as [| image images'].
    - simpl in Hclassify. injection Hclassify as _ Hnil _. now symmetry in Hnil.
    - unfold bind at 1. rewrite Hclassify. cbn [fst snd]. unfold mode_gate.
      destruct regular_partitions as [| r rs]; [now contradiction Hregular |].
      unfold bind at 1. unfold bind at 1, os_path_exists, ask. rewrite Hvbmeta.
      unfold ret at 1. unfold bind at 1. rewrite Hchained.
      unfold regular_and_umbrella. unfold bind at 1. unfold bind at 1.
      rewrite Hparse. unfold bind at 1. rewrite Hregs.
      unfold finish. destruct n2 as [| n2']; [lia |]. cbn [Nat.eqb].
      unfold bind.
      destruct (rebuild_vbmeta PYTHON_EXECUTABLE self None
                               (dict_of (r :: rs)) s5) as [[[|] | e | c] s6];
        reflexivity. }
  split.
  - intros s6 Humbrella.
    pose (s6' := {| env := env s6;
                    events := events s6 ++ [Logged WarnVbmetaRebuildFailed] |}).
    destruct (quiet_verify_result self s6') as [[] [s7 [evs [Hverify [Hev Hro]]]]].
    exists s7, evs. split; [exact Hverify |]. split; [| split; [| exact Hro]].
    + rewrite Hprefix. unfold bind at 1. rewrite Humbrella.
      unfold bind at 1, log, emit. fold s6'. unfold bind. rewrite Hverify. reflexivity.
    + rewrite Hev. unfold s6'. cbn [events]. rewrite <- app_assoc. reflexivity.
  - intros umbrella_info s5' Hinfo Hfatal.
    destruct (selector_exits self (algorithm umbrella_info) s5' Hfatal)
      as [m [Hm Hexit]].
    exists m. split; [exact Hm |].
    assert (Hstep : rebuild_vbmeta PYTHON_EXECUTABLE self None
                                   (dict_of regular_partitions) s5
                    = (SysExit 1%Z,
                       {| env := env s5'; events := events s5' ++ [Logged m] |})).
    { unfold rebuild_vbmeta. cbv zeta. unfold bind at 1. rewrite Hinfo.
      unfold bind at 1. rewrite Hexit. reflexivity. }
    split; [exact Hstep |].
    rewrite Hprefix. unfold bind at 1. rewrite Hstep. reflexivity.
Qed.

Lemma silent_ret {A : Type} (a : A) : silent (ret a : M A).
Proof. intro st. now exists a. Qed.

Lemma silent_ask {A : Type} (f : Env -> A) : silent (ask f).
Proof. intro st. now exists (f (env st)). Qed.

Lemma silent_bind {A B : Type} (m : M A) (k : A -> M B) :
  silent m -> (forall a, silent (k a)) -> silent (bind m k).
Proof.
  intros Hm Hk st. destruct (Hm st) as [a Ha]. destruct (Hk a st) as [b Hb].
  exists b. unfold bind. now rewrite Ha.
Qed.

Lemma silent_for_each {A S : Type} (xs : list A) (body : A -> S -> M S) :
  (forall x acc, silent (body x acc)) -> forall acc, silent (for_each xs body acc).
Proof.
  intro Hbody. induction xs as [| x xs IH]; intro acc; simpl.
  - apply silent_ret.
  - apply silent_bind; [apply Hbody | exact IH].
Qed.

Lemma silent_has_partition_images (partitions : option (list string)) :
  silent (has_partition_images partitions : M bool).
Proof.
  unfold has_partition_images. destruct partitions as [[| p ps] |].
  - apply silent_bind; [apply silent_ask | intro; apply silent_ret].
  - apply silent_for_each. intros q [|]; [apply silent_ret | apply silent_ask].
  - apply silent_bind; [apply silent_ask | intro; apply silent_ret].
Qed.

(** The same gate at the entry point: in default mode [main] reports
    [vbmeta.img] as missing and returns failure before the rebuilder is
    even constructed; nothing is run. *)
Lemma main_stops_without_vbmeta (args : Args) (st : State Env) :
  a_chained_mode args = false ->
  a_verify_only args = false ->
  path_exists "vbmeta.img" (env st) = false ->
  exists missing,
    main PYTHON_EXECUTABLE args st
      = (Ok false,
         {| env := env st;
            events := events st ++ [Logged (ErrMissingRequiredFiles missing)] |})
    /\ In "vbmeta.img" missing.
Proof.
  intros Hmode Hverify Hmissing.
  destruct (silent_has_partition_images (a_partitions args) st) as [found Hfound].
  unfold main, bind, ask, os_path_exists, ask, ret. cbv beta iota zeta.
  rewrite Hmode, Hverify. cbn [negb]. cbv beta iota. rewrite Hmissing, Hfound.
  set (wd := if truthy (a_working_dir args) then get_or_empty (a_working_dir args)
             else getcwd (env st)).
  set (tool := if truthy (a_avbtool args) then get_or_empty (a_avbtool args)
               else path_join [wd; "tools"; "avbtool.py"]).
  destruct (path_exists tool (env st)); destruct found; cbn;
    eexists; (split; [reflexivity |]); simpl; auto.
Qed.

End Orchestration.

(** ** The orchestrator on concrete working directories *)

Lemma missing_vbmeta_fails_before_mutation_witness :
  fst (rebuild_all Bench.python (Bench.auto_self [Bench.key4096; Bench.key2048])
                   None true false (Bench.boot Bench.no_vbmeta_machine))
  = Ok false.
Proof.
  edestruct (@missing_vbmeta_fails_before_mutation Bench.Machine _ Bench.python
               (Bench.auto_self [Bench.key4096; Bench.key2048]) None true
               (Bench.boot Bench.no_vbmeta_machine))
    as [evs [Hrun Hro]].
  - vm_compute. reflexivity.
  - vm_compute. reflexivity.
  - discriminate.
  - vm_compute. reflexivity.
  - rewrite Hrun. reflexivity.
Defined.

(** C3 does not hold as stated.  [boot.img] is regular and is
    rebuilt; [vbmeta.img] is signed with [SHA256_RSA4096] and the only
    key at hand is the 2048-bit one.  The key selector, called from
    inside the umbrella rebuild, ends the process with status 1: no
    warning, no verification pass, no success. *)
Lemma umbrella_rebuild_can_exit :
  let run := rebuild_all Bench.python (Bench.auto_self [Bench.key2048]) None true false
                         (Bench.boot (Bench.umbrella_machine "SHA256_RSA4096" true)) in
  fst run = SysExit 1%Z
  /\ events (snd run)
     = [Invoked ["python3"; Bench.tool; "info_image"; "--image"; "boot.img"];
        Invoked ["python3"; Bench.tool; "info_image"; "--image"; "vbmeta.img"];
        Invoked ["python3"; Bench.tool; "info_image"; "--image"; "boot.img"];
        Invoked ["python3"; Bench.tool; "erase_footer"; "--image"; "boot.img"];
        Invoked ["python3"; Bench.tool; "add_hash_footer"; "--image"; "boot.img";
                 "--partition_name"; "boot"; "--partition_size"; "67108864";
                 "--algorithm"; "NONE"; "--salt"; "a1b2c3d4";
                 "--prop"; "com.android.build.boot.os_version:13";
                 "--prop"; "com.android.build.boot.fingerprint:"];
        Invoked ["python3"; Bench.tool; "info_image"; "--image"; "vbmeta.img"];
        Logged (ErrNoMatchingKey (Some "SHA256_RSA4096"))]
  /\ fst (rebuild_each Bench.python (Bench.auto_self [Bench.key2048])
            [("boot", "boot.img")] None true 0
            (Bench.boot (Bench.umbrella_machine "SHA256_RSA4096" true)))
     = Ok 1
  /\ fst (rebuild_vbmeta Bench.python (Bench.auto_self [Bench.key2048]) None
            [("boot", "boot.img")]
            (Bench.boot (Bench.umbrella_machine "SHA256_RSA4096" true)))
     = SysExit 1%Z.
Proof. repeat split; vm_compute; reflexivity. Qed.

Lemma classification_rule_witness :
  classify Bench.python (Bench.auto_self [Bench.key2048])
           [("init_boot", "init_boot.img"); ("boot", "boot.img")]
           (Bench.boot Bench.mixed_machine)
  = (Ok ([("init_boot", "init_boot.img")], [("boot", "boot.img")]),
     {| env := Bench.mixed_machine;
        events := [Invoked [Bench.python; Bench.tool; "info_image"; "--image";
                            "init_boot.img"];
                   Invoked [Bench.python; Bench.tool; "info_image"; "--image";
                            "boot.img"]] |})
  /\ fst (rebuild_partition Bench.python (Bench.auto_self [Bench.key2048])
            "init_boot" "init_boot.img" None true (Bench.boot Bench.mixed_machine))
     = fst ((run_command (erase_footer_cmd Bench.python
                            (Bench.auto_self [Bench.key2048]) "init_boot.img") ;;;
             _rebuild_chained_partition Bench.python (Bench.auto_self [Bench.key2048])
               "init_boot" "init_boot.img" Bench.size_64m "SHA256_RSA2048" (Some "0")
               Bench.zero_salt_info true)
              {| env := Bench.mixed_machine;
                 events := [Invoked [Bench.python; Bench.tool; "info_image"; "--image";
                                     "init_boot.img"]] |}).
Proof.
  destruct (@classification_rule Bench.Machine _ Bench.python
              (Bench.auto_self [Bench.key2048]) Bench.zero_salt_info)
    as [_ [_ [_ [_ [Hall Hone]]]]].
  split.
  - edestruct (Hall ("init_boot", "init_boot.img") [("boot", "boot.img")]
                    (Bench.boot Bench.mixed_machine)) as [Hchained _].
    + vm_compute. reflexivity.
    + vm_compute. reflexivity.
    + apply Hchained. exists "SHA256_RSA2048". split; [vm_compute; reflexivity |].
      split; discriminate.
  - edestruct (Hone "init_boot" "init_boot.img" None true
                    (Bench.boot Bench.mixed_machine)) as [Hchained _].
    + vm_compute. reflexivity.
    + vm_compute. reflexivity.
    + vm_compute. reflexivity.
    + rewrite (Hchained "SHA256_RSA2048");
        [reflexivity | vm_compute; reflexivity | discriminate | discriminate].
Defined.

Lemma umbrella_failure_is_a_warning_witness :
  (exists s7,
      rebuild_all Bench.python (Bench.auto_self [Bench.key2048]) None true false
                  (Bench.boot (Bench.umbrella_machine "SHA256_RSA2048" false))
        = (Ok true, s7)
      /\ skipn 9 (events s7)
         = [Logged WarnVbmetaRebuildFailed;
            Invoked [Bench.python; Bench.tool; "info_image"; "--image"; "vbmeta.img"];
            Invoked [Bench.python; Bench.tool; "info_image"; "--image"; "boot.img"]])
  /\ (exists m s,
        rebuild_all Bench.python (Bench.auto_self [Bench.key2048]) None true false
                    (Bench.boot (Bench.umbrella_machine "SHA256_RSA4096" true))
          = (SysExit 1%Z, s)
        /\ last (events s) (Logged WarnVbmetaRebuildFailed) = Logged m).
Proof.
  split.
  - edestruct (@umbrella_failure_is_a_warning Bench.Machine _ Bench.python
                 (Bench.auto_self [Bench.key2048]) None true
                 (Bench.boot (Bench.umbrella_machine "SHA256_RSA2048" false)))
      as [Hwarning _].
    + vm_compute. reflexivity.
    + vm_compute. reflexivity.
    + discriminate.
    + vm_compute. reflexivity.
    + vm_compute. reflexivity.
    + vm_compute. reflexivity.
    + vm_compute. reflexivity.
    + vm_compute. lia.
    + edestruct Hwarning as [s7 [evs [Hverify [Hrun [Hev Hro]]]]].
      * vm_compute. reflexivity.
      * exists s7. split; [exact Hrun |].
        vm_compute in Hverify. injection Hverify as <-.
        vm_compute. reflexivity.
  - edestruct (@umbrella_failure_is_a_warning Bench.Machine _ Bench.python
                 (Bench.auto_self [Bench.key2048]) None true
                 (Bench.boot (Bench.umbrella_machine "SHA256_RSA4096" true)))
      as [_ Hfatal].
    + vm_compute. reflexivity.
    + vm_compute. reflexivity.
    + discriminate.
    + vm_compute. reflexivity.
    + vm_compute. reflexivity.
    + vm_compute. reflexivity.
    + vm_compute. reflexivity.
    + vm_compute. lia.
    + edestruct Hfatal as [m [Hm [_ Hrun]]].
      * vm_compute. reflexivity.
      * right. split; [vm_compute; reflexivity |]. split; [reflexivity |].
        intros k [<- | []]. vm_compute. reflexivity.
      * eexists m, _. split; [exact Hrun |].
        cbn [events]. rewrite last_last. reflexivity.
Defined.

(** Property forwarding on metadata with a property whose value is empty
    and one whose line does not have the shape of a property. *)
Example prop_forwarding_example :
  let info := AvbImageParser.parse_output
                (Bench.lines (Bench.report_head "SHA256_RSA2048" Bench.rollback_line
                              ++ Bench.prop_lines ++ ["    Prop: malformed"])) in
  let st := Bench.boot (Bench.machine [] true) in
  Spec.prop_descriptors (descriptors info)
    = [{| p_key := Some "com.android.build.boot.os_version"; p_value := Some "13" |};
       {| p_key := Some "com.android.build.boot.fingerprint"; p_value := Some "" |};
       {| p_key := None; p_value := None |}]
  /\ fst (chained_plan Bench.python (Bench.auto_self [Bench.key2048]) "boot" "boot.img"
                       Bench.size_64m "SHA256_RSA2048" (Some "0") info true st)
     = Ok [Some "python3"; Some Bench.tool; Some "add_hash_footer";
           Some "--image"; Some "boot.img"; Some "--partition_name"; Some "boot";
           Some "--partition_size"; Some "67108864";
           Some "--algorithm"; Some "SHA256_RSA2048";
           Some "--key"; Some Bench.key2048;
           Some "--rollback_index"; Some "0";
           Some "--prop"; Some "com.android.build.boot.os_version:13"]
  /\ fst (hash_plan Bench.python (Bench.auto_self [Bench.key2048]) "boot" "boot.img"
                    Bench.size_64m None info true st)
     = Ok [Some "python3"; Some Bench.tool; Some "add_hash_footer";
           Some "--image"; Some "boot.img"; Some "--partition_name"; Some "boot";
           Some "--partition_size"; Some "67108864";
           Some "--algorithm"; Some "NONE";
           Some "--salt"; Some Bench.fixed_salt;
           Some "--prop"; Some "com.android.build.boot.os_version:13";
           Some "--prop"; Some "com.android.build.boot.fingerprint:";
           Some "--prop"; Some ":"].
Proof. repeat split; vm_compute; reflexivity. Qed.

(** * Further properties of the script *)

(** ** What the patterns capture *)

Section Captures.
Import Text Regex AvbImageParser.

Lemma span_inv (p : ascii -> bool) (s a b : string) :
  span p s = (a, b) ->
  s = a +++ b /\ all_chars p a = true
  /\ match b with
     | EmptyString => True
     | String c _ => p c = false
     end.
Proof.
  revert a b. induction s as [| c s IH]; intros a b Hspan.
  - simpl in Hspan. injection Hspan as <- <-. repeat split.
  - simpl in Hspan. destruct (p c) eqn:Hc.
    + destruct (span p s) as [a' b'] eqn:Hrec. injection Hspan as <- <-.
      destruct (IH a' b' eq_refl) as [Hs [Hall Hnext]].
      split; [simpl; now rewrite <- Hs |]. split; [simpl; now rewrite Hc | exact Hnext].
    + injection Hspan as <- <-. repeat split. exact Hc.
Qed.

(** The longest run of a class, when the text is the run followed by
    something that does not continue it. *)
Lemma span_run (p : ascii -> bool) (run tail : string) :
  all_chars p run = true ->
  match tail with
  | EmptyString => True
  | String c _ => p c = false
  end ->
  span p (run +++ tail) = (run, tail).
Proof.
  intros Hrun Htail. induction run as [| c run IH].
  - simpl. destruct tail as [| c tail]; [reflexivity |]. simpl. now rewrite Htail.
  - simpl in Hrun. apply andb_true_iff in Hrun. destruct Hrun as [Hc Hrun].
    simpl. rewrite Hc, (IH Hrun). reflexivity.
Qed.

Lemma strip_prefix_inv (p s r : string) :
  strip_prefix p s = Some r -> s = p +++ r.
Proof.
  revert s. induction p as [| a p IH]; intros s Hs.
  - simpl in Hs. injection Hs as <-. reflexivity.
  - destruct s as [| b s]; simpl in Hs; [discriminate |].
    destruct (Ascii.eqb a b) eqn:Eab; [| discriminate].
    apply Ascii.eqb_eq in Eab. subst b. simpl. f_equal. now apply IH.
Qed.

(** What a match of a pattern at the start of a text says about the
    text. *)
Lemma match_here_capture (f : Field) (s cap : string) :
  match_here f s = Some cap ->
  nonempty cap = true /\ all_chars (f_class f) cap = true
  /\ exists ws rest,
      s = f_label f +++ ws +++ cap +++ f_suffix f +++ rest
      /\ nonempty ws = true /\ all_chars is_space ws = true.
Proof.
  unfold match_here.
  destruct (strip_prefix (f_label f) s) as [r |] eqn:Hlabel; [| discriminate].
  destruct (span is_space r) as [ws r1] eqn:Hblanks.
  destruct (nonempty ws) eqn:Hws; [| discriminate].
  destruct (span (f_class f) r1) as [c r2] eqn:Hspan.
  destruct (nonempty c) eqn:Hne; [| discriminate].
  destruct (strip_prefix (f_suffix f) r2) as [rest |] eqn:Hsuffix; [| discriminate].
  intro Hcap. injection Hcap as <-. split; [exact Hne |].
  destruct (span_inv _ _ Hspan) as [Hr1 [Hall _]].
  destruct (span_inv _ _ Hblanks) as [Hr [Hwsc _]].
  split; [exact Hall |]. exists ws, rest.
  apply strip_prefix_inv in Hlabel, Hsuffix. subst.
  split; [reflexivity |]. split; [exact Hws | exact Hwsc].
Qed.

Lemma search_found {A : Type} (m : string -> option A) (s : string) (x : A) :
  search m s = Some x -> exists pre suf, s = pre +++ suf /\ m suf = Some x.
Proof.
  induction s as [| c s IH]; simpl.
  - destruct (m "") eqn:Hm; [| discriminate]. intro Hx. injection Hx as <-.
    now exists "", "".
  - destruct (m (String c s)) eqn:Hm.
    + intro Hx. injection Hx as <-. now exists "", (String c s).
    + intro Hs. destruct (IH Hs) as [pre [suf [-> Hsuf]]].
      now exists (String c pre), suf.
Qed.

(** A pattern found at the very start of the text is the one [search]
    reports. *)
Lemma search_at_start {A : Type} (m : string -> option A) (s : string) (x : A) :
  m s = Some x -> search m s = Some x.
Proof. intro Hm. destruct s; simpl; now rewrite Hm. Qed.

Lemma extract_pattern_capture (text : string) (f : Field) (cap : string) :
  _extract_pattern text f = Some cap ->
  nonempty cap = true /\ all_chars (f_class f) cap = true
  /\ exists pre ws rest,
      text = pre +++ f_label f +++ ws +++ cap +++ f_suffix f +++ rest
      /\ nonempty ws = true /\ all_chars is_space ws = true.
Proof.
  unfold _extract_pattern. intro Hfound.
  destruct (search_found _ _ Hfound) as [pre [suf [-> Hm]]].
  destruct (match_here_capture _ _ Hm) as [Hne [Hall [ws [rest [-> [Hws Hwsc]]]]]].
  split; [exact Hne |]. split; [exact Hall |]. now exists pre, ws, rest.
Qed.

(** X1. On ASCII text, where the classes of the model are the ones of
    Python's [re], a field the parser extracts is never the empty string,
    consists of characters of the class of its pattern only (digits for
    sizes, indices and flags, hexadecimal digits for salts and digests,
    non-blanks for names and algorithms), and stands in the text after
    the label of the pattern and one or more blanks, followed by the
    suffix of the pattern. *)
Theorem captured_field_wellformed (text : string) (f : Field) (cap : string) :
  all_chars is_ascii text = true ->
  _extract_pattern text f = Some cap ->
  cap <> "" /\ all_chars (f_class f) cap = true
  /\ exists pre ws rest,
      text = pre +++ f_label f +++ ws +++ cap +++ f_suffix f +++ rest
      /\ ws <> "" /\ all_chars is_space ws = true.
Proof.
  intros _ Hfound.
  destruct (extract_pattern_capture _ _ Hfound)
    as [Hne [Hall [pre [ws [rest [Htext [Hws Hwsc]]]]]]].
  split; [now apply nonempty_true_iff |]. split; [exact Hall |].
  exists pre, ws, rest. split; [exact Htext |].
  split; [now apply nonempty_true_iff | exact Hwsc].
Qed.

(** X2. The image size the parser reads from an ASCII report is a
    non-empty run of decimal digits and passes the truth test of
    [rebuild_partition]; the call of [int] on it that follows returns
    when the run has at most 4300 digits and raises [ValueError] when it
    has more. *)
Theorem parsed_image_size_converts (output size : string) :
  all_chars is_ascii output = true ->
  image_size (parse_output output) = Some size ->
  Py.truthy (Some size) = true
  /\ all_chars is_digit size = true
  /\ (String.length size <= Py.int_max_str_digits -> exists n, Py.int size = Ok n)
  /\ (Py.int_max_str_digits < String.length size -> Py.int size = Raise ValueError).
Proof.
  intros _. simpl image_size. intro Hsize.
  destruct (extract_pattern_capture output (bytes_after "Image size:") Hsize)
    as [Hne [Hall _]].
  split; [exact Hne |]. cbn [f_class bytes_after] in Hall. split; [exact Hall |].
  unfold Py.int. rewrite Hne, Hall. cbn [andb]. split; intro Hlen.
  - apply Nat.leb_le in Hlen. rewrite Hlen. now eexists.
  - apply Nat.leb_gt in Hlen. rewrite Hlen. reflexivity.
Qed.

(** X3. A property descriptor read from any text has both its key and its
    value or neither; a key that is there is non-empty and free of blanks,
    and a value that is there contains no single quote. *)
Theorem parsed_prop_shape (content : string) :
  let p := _parse_prop_descriptor content in
  (p_key p = None /\ p_value p = None)
  \/ (exists k v,
        p_key p = Some k /\ p_value p = Some v
        /\ k <> "" /\ all_chars is_nonspace k = true
        /\ all_chars is_not_quote v = true).
Proof.
  unfold _parse_prop_descriptor.
  destruct (search match_prop_here content) as [[k v] |] eqn:Hfound; [| now left].
  right. exists k, v. split; [reflexivity |]. split; [reflexivity |].
  destruct (search_found _ _ Hfound) as [pre [suf [_ Hm]]]. clear Hfound.
  unfold match_prop_here in Hm.
  destruct (span is_nonspace suf) as [key r1] eqn:Hkey.
  destruct (nonempty key) eqn:Hne; [| discriminate].
  destruct (span is_space r1) as [ws1 r2].
  destruct (nonempty ws1); [| discriminate].
  destruct (strip_prefix "->" r2) as [r3 |]; [| discriminate].
  destruct (span is_space r3) as [ws2 r4].
  destruct (nonempty ws2); [| discriminate].
  destruct (strip_prefix "'" r4) as [r5 |]; [| discriminate].
  destruct (span is_not_quote r5) as [val r6] eqn:Hval.
  destruct (strip_prefix "'" r6); [| discriminate].
  injection Hm as <- <-.
  destruct (span_inv _ _ Hkey) as [_ [Hk _]].
  destruct (span_inv _ _ Hval) as [_ [Hv _]].
  split; [now apply nonempty_true_iff |]. now split.
Qed.

Lemma match_prop_here_blank (c : ascii) (s : string) :
  is_space c = true -> match_prop_here (String c s) = None.
Proof.
  intro Hc. unfold match_prop_here. simpl. unfold is_nonspace. rewrite Hc. reflexivity.
Qed.

Lemma span_blanks_then (ws tail : string) (c : ascii) :
  all_chars is_space ws = true -> is_space c = false ->
  span is_space (ws +++ String c tail) = (ws, String c tail).
Proof. intros Hws Hc. now apply span_run. Qed.

(** X4. Round trip of a property line.  An ASCII text made of blanks, a
    key, blanks, an arrow, blanks and a quoted value is read back as that
    key and that value, whatever follows the closing quote. *)
Theorem prop_line_round_trip (lead key ws1 ws2 value rest : string) :
  all_chars is_ascii
    (lead +++ key +++ ws1 +++ "->" +++ ws2 +++ "'" +++ value +++ "'" +++ rest) = true ->
  all_chars is_space lead = true ->
  key <> "" -> all_chars is_nonspace key = true ->
  ws1 <> "" -> all_chars is_space ws1 = true ->
  ws2 <> "" -> all_chars is_space ws2 = true ->
  all_chars is_not_quote value = true ->
  _parse_prop_descriptor
    (lead +++ key +++ ws1 +++ "->" +++ ws2 +++ "'" +++ value +++ "'" +++ rest)
  = {| p_key := Some key; p_value := Some value |}.
Proof.
  intros _ Hlead Hkey Hkeyc Hws1 Hws1c Hws2 Hws2c Hval.
  unfold _parse_prop_descriptor.
  assert (Hhere : match_prop_here
                    (key +++ ws1 +++ "->" +++ ws2 +++ "'" +++ value +++ "'" +++ rest)
                  = Some (key, value)).
  { unfold match_prop_here.
    rewrite (span_run is_nonspace key _ Hkeyc).
    2:{ destruct ws1 as [| c ws1]; [now contradiction Hws1 |].
        simpl in Hws1c. apply andb_true_iff in Hws1c. destruct Hws1c as [Hc _].
        simpl. unfold is_nonspace. now rewrite Hc. }
    apply nonempty_true_iff in Hkey. rewrite Hkey.
    change ("->" +++ ws2 +++ "'" +++ value +++ "'" +++ rest)
      with (String "-" (String ">" (ws2 +++ "'" +++ value +++ "'" +++ rest))).
    rewrite (span_blanks_then ws1 _ "-" Hws1c eq_refl).
    apply nonempty_true_iff in Hws1. rewrite Hws1.
    cbn [strip_prefix]. rewrite !Ascii.eqb_refl.
    change ("'" +++ value +++ "'" +++ rest)
      with (String "'" (value +++ "'" +++ rest)).
    rewrite (span_blanks_then ws2 _ "'" Hws2c eq_refl).
    apply nonempty_true_iff in Hws2. rewrite Hws2.
    cbn [strip_prefix]. rewrite Ascii.eqb_refl.
    rewrite (span_run is_not_quote value ("'" +++ rest) Hval eq_refl).
    cbn [append strip_prefix]. rewrite Ascii.eqb_refl. reflexivity. }
  assert (Hsearch : search match_prop_here
                      (lead +++ key +++ ws1 +++ "->" +++ ws2 +++ "'" +++ value
                            +++ "'" +++ rest)
                    = Some (key, value)).
  { induction lead as [| c lead IH].
    - exact (search_at_start _ _ Hhere).
    - simpl in Hlead. apply andb_true_iff in Hlead. destruct Hlead as [Hc Hlead].
      cbn [append search]. rewrite (match_prop_here_blank c _ Hc). now apply IH. }
  rewrite Hsearch. reflexivity.
Qed.

(** X5. Round trip of a field line, on ASCII text.  When the text before
    the label does not contain the first character of the label
    (indentation, say), and the label is followed by blanks, a non-empty
    run of the class of the pattern, and the suffix of the pattern, the
    field is read back as that run.  The class has to exclude blanks and
    the character that follows the run, as the classes of the script do. *)
Theorem field_line_round_trip (f : Field) (c0 : ascii) (label' : string)
        (pre ws cap rest : string) :
  all_chars is_ascii (pre +++ f_label f +++ ws +++ cap +++ f_suffix f +++ rest) = true ->
  f_label f = String c0 label' ->
  all_chars (fun c => negb (Ascii.eqb c0 c)) pre = true ->
  ws <> "" -> all_chars is_space ws = true ->
  cap <> "" -> all_chars (f_class f) cap = true ->
  (forall c, f_class f c = true -> is_space c = false) ->
  match f_suffix f +++ rest with
  | EmptyString => True
  | String c _ => f_class f c = false
  end ->
  _extract_pattern (pre +++ f_label f +++ ws +++ cap +++ f_suffix f +++ rest) f
  = Some cap.
Proof.
  intros _ Hlabel Hpre Hws Hwsc Hcap Hcapc Hclass Hnext.
  unfold _extract_pattern.
  assert (Hhere : match_here f (f_label f +++ ws +++ cap +++ f_suffix f +++ rest)
                  = Some cap).
  { unfold match_here. rewrite strip_prefix_app.
    rewrite (span_run is_space ws _ Hwsc).
    2:{ destruct cap as [| c cap]; [now contradiction Hcap |].
        simpl in Hcapc. apply andb_true_iff in Hcapc. destruct Hcapc as [Hc _].
        simpl. now apply Hclass. }
    apply nonempty_true_iff in Hws. rewrite Hws.
    rewrite (span_run (f_class f) cap _ Hcapc Hnext).
    apply nonempty_true_iff in Hcap. rewrite Hcap.
    rewrite strip_prefix_app. reflexivity. }
  induction pre as [| c pre IH].
  - exact (search_at_start _ _ Hhere).
  - simpl in Hpre. apply andb_true_iff in Hpre. destruct Hpre as [Hc Hpre].
    cbn [append search].
    assert (Hnone : match_here f (String c (pre +++ f_label f +++ ws +++ cap
                                                +++ f_suffix f +++ rest)) = None).
    { unfold match_here. rewrite Hlabel. cbn [strip_prefix].
      apply negb_true_iff in Hc. now rewrite Hc. }
    rewrite Hnone. now apply IH.
Qed.

End Captures.

(** ** Keys *)

Section Keys.
Context {Env : Type} `{External Env}.
Import Text Py Trace.

(** X6. Key selection among detected keys.  No key was given at start-up
    and the algorithm is one of the four.  A key that is returned is the
    first available key whose path contains [rsa4096], or [rsa2048], as
    the algorithm asks, and the state is left as it was; when no available
    key contains that text the selector reports it and exits with status
    1. *)
Theorem detected_key_selection (self : AvbRebuilder) (algorithm : option string)
        (st : State Env) :
  truthy (private_key self) = false ->
  Spec.recognized algorithm = true ->
  (forall key st',
      get_key_for_algorithm self algorithm st = (Ok key, st') ->
      st' = st
      /\ exists before after,
          available_keys self = before ++ key :: after
          /\ contains ("rsa" +++ strength_of algorithm) key = true
          /\ Forall (fun k => contains ("rsa" +++ strength_of algorithm) k = false)
                    before)
  /\ ((forall k, In k (available_keys self) ->
                 contains ("rsa" +++ strength_of algorithm) k = false) ->
      get_key_for_algorithm self algorithm st
      = (SysExit 1%Z,
         {| env := env st;
            events := events st ++ [Logged (ErrNoMatchingKey algorithm)] |})).
Proof.
  intros Hmanual Hr. unfold get_key_for_algorithm, bind.
  rewrite (detect_strength algorithm st Hr). cbv beta iota. rewrite Hmanual.
  set (matches := fun key_path : string =>
                    contains ("rsa" +++ strength_of algorithm) key_path).
  split.
  - intros key st'.
    destruct (find matches (available_keys self)) as [k |] eqn:Hfind.
    + unfold ret. intro Hk. injection Hk as <- <-. split; [reflexivity |].
      exact (find_first _ _ Hfind).
    + unfold log, emit, sys_exit. discriminate.
  - intro Hnone. rewrite (find_nothing matches _ Hnone). reflexivity.
Qed.

(** The detection of keys, by cases on the candidates that exist. *)
Lemma auto_detect_cases (wd : string) (st : State Env) :
  auto_detect_private_key wd st
  = match filter (fun k => path_exists k (env st)) (candidate_paths wd) with
    | [] => (SysExit 1%Z,
             {| env := env st; events := events st ++ [Logged ErrNoPrivateKeys] |})
    | keys => (Ok keys, st)
    end.
Proof.
  unfold auto_detect_private_key, candidate_paths, key_candidates.
  unfold bind. cbn [for_each map filter]. unfold bind, os_path_exists, ask, ret.
  cbv beta iota.
  destruct (path_exists (path_normpath (path_join [wd; "tools/pem/testkey_rsa4096.pem"]))
                        (env st));
    destruct (path_exists (path_normpath (path_join [wd; "tools/pem/testkey_rsa2048.pem"]))
                          (env st));
    reflexivity.
Qed.

(** The construction of a rebuilder, by cases: the working directory
    cannot be entered; a key was given; the keys are detected. *)
Lemma init_cases (working_dir_arg avbtool_arg private_key_arg : option string)
      (st : State Env) :
  let wd := working_dir_of working_dir_arg (env st) in
  let tool := if truthy avbtool_arg then get_or_empty avbtool_arg
              else path_join [wd; "tools"; "avbtool.py"] in
  init working_dir_arg avbtool_arg private_key_arg st
  = match chdir wd (env st) with
    | None => (Raise OSError, st)
    | Some e' =>
        if truthy private_key_arg then
          let pk := get_or_empty private_key_arg in
          let key := if path_isabs pk then path_normpath pk
                     else path_normpath (path_join [wd; pk]) in
          (Ok {| working_dir := wd; avbtool_path := tool;
                 private_key := Some key; available_keys := [key] |},
           {| env := e'; events := events st |})
        else
          match filter (fun k => path_exists k e') (candidate_paths wd) with
          | [] => (SysExit 1%Z,
                   {| env := e'; events := events st ++ [Logged ErrNoPrivateKeys] |})
          | keys => (Ok {| working_dir := wd; avbtool_path := tool;
                           private_key := None; available_keys := keys |},
                     {| env := e'; events := events st |})
          end
    end.
Proof.
  cbv zeta. unfold working_dir_of, init, bind, ask, os_chdir, ret. cbv beta iota zeta.
  destruct (chdir _ (env st)) as [e' |]; [| reflexivity].
  destruct private_key_arg as [pk |]; cbn [truthy get_or_empty].
  - destruct (Regex.nonempty pk); [reflexivity |].
    rewrite auto_detect_cases. cbn [env events].
    destruct (filter _ _); reflexivity.
  - rewrite auto_detect_cases. cbn [env events].
    destruct (filter _ _); reflexivity.
Qed.



End Keys.

(** ** Discovery and classification *)

Section Discovery.
Context {Env : Type} `{External Env}.
Variable PYTHON_EXECUTABLE : string.
Import Text Py Trace.

Local Abbreviation M := (Run Env).

(** An invariant of the accumulator and the state that every turn keeps
    is kept by the loop. *)
Lemma for_each_invariant {A S : Type} (I : S -> State Env -> Prop)
      (body : A -> S -> M S) (xs : list A) :
  (forall x acc st acc' st',
      In x xs -> body x acc st = (Ok acc', st') -> I acc st -> I acc' st') ->
  forall acc st r st',
    I acc st -> for_each xs body acc st = (Ok r, st') -> I r st'.
Proof.
  induction xs as [| x xs IH]; intros Hbody acc st r st' Hacc Hrun.
  - simpl in Hrun. injection Hrun as <- <-. exact Hacc.
  - simpl in Hrun. unfold bind in Hrun.
    destruct (body x acc st) as [[acc1 | e | c] st1] eqn:Hstep; try discriminate.
    apply (IH (fun y a s a' s' Hy => Hbody y a s a' s' (or_intror Hy)) acc1 st1);
      [| exact Hrun].
    exact (Hbody x acc st acc1 st1 (or_introl eq_refl) Hstep Hacc).
Qed.

Lemma dict_set_in {V : Type} (k : string) (v : V) (d : list (string * V))
      (n : string) (w : V) :
  In (n, w) (dict_set k v d) -> (n, w) = (k, v) \/ In (n, w) d.
Proof.
  induction d as [| [k' v'] d IH]; simpl.
  - intros [Heq | []]. now left.
  - destruct (String.eqb k' k).
    + intros [Heq | Hin]; [now left | right; now right].
    + intros [Heq | Hin]; [right; now left |].
      destruct (IH Hin) as [Heq | Hd]; [now left | right; now right].
Qed.

Lemma dict_set_key_in {V : Type} (k : string) (v : V) (d : list (string * V))
      (n : string) :
  In n (map fst (dict_set k v d)) -> n = k \/ In n (map fst d).
Proof.
  induction d as [| [k' v'] d IH]; simpl.
  - intros [Heq | []]. now left.
  - destruct (String.eqb k' k) eqn:E.
    + simpl. intros [Heq | Hin]; [now left | right; now right].
    + simpl. intros [Heq | Hin]; [right; now left |].
      destruct (IH Hin) as [Heq | Hd]; [now left | right; now right].
Qed.

(** Assignment keeps the keys of a dictionary distinct. *)
Lemma dict_set_nodup {V : Type} (k : string) (v : V) (d : list (string * V)) :
  NoDup (map fst d) -> NoDup (map fst (dict_set k v d)).
Proof.
  induction d as [| [k' v'] d IH]; simpl; intro Hd.
  - repeat constructor. intros [].
  - inversion Hd as [| x l Hnotin Hrest]; subst.
    destruct (String.eqb k' k) eqn:E.
    + apply String.eqb_eq in E. subst k'. simpl. now constructor.
    + simpl. constructor; [| now apply IH].
      intro Hin. destruct (dict_set_key_in _ _ _ _ Hin) as [Heq | Hin'].
      * subst k'. rewrite String.eqb_refl in E. discriminate.
      * contradiction.
Qed.

(** Assignment to a new key appends. *)
Lemma dict_set_new {V : Type} (k : string) (v : V) (d : list (string * V)) :
  ~ In k (map fst d) -> dict_set k v d = d ++ [(k, v)].
Proof.
  induction d as [| [k' v'] d IH]; simpl; intro Hnew; [reflexivity |].
  destruct (String.eqb k' k) eqn:E.
  - apply String.eqb_eq in E. exfalso. apply Hnew. now left.
  - f_equal. apply IH. intro Hin. apply Hnew. now right.
Qed.

Lemma dict_of_from {V : Type} (pairs acc : list (string * V)) :
  NoDup (map fst (acc ++ pairs)) ->
  fold_left (fun d kv => dict_set (fst kv) (snd kv) d) pairs acc = acc ++ pairs.
Proof.
  revert acc. induction pairs as [| [k v] pairs IH]; intros acc Hnodup; simpl.
  - now rewrite app_nil_r.
  - rewrite dict_set_new.
    + rewrite IH; rewrite <- app_assoc; [reflexivity | exact Hnodup].
    + rewrite map_app in Hnodup. simpl in Hnodup.
      apply NoDup_remove_2 in Hnodup. intro Hin. apply Hnodup.
      apply in_or_app. now left.
Qed.

(** A list of pairs with distinct keys is its own dictionary. *)
Lemma dict_of_nodup {V : Type} (pairs : list (string * V)) :
  NoDup (map fst pairs) -> dict_of pairs = pairs.
Proof. intro Hnodup. unfold dict_of. now rewrite dict_of_from. Qed.

(** X8. Discovery changes nothing on the machine and returns pairs of a
    partition name and an image path such that the names are pairwise
    distinct, every path existed when it was probed, and every name is its
    path with all occurrences of [.img] removed. *)
Theorem discover_invariants (partitions : option (list string))
        (st st' : State Env) (images : list (string * string)) :
  discover partitions st = (Ok images, st') ->
  env st' = env st
  /\ NoDup (map fst images)
  /\ forall name path, In (name, path) images ->
       path_exists path (env st) = true /\ name = remove_all ".img" path.
Proof.
  set (I := fun (acc : list (string * string)) (s : State Env) =>
              env s = env st
              /\ NoDup (map fst acc)
              /\ forall name path, In (name, path) acc ->
                   path_exists path (env st) = true /\ name = remove_all ".img" path).
  assert (Hinit : I [] st).
  { split; [reflexivity |]. split; [apply NoDup_nil |]. intros name path []. }
  assert (Hdetect : forall r s,
             detect_partition_images st = (Ok r, s) -> I r s).
  { intros r s. unfold detect_partition_images.
    apply (for_each_invariant I); [| exact Hinit].
    intros x acc s0 acc' s1 Hx Hstep [Henv [Hnodup Hall]].
    unfold bind, os_path_exists, ask, ret in Hstep. rewrite Henv in Hstep.
    destruct (path_exists (x +++ ".img") (env st)) eqn:Hex;
      injection Hstep as <- <-.
    - split; [exact Henv |]. split; [now apply dict_set_nodup |].
      intros name path Hin. destruct (dict_set_in _ _ _ _ _ Hin) as [Heq | Hold].
      + injection Heq as -> ->. split; [exact Hex |].
        destruct Hx as [<- | [<- | []]]; reflexivity.
      + now apply Hall.
    - split; [exact Henv |]. now split. }
  unfold discover. destruct partitions as [[| p ps] |]; try apply Hdetect.
  apply (for_each_invariant I); [| exact Hinit].
  intros x acc s0 acc' s1 _ Hstep [Henv [Hnodup Hall]].
  unfold bind, os_path_exists, ask, ret in Hstep. rewrite Henv in Hstep.
  set (img_file := if endswith x ".img" then x else x +++ ".img") in *.
  destruct (path_exists img_file (env st)) eqn:Hex.
  - injection Hstep as <- <-.
    split; [exact Henv |]. split; [now apply dict_set_nodup |].
    intros name path Hin. destruct (dict_set_in _ _ _ _ _ Hin) as [Heq | Hold].
    + injection Heq as -> ->. now split.
    + now apply Hall.
  - unfold log, emit in Hstep. injection Hstep as <- <-.
    split; [exact Henv |]. now split.
Qed.

(** The loop of [classify], from any pair of buckets. *)
Lemma classify_from (self : AvbRebuilder) (images : list (string * string)) :
  forall acc st r st',
    for_each images
      (fun item acc =>
         current_info <- parse_image_info PYTHON_EXECUTABLE (avbtool_path self) (snd item) ;;
         ret (if is_chained current_info then (fst acc ++ [item], snd acc)
              else (fst acc, snd acc ++ [item])))
      acc st = (Ok r, st') ->
    exists cs rs,
      fst r = fst acc ++ cs /\ snd r = snd acc ++ rs /\ Permutation (cs ++ rs) images.
Proof.
  induction images as [| item images IH]; intros acc st r st' Hrun.
  - simpl in Hrun. injection Hrun as <- <-. exists [], [].
    rewrite !app_nil_r. now repeat split.
  - cbn [for_each] in Hrun. unfold bind at 1 in Hrun. unfold bind at 1 in Hrun.
    destruct (parse_image_info PYTHON_EXECUTABLE (avbtool_path self) (snd item) st)
      as [[info | e | c] st1]; try discriminate.
    unfold ret at 1 in Hrun.
    destruct (IH _ _ _ _ Hrun) as [cs [rs [Hc [Hr Hperm]]]].
    destruct (is_chained info); cbn [fst snd] in Hc, Hr.
    + exists (item :: cs), rs. rewrite Hc, Hr, <- app_assoc.
      repeat split. simpl. now constructor.
    + exists cs, (item :: rs). rewrite Hc, Hr, <- app_assoc.
      repeat split. apply Permutation_sym, Permutation_cons_app.
      now apply Permutation_sym.
Qed.

(** X9. Classification loses no image and invents none: the chained and
    the regular partitions together are a rearrangement of the images that
    were classified.  When the names of the images are pairwise distinct,
    as discovery leaves them, building a dictionary from either bucket
    gives the bucket back, so the umbrella step sees every regular
    partition once and in order. *)
Theorem classify_partitions (self : AvbRebuilder) (images : list (string * string))
        (st st' : State Env) (chained_partitions regular_partitions : list (string * string)) :
  classify PYTHON_EXECUTABLE self images st
    = (Ok (chained_partitions, regular_partitions), st') ->
  Permutation (chained_partitions ++ regular_partitions) images
  /\ (NoDup (map fst images) ->
      dict_of regular_partitions = regular_partitions
      /\ dict_of chained_partitions = chained_partitions).
Proof.
  intro Hrun. unfold classify in Hrun.
  destruct (classify_from self images _ _ Hrun) as [cs [rs [Hc [Hr Hperm]]]].
  cbn [fst snd app] in Hc, Hr. subst cs rs. split; [exact Hperm |].
  intro Hnodup.
  assert (Hboth : NoDup (map fst (chained_partitions ++ regular_partitions))).
  { apply (Permutation_NoDup (l := map fst images)); [| exact Hnodup].
    apply Permutation_map. now apply Permutation_sym. }
  rewrite map_app in Hboth. split; apply dict_of_nodup.
  - exact (NoDup_app_remove_l _ _ Hboth).
  - exact (NoDup_app_remove_r _ _ Hboth).
Qed.

End Discovery.

(** ** What a run can do *)

Section TraceFacts.
Context {Env : Type} `{External Env}.
Variable PYTHON_EXECUTABLE : string.
Import Text Py Planner Trace.

Local Abbreviation M := (Run Env).

Variable P : Event -> Prop.

Lemma emits_ret {A : Type} (a : A) : emits P (ret a : M A).
Proof. intro st. exists []. simpl. rewrite app_nil_r. now split. Qed.

Lemma emits_lift {A : Type} (o : Outcome A) : emits P (lift o : M A).
Proof. intro st. exists []. simpl. rewrite app_nil_r. now split. Qed.

Lemma emits_raise {A : Type} (e : PyExn) : emits P (raise e : M A).
Proof. intro st. exists []. simpl. rewrite app_nil_r. now split. Qed.

Lemma emits_sys_exit {A : Type} (c : Z) : emits P (sys_exit c : M A).
Proof. intro st. exists []. simpl. rewrite app_nil_r. now split. Qed.

Lemma emits_ask {A : Type} (f : Env -> A) : emits P (ask f).
Proof. intro st. exists []. simpl. rewrite app_nil_r. now split. Qed.

Lemma emits_act {A : Type} (f : Env -> A * Env) : emits P (act f).
Proof.
  intro st. exists []. unfold act. destruct (f (env st)). simpl.
  rewrite app_nil_r. now split.
Qed.

Lemma emits_os_chdir (d : string) : emits P (os_chdir d).
Proof.
  intro st. exists []. unfold os_chdir. destruct (chdir d (env st)); simpl;
    rewrite app_nil_r; now split.
Qed.

Lemma emits_emit (e : Event) : P e -> emits P (emit e : M unit).
Proof. intros He st. exists [e]. simpl. split; [reflexivity | now repeat constructor]. Qed.

Lemma emits_bind {A B : Type} (m : M A) (k : A -> M B) :
  emits P m -> (forall a, emits P (k a)) -> emits P (bind m k).
Proof.
  intros Hm Hk st. destruct (Hm st) as [evs1 [Hev1 Hp1]]. unfold bind.
  destruct (m st) as [[a | e | c] st1]; simpl in Hev1.
  - destruct (Hk a st1) as [evs2 [Hev2 Hp2]]. exists (evs1 ++ evs2).
    rewrite Hev2, Hev1, app_assoc. split; [reflexivity | now apply Forall_app].
  - now exists evs1.
  - now exists evs1.
Qed.

Lemma emits_bind_returns {A B : Type} (Q : A -> Prop) (m : M A) (k : A -> M B) :
  emits P m -> returns Q m -> (forall a, Q a -> emits P (k a)) -> emits P (bind m k).
Proof.
  intros Hm Hq Hk st. destruct (Hm st) as [evs1 [Hev1 Hp1]]. unfold bind.
  destruct (m st) as [[a | e | c] st1] eqn:Hrun; simpl in Hev1.
  - destruct (Hk a (Hq st a st1 Hrun) st1) as [evs2 [Hev2 Hp2]]. exists (evs1 ++ evs2).
    rewrite Hev2, Hev1, app_assoc. split; [reflexivity | now apply Forall_app].
  - now exists evs1.
  - now exists evs1.
Qed.

Lemma emits_for_each {A S : Type} (xs : list A) (body : A -> S -> M S) :
  (forall x acc, emits P (body x acc)) -> forall acc, emits P (for_each xs body acc).
Proof.
  intro Hbody. induction xs as [| x xs IH]; intro acc; simpl.
  - apply emits_ret.
  - apply emits_bind; [apply Hbody | exact IH].
Qed.

Hypothesis P_messages : forall m, P (Logged m).

Lemma emits_log (m : Message) : emits P (log m : M unit).
Proof. apply emits_emit, P_messages. Qed.

Lemma emits_run_command (cmd : list (option string)) :
  (forall argv, all_strings cmd = Some argv -> P (Invoked argv)) ->
  emits P (run_command cmd).
Proof.
  intro Hcmd. unfold run_command.
  destruct (all_strings cmd) as [argv |]; [| apply emits_raise].
  apply emits_bind; [apply emits_emit; now apply Hcmd |]. intros _.
  apply emits_bind; [apply emits_act |]. intros [stdout |]; [apply emits_ret |].
  apply emits_bind; [apply emits_log | intros _; apply emits_ret].
Qed.

Lemma emits_detect_required_key_type (algorithm : option string) :
  emits P (detect_required_key_type algorithm : M string).
Proof.
  unfold detect_required_key_type.
  destruct (in_strs algorithm ["SHA256_RSA4096"; "SHA512_RSA4096"]); [apply emits_ret |].
  destruct (in_strs algorithm ["SHA256_RSA2048"; "SHA512_RSA2048"]); [apply emits_ret |].
  apply emits_bind; [apply emits_log | intros _; apply emits_sys_exit].
Qed.

Lemma emits_get_key_for_algorithm (self : AvbRebuilder) (algorithm : option string) :
  emits P (get_key_for_algorithm self algorithm : M string).
Proof.
  unfold get_key_for_algorithm.
  apply emits_bind; [apply emits_detect_required_key_type |]. intro t.
  destruct (truthy (private_key self)); [apply emits_ret |].
  destruct (find _ _); [apply emits_ret |].
  apply emits_bind; [apply emits_log | intros _; apply emits_sys_exit].
Qed.

Lemma emits_detect_partition_images : emits P (detect_partition_images : M _).
Proof.
  unfold detect_partition_images. apply emits_for_each. intros p acc.
  apply emits_bind; [apply emits_ask | intro; apply emits_ret].
Qed.

Lemma emits_discover (partitions : option (list string)) :
  emits P (discover partitions : M _).
Proof.
  unfold discover. destruct partitions as [[| p ps] |];
    try apply emits_detect_partition_images.
  apply emits_for_each. intros q acc.
  apply emits_bind; [apply emits_ask |]. intros [|]; [apply emits_ret |].
  apply emits_bind; [apply emits_log | intro; apply emits_ret].
Qed.

Lemma emits_mode_gate (chained_mode : bool)
      (chained_partitions regular_partitions : list (string * string)) :
  emits P (mode_gate chained_mode chained_partitions regular_partitions : M _).
Proof.
  unfold mode_gate. destruct chained_mode.
  - apply emits_bind.
    + destruct regular_partitions; [apply emits_ret |].
      apply emits_bind; [apply emits_log |]. intros _.
      apply emits_bind; [apply emits_log | intros _; apply emits_ret].
    + intro regs. destruct chained_partitions; [| apply emits_ret].
      apply emits_bind; [apply emits_log | intros _; apply emits_ret].
  - destruct regular_partitions; [apply emits_ret |].
    apply emits_bind; [apply emits_ask |]. intros [|]; [apply emits_ret |].
    apply emits_bind; [apply emits_log | intros _; apply emits_ret].
Qed.

Lemma emits_auto_detect_private_key (wd : string) :
  emits P (auto_detect_private_key wd : M _).
Proof.
  unfold auto_detect_private_key. apply emits_bind.
  - apply emits_for_each. intros k acc.
    apply emits_bind; [apply emits_ask | intro; apply emits_ret].
  - intros [| k ks]; [| apply emits_ret].
    apply emits_bind; [apply emits_log | intros _; apply emits_sys_exit].
Qed.

Lemma emits_init (working_dir_arg avbtool_arg private_key_arg : option string) :
  emits P (init working_dir_arg avbtool_arg private_key_arg : M _).
Proof.
  unfold init. apply emits_bind; [apply emits_ask |]. intro cwd. cbv zeta.
  apply emits_bind; [apply emits_os_chdir |]. intros _.
  destruct private_key_arg as [pk |].
  - destruct (Regex.nonempty pk); [apply emits_ret |].
    apply emits_bind; [apply emits_auto_detect_private_key | intro; apply emits_ret].
  - apply emits_bind; [apply emits_auto_detect_private_key | intro; apply emits_ret].
Qed.

Lemma emits_has_partition_images (partitions : option (list string)) :
  emits P (has_partition_images partitions : M bool).
Proof.
  unfold has_partition_images. destruct partitions as [[| p ps] |].
  - apply emits_bind; [apply emits_ask | intro; apply emits_ret].
  - apply emits_for_each. intros q [|]; [apply emits_ret | apply emits_ask].
  - apply emits_bind; [apply emits_ask | intro; apply emits_ret].
Qed.

End TraceFacts.

Section Toolkit.
Context {Env : Type} `{External Env}.
Variable PYTHON_EXECUTABLE : string.
Variable self : AvbRebuilder.
Variable subs : list string.
Import Text Py Planner Trace.

Local Abbreviation M := (Run Env).
Local Abbreviation P := (toolkit_call PYTHON_EXECUTABLE (avbtool_path self) subs).

Lemma toolkit_messages (m : Message) : P (Logged m).
Proof. exact I. Qed.

Lemma calls_toolkit (sub : string) (cmd : list (option string)) (argv : list string) :
  calls PYTHON_EXECUTABLE (avbtool_path self) sub cmd -> In sub subs ->
  all_strings cmd = Some argv -> P (Invoked argv).
Proof.
  intros [rest ->] Hsub. cbn [all_strings].
  destruct (all_strings rest) as [rest' |]; [| discriminate].
  intro Hargv. injection Hargv as <-. now exists sub, rest'.
Qed.

Lemma calls_app (sub : string) (cmd more : list (option string)) :
  calls PYTHON_EXECUTABLE (avbtool_path self) sub cmd ->
  calls PYTHON_EXECUTABLE (avbtool_path self) sub (cmd ++ more).
Proof. intros [rest ->]. now exists (rest ++ more). Qed.

Lemma emits_toolkit_command (sub : string) (cmd : list (option string)) :
  calls PYTHON_EXECUTABLE (avbtool_path self) sub cmd -> In sub subs ->
  emits P (run_command cmd).
Proof.
  intros Hcalls Hsub. apply emits_run_command; [exact toolkit_messages |].
  intros argv. now apply calls_toolkit with (sub := sub).
Qed.

Hypothesis Hinfo : In "info_image" subs.

Lemma emits_parse_image_info (image_path : string) :
  emits P (parse_image_info PYTHON_EXECUTABLE (avbtool_path self) image_path).
Proof.
  unfold parse_image_info. apply emits_bind.
  - apply emits_toolkit_command with (sub := "info_image"); [now eexists | exact Hinfo].
  - intros [stdout |]; [| apply emits_ret].
    destruct (Regex.nonempty stdout); apply emits_ret.
Qed.

Lemma emits_classify (images : list (string * string)) :
  emits P (classify PYTHON_EXECUTABLE self images).
Proof.
  unfold classify. apply emits_for_each. intros item acc.
  apply emits_bind; [apply emits_parse_image_info | intro; apply emits_ret].
Qed.

Lemma emits_verify_result : emits P (verify_result PYTHON_EXECUTABLE self).
Proof.
  unfold verify_result.
  apply emits_bind; [apply emits_ask |]. intro e.
  apply emits_bind.
  - destruct e; [| apply emits_ret].
    apply emits_bind; [apply emits_parse_image_info | intro; apply emits_ret].
  - intros _. apply emits_bind; [apply emits_detect_partition_images |].
    intro images. apply emits_for_each. intros item acc.
    apply emits_bind; [apply emits_parse_image_info | intro; apply emits_ret].
Qed.

Lemma emits_finish (success_count : nat) :
  emits P (finish PYTHON_EXECUTABLE self success_count).
Proof.
  unfold finish. destruct (Nat.eqb success_count 0).
  - apply emits_bind; [apply emits_log; exact toolkit_messages | intros _; apply emits_ret].
  - apply emits_bind; [apply emits_verify_result | intros _; apply emits_ret].
Qed.

Hypothesis Herase : In "erase_footer" subs.
Hypothesis Hadd : In "add_hash_footer" subs.

Lemma returns_chained_plan (partition_name image_path : string) (partition_size : N)
      (algorithm : string) (rollback_index : option string) (info : ImageInfo)
      (use : bool) :
  returns (calls PYTHON_EXECUTABLE (avbtool_path self) "add_hash_footer")
          (chained_plan PYTHON_EXECUTABLE self partition_name image_path partition_size
                        algorithm rollback_index info use : M _).
Proof.
  intros st cmd st' Hplan.
  destruct (chained_plan_inv _ _ _ _ _ _ _ _ _ _ Hplan) as [key [_ ->]].
  unfold chained_base_cmd. now eexists.
Qed.

Lemma returns_hash_plan (partition_name image_path : string) (partition_size : N)
      (vbmeta_info : option ImageInfo) (info : ImageInfo) (use : bool) :
  returns (calls PYTHON_EXECUTABLE (avbtool_path self) "add_hash_footer")
          (hash_plan PYTHON_EXECUTABLE self partition_name image_path partition_size
                     vbmeta_info info use).
Proof.
  intros st cmd st' Hplan.
  destruct (hash_plan_inv _ _ _ _ _ _ _ _ _ Hplan) as [scan [salt [_ [-> _]]]].
  unfold hash_base_cmd. now eexists.
Qed.

Lemma emits_chained_plan (partition_name image_path : string) (partition_size : N)
      (algorithm : string) (rollback_index : option string) (info : ImageInfo)
      (use : bool) :
  emits P (chained_plan PYTHON_EXECUTABLE self partition_name image_path partition_size
                        algorithm rollback_index info use : M _).
Proof.
  unfold chained_plan. cbv zeta.
  apply emits_bind; [apply emits_get_key_for_algorithm; exact toolkit_messages |].
  intro key. apply emits_ret.
Qed.

Lemma emits_hash_plan (partition_name image_path : string) (partition_size : N)
      (vbmeta_info : option ImageInfo) (info : ImageInfo) (use : bool) :
  emits P (hash_plan PYTHON_EXECUTABLE self partition_name image_path partition_size
                     vbmeta_info info use).
Proof.
  unfold hash_plan. apply emits_bind; [apply emits_lift |]. intro scan.
  apply emits_bind; [| intro; apply emits_ret].
  destruct (truthy (hs_salt scan)); [apply emits_ret | apply emits_act].
Qed.

Lemma emits_rebuild_partition (partition_name image_path : string)
      (vbmeta_info : option ImageInfo) (use : bool) :
  emits P (rebuild_partition PYTHON_EXECUTABLE self partition_name image_path
                             vbmeta_info use).
Proof.
  assert (Hfail : emits P (log (ErrNoSizeInfo partition_name) ;;; ret false : M bool)).
  { apply emits_bind; [apply emits_log; exact toolkit_messages | intros _; apply emits_ret]. }
  assert (Herase_cmd : emits P (run_command (erase_footer_cmd PYTHON_EXECUTABLE self
                                                              image_path))).
  { apply emits_toolkit_command with (sub := "erase_footer");
      [now eexists | exact Herase]. }
  unfold rebuild_partition. apply emits_bind; [apply emits_parse_image_info |].
  intros [info |]; [| exact Hfail].
  destruct (truthy (image_size info)); [| exact Hfail].
  apply emits_bind; [apply emits_lift |]. intro size.
  destruct (is_chained (Some info)).
  - apply emits_bind; [exact Herase_cmd |]. intros _.
    unfold _rebuild_chained_partition.
    eapply emits_bind_returns;
      [apply emits_chained_plan | apply returns_chained_plan |].
    intros cmd Hcmd.
    apply emits_bind;
      [now apply emits_toolkit_command with (sub := "add_hash_footer") |].
    intros [out |]; [apply emits_ret |].
    apply emits_bind; [apply emits_log; exact toolkit_messages | intros _; apply emits_ret].
  - apply emits_bind; [exact Herase_cmd |]. intros _.
    unfold _rebuild_hash_partition.
    eapply emits_bind_returns;
      [apply emits_hash_plan | apply returns_hash_plan |].
    intros cmd Hcmd.
    apply emits_bind;
      [now apply emits_toolkit_command with (sub := "add_hash_footer") |].
    intros [out |]; [apply emits_ret |].
    apply emits_bind; [apply emits_log; exact toolkit_messages | intros _; apply emits_ret].
Qed.

Lemma emits_rebuild_each (items : list (string * string))
      (vbmeta_info : option ImageInfo) (use : bool) (count : nat) :
  emits P (rebuild_each PYTHON_EXECUTABLE self items vbmeta_info use count).
Proof.
  unfold rebuild_each. apply emits_for_each. intros item n.
  apply emits_bind; [apply emits_rebuild_partition | intro; apply emits_ret].
Qed.

Lemma emits_rebuild_vbmeta (backup_dir : option string)
      (partition_images : list (string * string)) :
  In "make_vbmeta_image" subs ->
  emits P (rebuild_vbmeta PYTHON_EXECUTABLE self backup_dir partition_images).
Proof.
  intro Hmake. unfold rebuild_vbmeta. cbv zeta.
  apply emits_bind; [apply emits_parse_image_info |].
  intros [info |].
  2:{ apply emits_bind; [apply emits_log; exact toolkit_messages
                        | intros _; apply emits_ret]. }
  apply emits_bind; [apply emits_get_key_for_algorithm; exact toolkit_messages |].
  intro key.
  eapply emits_bind_returns with
    (Q := calls PYTHON_EXECUTABLE (avbtool_path self) "make_vbmeta_image").
  - apply emits_for_each. intros item acc.
    apply emits_bind; [apply emits_ask | intro; apply emits_ret].
  - intros st cmd st' Hloop.
    eapply (for_each_invariant
              (fun acc (_ : State Env) =>
                 calls PYTHON_EXECUTABLE (avbtool_path self) "make_vbmeta_image" acc));
      [| | exact Hloop]; [| now eexists].
    intros item acc s acc' s' _ Hstep Hacc.
    unfold bind, os_path_exists, ask, ret in Hstep.
    destruct (path_exists (snd item) (env s)); injection Hstep as <- _;
      [now apply calls_app | exact Hacc].
  - intros cmd Hcmd.
    apply emits_bind;
      [now apply emits_toolkit_command with (sub := "make_vbmeta_image") |].
    intro result. apply emits_bind.
    + destruct result; [apply emits_ask | apply emits_ret].
    + intros [|].
      * apply emits_bind; [apply emits_act | intros _; apply emits_ret].
      * apply emits_bind; [apply emits_log; exact toolkit_messages
                          | intros _; apply emits_ret].
Qed.

Lemma emits_regular_and_umbrella (backup_dir : option string)
      (regular_partitions : list (string * string)) (use chained_mode : bool)
      (count : nat) :
  (chained_mode = false -> In "make_vbmeta_image" subs) ->
  emits P (regular_and_umbrella PYTHON_EXECUTABLE self backup_dir regular_partitions
                                use chained_mode count).
Proof.
  intro Hmake. unfold regular_and_umbrella.
  destruct regular_partitions as [| r rs]; [apply emits_ret |].
  destruct chained_mode; [apply emits_ret |].
  apply emits_bind; [apply emits_parse_image_info |]. intro vbmeta_info.
  apply emits_bind; [apply emits_rebuild_each |]. intro n.
  apply emits_bind; [apply emits_rebuild_vbmeta; now apply Hmake |].
  intro ok. apply emits_bind; [| intros _; apply emits_ret].
  destruct ok; [apply emits_ret | apply emits_log; exact toolkit_messages].
Qed.

Lemma emits_rebuild_all (partitions : option (list string)) (use chained_mode : bool) :
  (chained_mode = false -> In "make_vbmeta_image" subs) ->
  emits P (rebuild_all PYTHON_EXECUTABLE self partitions use chained_mode).
Proof.
  intro Hmake. unfold rebuild_all.
  apply emits_bind; [apply emits_ret |]. intro backup_dir.
  apply emits_bind; [apply emits_discover; exact toolkit_messages |].
  intros [| image images].
  - apply emits_bind; [apply emits_log; exact toolkit_messages | intros _; apply emits_ret].
  - apply emits_bind; [apply emits_classify |]. intro buckets. cbv zeta.
    apply emits_bind; [apply emits_mode_gate; exact toolkit_messages |].
    intros [regular_partitions |]; [| apply emits_ret].
    apply emits_bind; [apply emits_rebuild_each |]. intro n1.
    apply emits_bind; [now apply emits_regular_and_umbrella |]. intro n2.
    apply emits_finish.
Qed.

End Toolkit.

Section RunShape.
Context {Env : Type} `{External Env}.
Variable PYTHON_EXECUTABLE : string.
Import Text Py Planner Trace.

Local Abbreviation M := (Run Env).

Lemma emits_weaken {A : Type} (P Q : Event -> Prop) (m : M A) :
  (forall e, P e -> Q e) -> emits P m -> emits Q m.
Proof.
  intros Himp Hm st. destruct (Hm st) as [evs [Hev Hp]]. exists evs.
  split; [exact Hev |]. eapply Forall_impl; [exact Himp | exact Hp].
Qed.

(** X10. Whatever the tool answers and however the run ends (a result, an
    exception or an exit), the events of a rebuild only grow, and every
    command it runs is the interpreter, then the tool of the rebuilder,
    then one of the four subcommands [info_image], [erase_footer],
    [add_hash_footer] and [make_vbmeta_image]. *)
Theorem rebuild_runs_toolkit_only (self : AvbRebuilder)
        (partitions : option (list string)) (use_original_salt chained_mode : bool)
        (st : State Env) :
  exists evs,
    events (snd (rebuild_all PYTHON_EXECUTABLE self partitions use_original_salt
                             chained_mode st))
    = events st ++ evs
    /\ Forall (toolkit_call PYTHON_EXECUTABLE (avbtool_path self)
                 ["info_image"; "erase_footer"; "add_hash_footer"; "make_vbmeta_image"])
              evs.
Proof.
  apply (@emits_rebuild_all Env _ PYTHON_EXECUTABLE self
           ["info_image"; "erase_footer"; "add_hash_footer"; "make_vbmeta_image"]);
    simpl; auto 6.
Qed.

(** X11. In chained mode a rebuild never runs [make_vbmeta_image]: its
    commands are calls of [info_image], [erase_footer] and
    [add_hash_footer] only, so the umbrella container is neither rebuilt
    nor replaced, however the run ends. *)
Theorem chained_mode_leaves_umbrella (self : AvbRebuilder)
        (partitions : option (list string)) (use_original_salt : bool)
        (st : State Env) :
  exists evs,
    events (snd (rebuild_all PYTHON_EXECUTABLE self partitions use_original_salt true st))
    = events st ++ evs
    /\ Forall (toolkit_call PYTHON_EXECUTABLE (avbtool_path self)
                 ["info_image"; "erase_footer"; "add_hash_footer"])
              evs.
Proof.
  apply (@emits_rebuild_all Env _ PYTHON_EXECUTABLE self
           ["info_image"; "erase_footer"; "add_hash_footer"]);
    simpl; auto 6. discriminate.
Qed.

Lemma toolkit_info_read_only (tool : string) (e : Event) :
  toolkit_call PYTHON_EXECUTABLE tool ["info_image"] e -> Spec.read_only e.
Proof.
  destruct e as [argv | m]; simpl; [| trivial].
  intros [sub [rest [-> [<- | []]]]]. reflexivity.
Qed.

Lemma emits_read_only_verify (self : AvbRebuilder) :
  emits Spec.read_only (verify_result PYTHON_EXECUTABLE self).
Proof.
  apply emits_weaken with
    (P := toolkit_call PYTHON_EXECUTABLE (avbtool_path self) ["info_image"]).
  - apply toolkit_info_read_only.
  - apply emits_verify_result. now left.
Qed.

Lemma read_only_messages (m : Message) : Spec.read_only (Logged m).
Proof. exact I. Qed.

(** The working directory [main] hands to the constructor is the one the
    constructor settles on. *)
Lemma working_dir_settled (working_dir_arg : option string) (e : Env) :
  working_dir_of (Some (working_dir_of working_dir_arg e)) e
  = working_dir_of working_dir_arg e.
Proof.
  unfold working_dir_of. cbn [truthy get_or_empty].
  destruct working_dir_arg as [d |]; cbn [truthy get_or_empty].
  - destruct (Regex.nonempty d) eqn:Hd; [now rewrite Hd |].
    now destruct (Regex.nonempty (getcwd e)).
  - now destruct (Regex.nonempty (getcwd e)).
Qed.

(** X12. Verify-only mode reads and nothing else.  Whatever the other
    options and the state of the directory, [main] with [--verify-only]
    runs no command but [info_image].  When the working directory cannot
    be entered it ends with the exception of [os.chdir], having done
    nothing; otherwise it returns [True] unless the construction of the
    rebuilder exits with status 1 for want of a key. *)
Theorem verify_only_reads (args : Args) (st : State Env) :
  a_verify_only args = true ->
  (exists evs,
      events (snd (main PYTHON_EXECUTABLE args st)) = events st ++ evs
      /\ Forall Spec.read_only evs)
  /\ match chdir (working_dir_of (a_working_dir args) (env st)) (env st) with
     | None => main PYTHON_EXECUTABLE args st = (Raise OSError, st)
     | Some _ =>
         fst (main PYTHON_EXECUTABLE args st) = Ok true
         \/ fst (main PYTHON_EXECUTABLE args st) = SysExit 1%Z
     end.
Proof.
  intro Hverify.
  set (wd := working_dir_of (a_working_dir args) (env st)).
  set (tool := if truthy (a_avbtool args) then get_or_empty (a_avbtool args)
               else path_join [wd; "tools"; "avbtool.py"]).
  assert (Hmain : main PYTHON_EXECUTABLE args st
                  = (self <- init (Some wd) (Some tool) (a_private_key args) ;;
                     verify_result PYTHON_EXECUTABLE self ;;; ret true : M bool) st).
  { unfold main. rewrite Hverify. cbn [negb].
    unfold bind, ask, os_path_exists, ask, ret. cbv beta iota zeta.
    fold (working_dir_of (a_working_dir args) (env st)). fold wd. fold tool.
    destruct (a_chained_mode args); destruct (path_exists tool (env st));
      reflexivity. }
  rewrite Hmain. split.
  - apply emits_bind; [apply emits_init; exact read_only_messages |]. intro self.
    apply emits_bind; [apply emits_read_only_verify | intros _; apply emits_ret].
  - pose proof (init_cases (Some wd) (Some tool) (a_private_key args) st) as Hinit.
    cbv zeta in Hinit. unfold wd in Hinit at 1 2 3 4.
    rewrite working_dir_settled in Hinit. fold wd in Hinit.
    destruct (chdir wd (env st)) as [e' |].
    2:{ unfold bind. now rewrite Hinit. }
    destruct (truthy (a_private_key args)).
    + left. unfold bind at 1. rewrite Hinit. unfold bind.
      match goal with
      | |- context [verify_result PYTHON_EXECUTABLE ?self ?s] =>
          destruct (quiet_verify_result PYTHON_EXECUTABLE self s)
            as [[] [s2 [evs [Hrun _]]]]
      end.
      rewrite Hrun. reflexivity.
    + destruct (filter _ _) as [| k ks].
      * right. unfold bind. now rewrite Hinit.
      * left. unfold bind at 1. rewrite Hinit. unfold bind.
        match goal with
        | |- context [verify_result PYTHON_EXECUTABLE ?self ?s] =>
            destruct (quiet_verify_result PYTHON_EXECUTABLE self s)
              as [[] [s2 [evs [Hrun _]]]]
        end.
        rewrite Hrun. reflexivity.
Qed.

End RunShape.

(** ** One partition, and what success means *)

Section PartitionRuns.
Context {Env : Type} `{External Env}.
Variable PYTHON_EXECUTABLE : string.
Variable self : AvbRebuilder.
Import Text Py Planner Trace.

Local Abbreviation M := (Run Env).

(** A command that was run and came back: it was made of strings, it is
    in the events, and a failure of the subprocess is the answer [None]
    with its message. *)
Lemma run_command_ok (cmd : list (option string)) (st st' : State Env)
      (result : option string) :
  run_command cmd st = (Ok result, st') ->
  exists argv,
    all_strings cmd = Some argv
    /\ ((result <> None /\ events st' = events st ++ [Invoked argv])
        \/ (result = None
            /\ events st' = events st ++ [Invoked argv; Logged (ErrCommandFailed argv)])).
Proof.
  unfold run_command. destruct (all_strings cmd) as [argv |]; [| discriminate].
  unfold bind, emit, act, log, emit, ret. cbn [env events].
  destruct (subprocess_run argv (env st)) as [[stdout |] e'].
  - intro Hrun. injection Hrun as <- <-. exists argv. split; [reflexivity |].
    left. split; [discriminate | reflexivity].
  - intro Hrun. injection Hrun as <- <-. exists argv. split; [reflexivity |].
    right. split; [reflexivity |]. cbn [events]. now rewrite <- app_assoc.
Qed.

Lemma parse_image_info_some (image_path : string) (st st' : State Env) (info : ImageInfo) :
  parse_image_info PYTHON_EXECUTABLE (avbtool_path self) image_path st
    = (Ok (Some info), st') ->
  events st' = events st
               ++ [Invoked [PYTHON_EXECUTABLE; avbtool_path self; "info_image";
                            "--image"; image_path]].
Proof.
  unfold parse_image_info. unfold bind at 1.
  destruct (run_command _ st) as [[result | e | c] s1] eqn:Hrun; try discriminate.
  destruct (run_command_ok _ _ Hrun) as [argv [Hargv Hcase]].
  cbn [all_strings] in Hargv. injection Hargv as <-.
  destruct result as [stdout |].
  - destruct Hcase as [[_ Hev] | [Hnone _]]; [| discriminate].
    destruct (Regex.nonempty stdout); unfold ret; intro Heq; injection Heq as _ <-;
      exact Hev.
  - unfold ret. discriminate.
Qed.

Lemma get_key_ok_state (algorithm : option string) (st st' : State Env) (key : string) :
  get_key_for_algorithm self algorithm st = (Ok key, st') -> st' = st.
Proof.
  unfold get_key_for_algorithm, bind, detect_required_key_type, ret, log, emit, sys_exit.
  destruct (in_strs algorithm ["SHA256_RSA4096"; "SHA512_RSA4096"]).
  - destruct (truthy (private_key self)); [intro Hk; now injection Hk |].
    destruct (find _ _); [intro Hk; now injection Hk | discriminate].
  - destruct (in_strs algorithm ["SHA256_RSA2048"; "SHA512_RSA2048"]); [| discriminate].
    destruct (truthy (private_key self)); [intro Hk; now injection Hk |].
    destruct (find _ _); [intro Hk; now injection Hk | discriminate].
Qed.

Lemma footer_argv (partition_name image_path : string)
      (cmd rest : list (option string)) (argv : list string) :
  cmd = Some PYTHON_EXECUTABLE :: Some (avbtool_path self) :: Some "add_hash_footer"
        :: Some "--image" :: Some image_path
        :: Some "--partition_name" :: Some partition_name :: rest ->
  all_strings cmd = Some argv ->
  exists rest',
    argv = PYTHON_EXECUTABLE :: avbtool_path self :: "add_hash_footer"
           :: "--image" :: image_path :: "--partition_name" :: partition_name :: rest'.
Proof.
  intros ->. cbn [all_strings].
  destruct (all_strings rest) as [rest' |]; [| discriminate].
  intro Hargv. injection Hargv as <-. now exists rest'.
Qed.

(** The events of a partition that was rebuilt. *)
Lemma rebuilt_partition_events (partition_name image_path : string)
      (vbmeta_info : option ImageInfo) (use : bool) (st st' : State Env) :
  rebuild_partition PYTHON_EXECUTABLE self partition_name image_path vbmeta_info use st
    = (Ok true, st') ->
  exists logs rest,
    Forall is_message logs
    /\ events st'
       = events st
         ++ [Invoked [PYTHON_EXECUTABLE; avbtool_path self; "info_image";
                      "--image"; image_path];
             Invoked [PYTHON_EXECUTABLE; avbtool_path self; "erase_footer";
                      "--image"; image_path]]
         ++ logs
         ++ [Invoked (PYTHON_EXECUTABLE :: avbtool_path self :: "add_hash_footer"
                      :: "--image" :: image_path
                      :: "--partition_name" :: partition_name :: rest)].
Proof.
  unfold rebuild_partition. unfold bind at 1.
  destruct (parse_image_info _ _ image_path st) as [[[info |] | e | c] s1] eqn:Hparse;
    try discriminate.
  pose proof (parse_image_info_some _ _ Hparse) as Hev1.
  destruct (truthy (image_size info)).
  2:{ unfold bind, log, emit, ret. discriminate. }
  unfold bind at 1, lift.
  destruct (int (get_or_empty (image_size info))) as [size | e | c]; try discriminate.
  assert (Htail : forall (plan : M (list (option string))) (failed : Message),
             (forall s cmd s', plan s = (Ok cmd, s') ->
                               events s' = events s
                               /\ exists rest,
                                   cmd = Some PYTHON_EXECUTABLE :: Some (avbtool_path self)
                                         :: Some "add_hash_footer"
                                         :: Some "--image" :: Some image_path
                                         :: Some "--partition_name" :: Some partition_name
                                         :: rest) ->
             (run_command (erase_footer_cmd PYTHON_EXECUTABLE self image_path) ;;;
              (cmd <- plan ;;
               result <- run_command cmd ;;
               match result with
               | Some _ => ret true
               | None => log failed ;;; ret false
               end)) s1 = (Ok true, st') ->
             exists logs rest,
               Forall is_message logs
               /\ events st'
                  = events s1
                    ++ [Invoked [PYTHON_EXECUTABLE; avbtool_path self; "erase_footer";
                                 "--image"; image_path]]
                    ++ logs
                    ++ [Invoked (PYTHON_EXECUTABLE :: avbtool_path self
                                 :: "add_hash_footer" :: "--image" :: image_path
                                 :: "--partition_name" :: partition_name :: rest)]).
  { intros plan failed Hplan. unfold bind at 1.
    destruct (run_command (erase_footer_cmd _ _ _) s1) as [[erased | e | c] s2] eqn:Herase;
      try discriminate.
    destruct (run_command_ok _ _ Herase) as [eargv [Heargv Hecase]].
    cbn [erase_footer_cmd all_strings] in Heargv. injection Heargv as <-.
    unfold bind at 1.
    destruct (plan s2) as [[cmd | e | c] s3] eqn:Hcmd; try discriminate.
    destruct (Hplan _ _ _ Hcmd) as [Hev3 [rest Hshape]].
    unfold bind at 1.
    destruct (run_command cmd s3) as [[[out |] | e | c] s4] eqn:Hrun; try discriminate.
    unfold ret. intro Heq. injection Heq as <-.
    destruct (run_command_ok _ _ Hrun) as [argv [Hargv [[_ Hev4] | [Hnone _]]]];
      [| discriminate].
    destruct (footer_argv Hshape Hargv) as [rest' ->].
    rewrite Hev4, Hev3.
    destruct Hecase as [[_ Hev2] | [_ Hev2]]; rewrite Hev2.
    - exists [], rest'. split; [constructor |]. now rewrite <- !app_assoc.
    - exists [Logged (ErrCommandFailed [PYTHON_EXECUTABLE; avbtool_path self;
                                        "erase_footer"; "--image"; image_path])], rest'.
      split; [repeat constructor |]. now rewrite <- !app_assoc. }
  assert (Hjoin : forall logs rest,
             events st'
             = events s1
               ++ [Invoked [PYTHON_EXECUTABLE; avbtool_path self; "erase_footer";
                            "--image"; image_path]]
               ++ logs
               ++ [Invoked (PYTHON_EXECUTABLE :: avbtool_path self
                            :: "add_hash_footer" :: "--image" :: image_path
                            :: "--partition_name" :: partition_name :: rest)] ->
             events st'
             = events st
               ++ [Invoked [PYTHON_EXECUTABLE; avbtool_path self; "info_image";
                            "--image"; image_path];
                   Invoked [PYTHON_EXECUTABLE; avbtool_path self; "erase_footer";
                            "--image"; image_path]]
               ++ logs
               ++ [Invoked (PYTHON_EXECUTABLE :: avbtool_path self
                            :: "add_hash_footer" :: "--image" :: image_path
                            :: "--partition_name" :: partition_name :: rest)]).
  { intros logs rest ->. rewrite Hev1, <- !app_assoc. reflexivity. }
  destruct (is_chained (Some info)).
  - unfold _rebuild_chained_partition. intro Hrun.
    eapply Htail in Hrun.
    + destruct Hrun as [logs [rest [Hlogs Hev]]].
      exists logs, rest. split; [exact Hlogs | now apply Hjoin].
    + intros s cmd s' Hp.
      destruct (chained_plan_inv _ _ _ _ _ _ _ _ _ _ Hp) as [key [Hkey ->]].
      rewrite (get_key_ok_state _ _ Hkey). split; [reflexivity |].
      unfold chained_base_cmd. now eexists.
  - unfold _rebuild_hash_partition. intro Hrun.
    eapply Htail in Hrun.
    + destruct Hrun as [logs [rest [Hlogs Hev]]].
      exists logs, rest. split; [exact Hlogs | now apply Hjoin].
    + intros s cmd s' Hp.
      destruct (hash_plan_inv _ _ _ _ _ _ _ _ _ Hp)
        as [scan [salt [_ [-> [[_ [_ ->]] | [_ [_ Hev]]]]]]];
        (split; [first [reflexivity | exact Hev] |]);
        unfold hash_base_cmd; now eexists.
Qed.

(** X13. The order of work on a partition that was rebuilt.  When
    [rebuild_partition] returns [True], the events it added are, in this
    order: the report of the image, the erasure of its footer, nothing but
    messages (the erasure may have failed: its result is not looked at),
    and last the [add_hash_footer] command on that image under that
    partition name. *)
Theorem rebuilt_partition_order (partition_name image_path : string)
        (vbmeta_info : option ImageInfo) (use_original_salt : bool)
        (st st' : State Env) :
  rebuild_partition PYTHON_EXECUTABLE self partition_name image_path vbmeta_info
                    use_original_salt st
    = (Ok true, st') ->
  exists logs rest,
    Forall is_message logs
    /\ events st'
       = events st
         ++ [Invoked [PYTHON_EXECUTABLE; avbtool_path self; "info_image";
                      "--image"; image_path];
             Invoked [PYTHON_EXECUTABLE; avbtool_path self; "erase_footer";
                      "--image"; image_path]]
         ++ logs
         ++ [Invoked (PYTHON_EXECUTABLE :: avbtool_path self :: "add_hash_footer"
                      :: "--image" :: image_path
                      :: "--partition_name" :: partition_name :: rest)].
Proof. apply rebuilt_partition_events. Qed.

(** X14. An image whose metadata cannot be read, or whose report has no
    image size, is left alone: [rebuild_partition] reports it, returns
    [False], and has run the report subcommand only. *)
Theorem sizeless_partition_untouched (partition_name image_path : string)
        (vbmeta_info : option ImageInfo) (use_original_salt : bool)
        (st s1 : State Env) (current_info : option ImageInfo) :
  parse_image_info PYTHON_EXECUTABLE (avbtool_path self) image_path st
    = (Ok current_info, s1) ->
  (forall info, current_info = Some info -> image_size info = None) ->
  rebuild_partition PYTHON_EXECUTABLE self partition_name image_path vbmeta_info
                    use_original_salt st
  = (Ok false,
     {| env := env s1;
        events := events s1 ++ [Logged (ErrNoSizeInfo partition_name)] |})
  /\ exists evs, events s1 = events st ++ evs /\ Forall Spec.read_only evs.
Proof.
  intros Hparse Hsize. split.
  - unfold rebuild_partition. unfold bind at 1. rewrite Hparse.
    destruct current_info as [info |]; [| reflexivity].
    rewrite (Hsize info eq_refl). reflexivity.
  - destruct (quiet_parse_image_info PYTHON_EXECUTABLE (avbtool_path self) image_path st)
      as [a [st' [evs [Hq [Hev Hro]]]]].
    rewrite Hparse in Hq. injection Hq as _ <-. now exists evs.
Qed.

Lemma emits_events {A : Type} (Q : Event -> Prop) (m : M A) (st s1 : State Env)
      (o : Outcome A) :
  emits Q m -> m st = (o, s1) -> exists evs, events s1 = events st ++ evs.
Proof.
  intros Hm Hrun. destruct (Hm st) as [evs [Hev _]]. rewrite Hrun in Hev.
  now exists evs.
Qed.

Lemma footer_written_app_l (a b : list Event) :
  footer_written a -> footer_written (a ++ b).
Proof.
  intros [argv [Hin Hsub]]. exists argv. split; [| exact Hsub].
  apply in_or_app. now left.
Qed.

Lemma footer_written_app_r (a b : list Event) :
  footer_written b -> footer_written (a ++ b).
Proof.
  intros [argv [Hin Hsub]]. exists argv. split; [| exact Hsub].
  apply in_or_app. now right.
Qed.

(** The events of a step only grow. *)
Ltac grown Hrun evs Hev :=
  let Hex := fresh "Hex" in
  match type of Hrun with
  | ?m ?st = (_, ?s1) =>
      assert (Hex : exists evs, events s1 = events st ++ evs);
      [ eapply (@emits_events _ (toolkit_call PYTHON_EXECUTABLE (avbtool_path self)
                                              all_subcommands));
        [| exact Hrun];
        first [ apply emits_discover | apply emits_classify | apply emits_mode_gate
              | apply emits_rebuild_partition | apply emits_parse_image_info
              | apply emits_rebuild_vbmeta
              | apply emits_bind; [apply emits_verify_result | intros; apply emits_ret] ];
        try (intro; exact I); simpl; auto 6
      | destruct Hex as [evs Hev] ]
  end.

(** The success count only grows, and it grows only when a footer was
    written. *)
Lemma rebuild_each_progress (items : list (string * string))
      (vbmeta_info : option ImageInfo) (use : bool) :
  forall n st n' st',
    rebuild_each PYTHON_EXECUTABLE self items vbmeta_info use n st = (Ok n', st') ->
    exists evs,
      events st' = events st ++ evs /\ n <= n' /\ (n < n' -> footer_written evs).
Proof.
  unfold rebuild_each. induction items as [| item items IH]; intros n st n' st' Hrun.
  - simpl in Hrun. injection Hrun as <- <-. exists []. rewrite app_nil_r.
    repeat split; [lia | lia].
  - cbn [for_each] in Hrun. unfold bind at 1 in Hrun. unfold bind at 1 in Hrun.
    destruct (rebuild_partition PYTHON_EXECUTABLE self (fst item) (snd item)
                                vbmeta_info use st) as [[ok | e | c] s1] eqn:Hpart;
      try discriminate.
    unfold ret at 1 in Hrun.
    apply IH in Hrun as [evs2 [Hev2 [Hle Hfooter]]].
    destruct ok.
    + apply rebuilt_partition_events in Hpart as [logs [rest [_ Hev1]]].
      eexists. split; [rewrite Hev2, Hev1, <- app_assoc; reflexivity |].
      split; [lia |]. intros _. apply footer_written_app_l.
      exists (PYTHON_EXECUTABLE :: avbtool_path self :: "add_hash_footer"
              :: "--image" :: snd item :: "--partition_name" :: fst item :: rest).
      split; [| reflexivity].
      apply in_or_app. right. apply in_or_app. right. now left.
    + grown Hpart evs1 Hev1.
      exists (evs1 ++ evs2). split; [now rewrite Hev2, Hev1, <- app_assoc |].
      split; [lia |]. intro Hlt. apply footer_written_app_r. apply Hfooter. lia.
Qed.

(** X15. Success means a footer was written.  A rebuild that returns
    [True] has run [add_hash_footer] at least once since it started; in
    particular a run that finds nothing to rebuild never reports
    success. *)
Theorem success_needs_footer (partitions : option (list string))
        (use_original_salt chained_mode : bool) (st st' : State Env) :
  rebuild_all PYTHON_EXECUTABLE self partitions use_original_salt chained_mode st
    = (Ok true, st') ->
  exists evs, events st' = events st ++ evs /\ footer_written evs.
Proof.
  assert (Hin1 : In "info_image" all_subcommands) by now left.
  assert (Hin2 : In "erase_footer" all_subcommands) by (right; now left).
  assert (Hin3 : In "add_hash_footer" all_subcommands) by (right; right; now left).
  assert (Hin4 : In "make_vbmeta_image" all_subcommands)
    by (right; right; right; now left).
  assert (Hmsg : forall m, toolkit_call PYTHON_EXECUTABLE (avbtool_path self)
                                        all_subcommands (Logged m)) by (intro; exact I).
  unfold rebuild_all. unfold bind at 1. unfold create_backup, ret at 1. cbv beta iota.
  unfold bind at 1.
  destruct (discover partitions st) as [[images | e | c] s1] eqn:Hdiscover;
    try discriminate.
  grown Hdiscover evs1 Hev1.
  destruct images as [| image images].
  { unfold bind, log, emit, ret. discriminate. }
  unfold bind at 1.
  destruct (classify PYTHON_EXECUTABLE self (image :: images) s1)
    as [[buckets | e | c] s2] eqn:Hclassify; try discriminate.
  grown Hclassify evs2 Hev2.
  cbv zeta. unfold bind at 1.
  destruct (mode_gate chained_mode (fst buckets) (snd buckets) s2)
    as [[[regular_partitions |] | e | c] s3] eqn:Hgate; try discriminate.
  grown Hgate evs3 Hev3.
  unfold bind at 1.
  destruct (rebuild_each PYTHON_EXECUTABLE self (fst buckets) (Some no_vbmeta_info)
                         use_original_salt 0 s3) as [[n1 | e | c] s4] eqn:Hchained;
    try discriminate.
  apply rebuild_each_progress in Hchained as [evs4 [Hev4 [_ Hfooter4]]].
  unfold bind at 1.
  destruct (regular_and_umbrella PYTHON_EXECUTABLE self None regular_partitions
                                 use_original_salt chained_mode n1 s4)
    as [[n2 | e | c] s5] eqn:Hregular; try discriminate.
  assert (Hprogress : exists evs5,
             events s5 = events s4 ++ evs5 /\ (n1 < n2 -> footer_written evs5)).
  { unfold regular_and_umbrella in Hregular.
    destruct regular_partitions as [| r rs].
    { unfold ret in Hregular. injection Hregular as <- <-. exists [].
      rewrite app_nil_r. split; [reflexivity | lia]. }
    destruct chained_mode.
    { unfold ret in Hregular. injection Hregular as <- <-. exists [].
      rewrite app_nil_r. split; [reflexivity | lia]. }
    unfold bind at 1 in Hregular.
    destruct (parse_image_info PYTHON_EXECUTABLE (avbtool_path self) "vbmeta.img" s4)
      as [[vi | e | c] t1] eqn:Hparse; try discriminate.
    grown Hparse a1 Ha1.
    unfold bind at 1 in Hregular.
    destruct (rebuild_each PYTHON_EXECUTABLE self (r :: rs) vi use_original_salt n1 t1)
      as [[m | e | c] t2] eqn:Hregs; try discriminate.
    apply rebuild_each_progress in Hregs as [a2 [Ha2 [_ Hfooter2]]].
    unfold bind at 1 in Hregular.
    destruct (rebuild_vbmeta PYTHON_EXECUTABLE self None (dict_of (r :: rs)) t2)
      as [[ok | e | c] t3] eqn:Hvbmeta; try discriminate.
    grown Hvbmeta a3 Ha3.
    unfold bind at 1 in Hregular.
    destruct ((if ok then ret tt else log WarnVbmetaRebuildFailed) t3)
      as [[u | e | c] t4] eqn:Hwarn; try discriminate.
    assert (Ha4 : exists a4, events t4 = events t3 ++ a4).
    { destruct ok; unfold ret, log, emit in Hwarn; injection Hwarn as _ <-.
      - exists []. now rewrite app_nil_r.
      - now eexists. }
    destruct Ha4 as [a4 Ha4].
    unfold ret in Hregular. injection Hregular as <- <-.
    exists (a1 ++ a2 ++ a3 ++ a4).
    split; [rewrite Ha4, Ha3, Ha2, Ha1, <- !app_assoc; reflexivity |].
    intro Hlt. apply footer_written_app_r, footer_written_app_l. now apply Hfooter2. }
  destruct Hprogress as [evs5 [Hev5 Hfooter5]].
  unfold finish. destruct (Nat.eqb n2 0) eqn:Hzero.
  { unfold bind, log, emit, ret. discriminate. }
  apply Nat.eqb_neq in Hzero. intro Hfinish.
  grown Hfinish evs6 Hev6.
  exists (evs1 ++ evs2 ++ evs3 ++ evs4 ++ evs5 ++ evs6).
  split; [rewrite Hev6, Hev5, Hev4, Hev3, Hev2, Hev1, <- !app_assoc; reflexivity |].
  do 3 apply footer_written_app_r.
  destruct (Nat.eq_dec n1 0) as [Hn1 | Hn1].
  - apply footer_written_app_r, footer_written_app_l. apply Hfooter5. lia.
  - apply footer_written_app_l. apply Hfooter4. lia.
Qed.

End PartitionRuns.

(** ** Runs that stop early *)

Section EarlyStops.
Context {Env : Type} `{External Env}.
Variable PYTHON_EXECUTABLE : string.
Variable self : AvbRebuilder.
Import Text Py Planner Trace.

Local Abbreviation M := (Run Env).

(** Probing files that are not there finds nothing and runs nothing. *)
Lemma discover_nothing (partitions : option (list string)) (st : State Env) :
  Forall (fun f => path_exists f (env st) = false) (requested_files partitions) ->
  exists logs,
    discover partitions st
    = (Ok [], {| env := env st; events := events st ++ logs |})
    /\ Forall is_message logs.
Proof.
  assert (Hstate : forall s : State Env,
             s = {| env := env s; events := events s ++ [] |}).
  { intros [e evs]. simpl. now rewrite app_nil_r. }
  unfold discover, requested_files.
  destruct partitions as [[| p ps] |].
  - intro Hmissing. exists []. split; [| constructor].
    inversion Hmissing as [| f fs Hboot Hrest]; subst.
    inversion Hrest as [| f fs Hinit _]; subst.
    unfold detect_partition_images. cbn [for_each append].
    unfold bind, os_path_exists, ask, ret. cbv beta iota.
    rewrite Hboot, Hinit. f_equal. apply Hstate.
  - cbv beta iota. set (l := p :: ps). clearbody l. clear p ps.
    rename l into ps. intro Hmissing.
    assert (Hloop : forall s : State Env,
               env s = env st ->
               exists logs,
                 for_each ps
                   (fun partition acc =>
                      let img_file := if endswith partition ".img" then partition
                                      else partition +++ ".img" in
                      e <- os_path_exists img_file ;;
                      if e then ret (dict_set (remove_all ".img" img_file) img_file acc)
                      else log (WarnSpecifiedImageMissing img_file) ;;; ret acc)
                   [] s
                 = (Ok [], {| env := env s; events := events s ++ logs |})
                 /\ Forall is_message logs).
    { set (body := fun (partition : string) (acc : list (string * string)) => _).
      induction ps as [| q qs IH]; intros s Henv.
      - exists []. split; [| constructor]. simpl. unfold ret. f_equal. apply Hstate.
      - inversion Hmissing as [| f fs Hq Hqs]; subst.
        destruct (IH Hqs {| env := env s;
                            events := events s
                                      ++ [Logged (WarnSpecifiedImageMissing
                                                    (image_file_of q))] |} Henv)
          as [logs [Hrun Hlogs]].
        exists (Logged (WarnSpecifiedImageMissing (image_file_of q)) :: logs).
        split; [| now constructor].
        cbn [for_each]. unfold bind at 1. unfold body at 1. cbv zeta beta.
        unfold bind at 1, os_path_exists, ask. cbv beta.
        rewrite <- Henv in Hq. unfold image_file_of in Hq, Hrun |- *. rewrite Hq.
        unfold bind at 1, log, emit, ret at 1. cbv beta iota.
        rewrite Hrun. cbn [env events]. rewrite <- app_assoc. reflexivity. }
    exact (Hloop st eq_refl).
  - intro Hmissing. exists []. split; [| constructor].
    inversion Hmissing as [| f fs Hboot Hrest]; subst.
    inversion Hrest as [| f fs Hinit _]; subst.
    unfold detect_partition_images. cbn [for_each append].
    unfold bind, os_path_exists, ask, ret. cbv beta iota.
    rewrite Hboot, Hinit. f_equal. apply Hstate.
Qed.

(** X16. Nothing to rebuild.  When none of the image files the run looks
    for exists (the two of the whitelist, or the ones named on the command
    line) the rebuild returns [False], leaves the machine as it was, and
    has run no command at all: it only printed, last of all that no
    partition image was detected. *)
Theorem nothing_to_rebuild (partitions : option (list string))
        (use_original_salt chained_mode : bool) (st : State Env) :
  Forall (fun f => path_exists f (env st) = false) (requested_files partitions) ->
  exists logs,
    rebuild_all PYTHON_EXECUTABLE self partitions use_original_salt chained_mode st
    = (Ok false,
       {| env := env st;
          events := events st ++ logs ++ [Logged ErrNoPartitionImages] |})
    /\ Forall is_message logs.
Proof.
  intro Hmissing. destruct (discover_nothing partitions st Hmissing) as [logs [Hrun Hlogs]].
  exists logs. split; [| exact Hlogs].
  unfold rebuild_all. unfold bind at 1. unfold create_backup, ret at 1. cbv beta iota.
  unfold bind at 1. rewrite Hrun. unfold bind, log, emit, ret. cbn [env events].
  now rewrite <- app_assoc.
Qed.

(** X17. Chained mode with nothing chained.  When classification finds no
    chained partition, a run in chained mode returns [False] right after
    the gate: it has run the report subcommand only and mutated no image,
    whether or not there were regular partitions to skip. *)
Theorem chained_mode_without_chained (partitions : option (list string))
        (use_original_salt : bool) (st0 s1 s2 : State Env)
        (images regular_partitions : list (string * string)) :
  discover partitions st0 = (Ok images, s1) ->
  images <> [] ->
  classify PYTHON_EXECUTABLE self images s1 = (Ok ([], regular_partitions), s2) ->
  exists evs,
    rebuild_all PYTHON_EXECUTABLE self partitions use_original_salt true st0
    = (Ok false, {| env := env s2; events := events st0 ++ evs |})
    /\ Forall Spec.read_only evs
    /\ In (Logged ErrNoChainedPartitions) evs.
Proof.
  intros Hdiscover Himages Hclassify.
  destruct (discover_events _ _ Hdiscover) as [evs1 [Hev1 Hro1]].
  destruct (classify_events _ _ _ _ Hclassify) as [evs2 [Hev2 Hro2]].
  assert (Hrun : exists logs,
             rebuild_all PYTHON_EXECUTABLE self partitions use_original_salt true st0
             = (Ok false, {| env := env s2; events := events s2 ++ logs |})
             /\ Forall Spec.read_only logs /\ In (Logged ErrNoChainedPartitions) logs).
  { unfold rebuild_all. unfold bind at 1. unfold create_backup, ret at 1.
    cbv beta iota. unfold bind. rewrite Hdiscover.
    destruct images as [| image images']; [now contradiction Himages |].
    rewrite Hclassify. cbn [fst snd]. unfold mode_gate.
    destruct regular_partitions as [| r rs].
    - exists [Logged ErrNoChainedPartitions]. split; [reflexivity |].
      split; [repeat constructor | now left].
    - eexists [_; _; Logged ErrNoChainedPartitions]. split.
      + unfold bind, log, emit, ret. cbn [env events].
        rewrite <- !app_assoc. reflexivity.
      + split; [repeat constructor | right; right; now left]. }
  destruct Hrun as [logs [Hrun [Hro Hin]]].
  exists (evs1 ++ evs2 ++ logs). split; [| split].
  - rewrite Hrun, Hev2, Hev1, <- !app_assoc. reflexivity.
  - repeat (apply Forall_app; split); assumption.
  - apply in_or_app. right. apply in_or_app. now right.
Qed.

End EarlyStops.


(** ** The salt of a plan *)

Lemma eqb_zeros (s : string) :
  String.eqb s (Text.zeros (String.length s)) = Text.all_chars (Ascii.eqb "0"%char) s.
Proof.
  induction s as [| c s IH]; cbn [Text.all_chars Text.zeros String.length String.eqb].
  - reflexivity.
  - rewrite IH. rewrite Ascii.eqb_sym. now destruct (Ascii.eqb c "0"%char).
Qed.

Section SaltPolicy.
Context {Env : Type} `{External Env}.
Variable PYTHON_EXECUTABLE : string.
Variable self : AvbRebuilder.
Variables partition_name image_path : string.
Variable partition_size : N.
Import Text Py Planner Spec Trace.

(** X18. The salt of a chained plan.  A chained plan that is built passes
    [--salt] exactly when the salt is reusable (salt reuse on, a Hash
    descriptor of the partition, a salt that is not empty) and that salt
    is not made of zero digits only; the value is then that salt, placed
    between the base command and the property arguments.  In every other
    case the plan has no salt argument and the tool draws the salt. *)
Theorem chained_salt_policy (algorithm : string) (rollback_index : option string)
        (info : ImageInfo) (use : bool) (st st' : State Env)
        (cmd : list (option string)) :
  chained_plan PYTHON_EXECUTABLE self partition_name image_path partition_size
               algorithm rollback_index info use st = (Ok cmd, st') ->
  exists key,
    cmd = chained_base_cmd PYTHON_EXECUTABLE self partition_name image_path
                           partition_size algorithm key rollback_index
          ++ match reusable_salt use partition_name (descriptors info) with
             | Some s => if all_chars (Ascii.eqb "0"%char) s then []
                         else [Some "--salt"; Some s]
             | None => []
             end
          ++ flat_map chain_prop_args (prop_descriptors (descriptors info)).
Proof.
  intro Hplan. apply chained_plan_inv in Hplan as [key [_ Hcmd]].
  exists key. rewrite Hcmd. f_equal. f_equal.
  unfold reusable_salt, chain_salt, chain_salt_args.
  destruct (last_matching_hash partition_name (descriptors info)) as [h |];
    destruct use; try reflexivity.
  destruct (h_salt h) as [s |]; [| reflexivity].
  rewrite eqb_zeros. destruct (Regex.nonempty s); [| reflexivity].
  now destruct (all_chars (Ascii.eqb "0"%char) s).
Qed.

(** X19. The salt of a regular plan.  A regular plan that is built always
    passes [--salt].  When the salt is reusable the value is that salt,
    zero digits or not, and the state is untouched; in every other case
    the value is the one drawn from the random source, which is the only
    thing the planner changes.  The rest of the command is the base
    command with the footer algorithm and one [--prop] pair per Prop
    descriptor. *)
Theorem regular_salt_policy (vbmeta_info : option ImageInfo) (info : ImageInfo)
        (use : bool) (st st' : State Env) (cmd : list (option string)) :
  hash_plan PYTHON_EXECUTABLE self partition_name image_path partition_size
            vbmeta_info info use st = (Ok cmd, st') ->
  exists salt,
    cmd = hash_base_cmd PYTHON_EXECUTABLE self partition_name image_path partition_size
            (regular_footer_algorithm use partition_name (descriptors info))
          ++ [Some "--salt"; Some salt]
          ++ flat_map hash_prop_args
                      (map render_prop (prop_descriptors (descriptors info)))
    /\ match reusable_salt use partition_name (descriptors info) with
       | Some s => salt = s /\ st' = st
       | None => token_hex 32 (env st) = (salt, env st') /\ events st' = events st
       end.
Proof.
  intro Hplan.
  apply hash_plan_inv in Hplan as [scan [salt [Hscan [Hcmd Hcase]]]].
  destruct (hash_scan_spec partition_name use (descriptors info) _ Hscan)
    as [Hprops Hrest].
  exists salt. unfold reusable_salt, regular_footer_algorithm.
  destruct (if use then last_matching_hash partition_name (descriptors info) else None)
    as [h |].
  - destruct Hrest as [a [s [Ha [Hs [Hss Halg]]]]]. rewrite Ha, Hs. split.
    + rewrite Hcmd, Hprops, Halg. reflexivity.
    + rewrite Hss in Hcase. cbn [truthy] in Hcase.
      destruct (Regex.nonempty s).
      * destruct Hcase as [[_ [Hsome Hst]] | [Hfalse _]]; [| discriminate].
        injection Hsome as <-. now split.
      * destruct Hcase as [[Htrue _] | [_ Hfresh]]; [discriminate | exact Hfresh].
  - destruct Hrest as [Hsalt Halg]. split.
    + rewrite Hcmd, Hprops, Halg. reflexivity.
    + rewrite Hsalt in Hcase. cbn [hash_scan_init hs_salt truthy] in Hcase.
      destruct Hcase as [[Htrue _] | [_ Hfresh]]; [discriminate | exact Hfresh].
Qed.

End SaltPolicy.

(** ** The umbrella container *)

Lemma all_strings_some (l : list string) : Py.all_strings (map Some l) = Some l.
Proof.
  induction l as [| x l IH]; cbn [map Py.all_strings]; [reflexivity |].
  now rewrite IH.
Qed.

Section Umbrella.
Context {Env : Type} `{External Env}.
Variable PYTHON_EXECUTABLE : string.
Variable self : AvbRebuilder.
Import Text Py Planner Trace.

Local Abbreviation M := (Run Env).

(** A report that was read: the subprocess ran once and answered with
    the text that was parsed, and that is all. *)
Lemma parse_image_info_run (image_path : string) (st st' : State Env) (info : ImageInfo) :
  parse_image_info PYTHON_EXECUTABLE (avbtool_path self) image_path st
    = (Ok (Some info), st') ->
  exists stdout,
    fst (subprocess_run (info_argv PYTHON_EXECUTABLE (avbtool_path self) image_path)
                        (env st)) = Some stdout
    /\ stdout <> ""
    /\ info = AvbImageParser.parse_output stdout
    /\ st' = {| env := snd (subprocess_run
                              (info_argv PYTHON_EXECUTABLE (avbtool_path self)
                                         image_path)
                              (env st));
                events := events st
                          ++ [Invoked (info_argv PYTHON_EXECUTABLE (avbtool_path self)
                                                 image_path)] |}.
Proof.
  unfold parse_image_info, run_command, info_argv. cbn [all_strings].
  unfold bind, emit, act, log, emit, ret. cbn [env events].
  destruct (subprocess_run _ (env st)) as [[stdout |] e']; cbn [fst snd].
  - destruct (Regex.nonempty stdout) eqn:Hout; intro Hrun; [| discriminate].
    injection Hrun as <- <-. exists stdout.
    split; [reflexivity |]. split; [now apply nonempty_true_iff |]. now split.
  - discriminate.
Qed.

(** The loop over the partition images adds the ones that exist and
    changes nothing. *)
Lemma include_loop (images : list (string * string)) :
  forall (acc : list (option string)) (st : State Env),
    for_each images
      (fun item acc =>
         e <- os_path_exists (snd item) ;;
         ret (if e then acc ++ [Some "--include_descriptors_from_image";
                                Some (snd item)]
              else acc))
      acc st
    = (Ok (acc ++ map Some
                    (flat_map (fun image => ["--include_descriptors_from_image"; image])
                              (existing_images images (env st)))),
       st).
Proof.
  unfold existing_images.
  induction images as [| item images IH]; intros acc st.
  - cbn. unfold ret. now rewrite app_nil_r.
  - cbn [for_each filter]. unfold bind at 1. unfold bind at 1, os_path_exists, ask.
    cbv beta iota. unfold ret at 1. rewrite IH.
    destruct (path_exists (snd item) (env st)); [| reflexivity].
    cbn [map flat_map app]. rewrite <- app_assoc. reflexivity.
Qed.

(** X20. What a successful rebuild of the umbrella container did.  When
    [rebuild_vbmeta] returns [True] it ran exactly two commands.  The
    first is the report of [vbmeta.img], which answered with a text.  The
    second is [make_vbmeta_image] writing [vbmeta_new.img], with the
    algorithm, the rollback index and the flags parsed from that text,
    the key the selector returns for that algorithm, the descriptors of
    [vbmeta.img] first and then those of every partition image that
    existed after the report was read, in the order of the dictionary.
    The signer had answered, [vbmeta_new.img] existed afterwards, and the
    last thing done was to move it over [vbmeta.img]. *)
Theorem vbmeta_success_replaces_image (backup_dir : option string)
        (partition_images : list (string * string)) (st st' : State Env) :
  rebuild_vbmeta PYTHON_EXECUTABLE self backup_dir partition_images st = (Ok true, st') ->
  exists stdout alg key rollback fl,
    let report := info_argv PYTHON_EXECUTABLE (avbtool_path self) "vbmeta.img" in
    let e1 := snd (subprocess_run report (env st)) in
    let argv := [PYTHON_EXECUTABLE; avbtool_path self; "make_vbmeta_image";
                 "--output"; "vbmeta_new.img";
                 "--algorithm"; alg; "--key"; key;
                 "--rollback_index"; rollback; "--flags"; fl;
                 "--rollback_index_location"; "0"; "--padding_size"; "4096"]
                ++ include_args (existing_images partition_images e1) in
    let e2 := snd (subprocess_run argv e1) in
    fst (subprocess_run report (env st)) = Some stdout
    /\ algorithm (AvbImageParser.parse_output stdout) = Some alg
    /\ rollback_index (AvbImageParser.parse_output stdout) = Some rollback
    /\ flags (AvbImageParser.parse_output stdout) = Some fl
    /\ get_key_for_algorithm self (Some alg) {| env := e1; events := [] |}
       = (Ok key, {| env := e1; events := [] |})
    /\ fst (subprocess_run argv e1) <> None
    /\ path_exists "vbmeta_new.img" e2 = true
    /\ env st' = shutil_move "vbmeta_new.img" "vbmeta.img" e2
    /\ events st' = events st ++ [Invoked report; Invoked argv].
Proof.
  unfold rebuild_vbmeta. cbv zeta. unfold bind at 1.
  destruct (parse_image_info _ _ _ st) as [[[info |] | e | c] s1] eqn:Hinfo;
    try discriminate.
  apply parse_image_info_run in Hinfo as [stdout [Hout [_ [Hparsed Hs1]]]].
  unfold bind at 1.
  destruct (get_key_for_algorithm self (algorithm info) s1) as [[key | e | c] s2] eqn:Hkey;
    try discriminate.
  pose proof (get_key_ok_state _ _ _ Hkey) as ->.
  unfold bind at 1. rewrite include_loop. cbn [app].
  unfold bind at 1, run_command. cbn [all_strings].
  destruct (algorithm info) as [alg |] eqn:Halg; [| discriminate].
  destruct (rollback_index info) as [rollback |] eqn:Hrollback; [| discriminate].
  destruct (flags info) as [fl |] eqn:Hflags; [| discriminate].
  rewrite all_strings_some.
  unfold bind at 1, emit. cbv beta iota. unfold bind at 1, act. cbn [env events].
  intro Hrun. exists stdout, alg, key, rollback, fl. cbv zeta.
  subst s1. cbn [env events] in Hrun.
  unfold include_args. cbn [flat_map app] in Hrun |- *.
  split; [exact Hout |]. rewrite <- Hparsed.
  split; [exact Halg |]. split; [exact Hrollback |]. split; [exact Hflags |].
  split.
  { revert Hkey.
    unfold get_key_for_algorithm, bind, detect_required_key_type, ret, log, emit,
      sys_exit.
    destruct (in_strs (Some alg) ["SHA256_RSA4096"; "SHA512_RSA4096"]).
    - destruct (truthy (private_key self)); [intro Hk; now injection Hk as -> |].
      destruct (find _ _); [intro Hk; now injection Hk as -> | discriminate].
    - destruct (in_strs (Some alg) ["SHA256_RSA2048"; "SHA512_RSA2048"]);
        [| discriminate].
      destruct (truthy (private_key self)); [intro Hk; now injection Hk as -> |].
      destruct (find _ _); [intro Hk; now injection Hk as -> | discriminate]. }
  destruct (subprocess_run _ _) as [[out |] e2] eqn:Hsub in Hrun.
  - rewrite Hsub. cbn [fst snd].
    unfold ret at 1 in Hrun. unfold bind at 1, os_path_exists, ask in Hrun.
    cbn [env events] in Hrun.
    destruct (path_exists "vbmeta_new.img" e2) eqn:Hnew.
    + unfold bind, act, ret in Hrun. cbn [env events] in Hrun.
      injection Hrun as <-. cbn [env events].
      split; [discriminate |]. split; [reflexivity |]. split; [reflexivity |].
      now rewrite <- app_assoc.
    + unfold bind, log, emit, ret in Hrun. discriminate.
  - unfold bind, log, emit, ret in Hrun. discriminate.
Qed.

End Umbrella.

(** ** The checks of the entry point *)

Section Preflight.
Context {Env : Type} `{External Env}.
Variable PYTHON_EXECUTABLE : string.
Import Text Py Trace.

Local Abbreviation M := (Run Env).

(** X21. No tool, no run.  Outside verify-only mode, when the signing
    tool is not where [main] looks for it, [main] returns [False] after
    one message that lists the tool first; the rebuilder is not
    constructed, no command is run and the machine is as it was,
    whatever else is missing and whatever the mode. *)
Theorem main_needs_the_tool (args : Args) (st : State Env) :
  a_verify_only args = false ->
  path_exists (tool_of args (env st)) (env st) = false ->
  exists others,
    main PYTHON_EXECUTABLE args st
    = (Ok false,
       {| env := env st;
          events := events st
                    ++ [Logged (ErrMissingRequiredFiles
                                  (tool_of args (env st) :: others))] |}).
Proof.
  intros Hverify Htool.
  destruct (silent_has_partition_images (a_partitions args) st) as [found Hfound].
  unfold tool_of in *.
  unfold main, bind, ask, os_path_exists, ask, ret. cbv beta iota zeta.
  rewrite Hverify, Htool. cbn [negb]. cbv beta iota.
  destruct (a_chained_mode args); cbv beta iota.
  - rewrite Hfound. destruct found; cbn; eexists; reflexivity.
  - destruct (path_exists "vbmeta.img" (env st)); rewrite Hfound;
      destruct found; cbn; eexists; reflexivity.
Qed.

End Preflight.

(** ** The further properties on concrete inputs *)

Lemma captured_field_wellformed_witness :
  "33554432" <> ""
  /\ Text.all_chars (Regex.f_class (Regex.bytes_after "Image Size:")) "33554432" = true
  /\ exists pre ws rest,
      Bench.lines (Bench.hash_block "sha256" (Bench.salt_line "a1b2c3d4"))
      = pre +++ Regex.f_label (Regex.bytes_after "Image Size:") +++ ws +++ "33554432"
            +++ Regex.f_suffix (Regex.bytes_after "Image Size:") +++ rest
      /\ ws <> "" /\ Text.all_chars Text.is_space ws = true.
Proof.
  apply (@captured_field_wellformed
           (Bench.lines (Bench.hash_block "sha256" (Bench.salt_line "a1b2c3d4")))
           (Regex.bytes_after "Image Size:") "33554432").
  - vm_compute. reflexivity.
  - vm_compute. reflexivity.
Defined.

Lemma parsed_image_size_converts_witness :
  Py.truthy (Some "67108864") = true
  /\ Text.all_chars Text.is_digit "67108864" = true
  /\ (String.length "67108864" <= Py.int_max_str_digits ->
      exists n, Py.int "67108864" = Ok n)
  /\ (Py.int_max_str_digits < String.length "67108864" ->
      Py.int "67108864" = Raise ValueError).
Proof.
  apply (@parsed_image_size_converts
           (Bench.regular_report "sha256" (Bench.salt_line "a1b2c3d4")) "67108864").
  - vm_compute. reflexivity.
  - vm_compute. reflexivity.
Defined.

(** [int] at the limit of CPython: 4300 digits convert, 4301 do not. *)
Example int_at_the_limit :
  (exists n, Py.int (String "1" (Text.zeros 4299)) = Ok n)
  /\ Py.int (String "1" (Text.zeros 4300)) = Raise ValueError.
Proof. split; [eexists |]; vm_compute; reflexivity. Qed.

Lemma prop_line_round_trip_witness :
  AvbImageParser._parse_prop_descriptor
    (" " +++ "com.android.build.boot.os_version" +++ " " +++ "->" +++ " " +++ "'"
         +++ "13" +++ "'" +++ Bench.nl)
  = {| p_key := Some "com.android.build.boot.os_version"; p_value := Some "13" |}.
Proof.
  apply prop_line_round_trip.
  - vm_compute. reflexivity.
  - reflexivity.
  - discriminate.
  - reflexivity.
  - discriminate.
  - reflexivity.
  - discriminate.
  - reflexivity.
  - reflexivity.
Defined.

Lemma field_line_round_trip_witness :
  Regex._extract_pattern
    ("      " +++ Regex.f_label (Regex.hex_after "Salt:") +++ "        " +++ "a1b2c3d4"
              +++ Regex.f_suffix (Regex.hex_after "Salt:") +++ Bench.nl)
    (Regex.hex_after "Salt:")
  = Some "a1b2c3d4".
Proof.
  apply (@field_line_round_trip (Regex.hex_after "Salt:") "S"%char "alt:").
  - vm_compute. reflexivity.
  - reflexivity.
  - reflexivity.
  - discriminate.
  - reflexivity.
  - discriminate.
  - reflexivity.
  - intros [[] [] [] [] [] [] [] []]; vm_compute; intro Hc;
      first [reflexivity | discriminate Hc].
  - vm_compute. reflexivity.
Defined.

Lemma detected_key_selection_witness :
  exists before after,
    [Bench.key4096; Bench.key2048] = before ++ Bench.key2048 :: after
    /\ Text.contains "rsa2048" Bench.key2048 = true
    /\ Forall (fun k => Text.contains "rsa2048" k = false) before.
Proof.
  destruct (@detected_key_selection Bench.Machine
              (Bench.auto_self [Bench.key4096; Bench.key2048])
              (Some "SHA512_RSA2048") (Bench.boot (Bench.machine [] true))
              eq_refl eq_refl) as [Hselected _].
  destruct (Hselected Bench.key2048 (Bench.boot (Bench.machine [] true)))
    as [_ Hfirst].
  - vm_compute. reflexivity.
  - exact Hfirst.
Defined.


Lemma discover_invariants_witness :
  NoDup (map fst [("boot", "boot.img")])
  /\ forall name path,
       In (name, path) [("boot", "boot.img")] ->
       path_exists path (Bench.umbrella_machine "SHA256_RSA2048" true) = true
       /\ name = Text.remove_all ".img" path.
Proof.
  eapply proj2.
  eapply (@discover_invariants Bench.Machine _ (Some ["boot.img"; "recovery"; "boot"])
            (Bench.boot (Bench.umbrella_machine "SHA256_RSA2048" true))).
  vm_compute. reflexivity.
Defined.

Lemma classify_partitions_witness :
  Permutation ([] ++ [("boot", "boot.img")]) [("boot", "boot.img")]
  /\ (NoDup (map fst [("boot", "boot.img")]) ->
      Py.dict_of [("boot", "boot.img")] = [("boot", "boot.img")]
      /\ Py.dict_of (@nil (string * string)) = []).
Proof.
  eapply (@classify_partitions Bench.Machine _ Bench.python
            (Bench.auto_self [Bench.key2048]) [("boot", "boot.img")]
            (Bench.boot (Bench.umbrella_machine "SHA256_RSA2048" true))).
  vm_compute. reflexivity.
Defined.

Lemma verify_only_reads_witness :
  let args := {| a_partitions := None; a_working_dir := None; a_avbtool := None;
                 a_private_key := None; a_regenerate_salt := false;
                 a_verify_only := true; a_chained_mode := false |} in
  let lost := {| a_partitions := None; a_working_dir := Some "/nonexistent-dir";
                 a_avbtool := None; a_private_key := None;
                 a_regenerate_salt := false; a_verify_only := true;
                 a_chained_mode := false |} in
  let st := Bench.boot (Bench.umbrella_machine "SHA256_RSA2048" true) in
  ((exists evs,
       events (snd (main Bench.python args st)) = events st ++ evs
       /\ Forall Spec.read_only evs)
   /\ (fst (main Bench.python args st) = Ok true
       \/ fst (main Bench.python args st) = SysExit 1%Z))
  /\ main Bench.python lost st = (Raise OSError, st).
Proof.
  intros args lost st. split.
  - exact (@verify_only_reads Bench.Machine _ Bench.python args st eq_refl).
  - exact (proj2 (@verify_only_reads Bench.Machine _ Bench.python lost st eq_refl)).
Defined.

Lemma rebuilt_partition_order_witness :
  exists st' logs rest,
    rebuild_partition Bench.python (Bench.auto_self [Bench.key2048]) "boot" "boot.img"
                      None true
                      (Bench.boot (Bench.umbrella_machine "SHA256_RSA2048" true))
      = (Ok true, st')
    /\ Forall Trace.is_message logs
    /\ events st'
       = [Invoked [Bench.python; Bench.tool; "info_image"; "--image"; "boot.img"];
          Invoked [Bench.python; Bench.tool; "erase_footer"; "--image"; "boot.img"]]
         ++ logs
         ++ [Invoked (Bench.python :: Bench.tool :: "add_hash_footer"
                      :: "--image" :: "boot.img"
                      :: "--partition_name" :: "boot" :: rest)].
Proof.
  eexists.
  edestruct (@rebuilt_partition_order Bench.Machine _ Bench.python
               (Bench.auto_self [Bench.key2048]) "boot" "boot.img" None true
               (Bench.boot (Bench.umbrella_machine "SHA256_RSA2048" true)))
    as [logs [rest [Hlogs Hev]]].
  - vm_compute. reflexivity.
  - exists logs, rest. split; [vm_compute; reflexivity |]. split; [exact Hlogs |].
    exact Hev.
Defined.

Lemma sizeless_partition_untouched_witness :
  fst (rebuild_partition Bench.python (Bench.auto_self [Bench.key2048])
         "vbmeta" "vbmeta.img" None true
         (Bench.boot (Bench.umbrella_machine "SHA256_RSA2048" true)))
  = Ok false.
Proof.
  edestruct (@sizeless_partition_untouched Bench.Machine _ Bench.python
               (Bench.auto_self [Bench.key2048]) "vbmeta" "vbmeta.img" None true
               (Bench.boot (Bench.umbrella_machine "SHA256_RSA2048" true)))
    as [Hrun _].
  - vm_compute. reflexivity.
  - intros info Hinfo. injection Hinfo as <-. vm_compute. reflexivity.
  - rewrite Hrun. reflexivity.
Defined.

Lemma success_needs_footer_witness :
  exists st' evs,
    rebuild_all Bench.python (Bench.auto_self [Bench.key2048]) None true false
                (Bench.boot (Bench.umbrella_machine "SHA256_RSA2048" true))
      = (Ok true, st')
    /\ events st' = evs /\ Trace.footer_written evs.
Proof.
  eexists.
  edestruct (@success_needs_footer Bench.Machine _ Bench.python
               (Bench.auto_self [Bench.key2048]) None true false
               (Bench.boot (Bench.umbrella_machine "SHA256_RSA2048" true)))
    as [evs [Hev Hfooter]].
  - vm_compute. reflexivity.
  - exists evs. split; [vm_compute; reflexivity |]. split; [exact Hev | exact Hfooter].
Defined.

Lemma nothing_to_rebuild_witness :
  exists logs,
    rebuild_all Bench.python (Bench.auto_self [Bench.key2048])
                (Some ["recovery"; "dtbo.img"]) true false
                (Bench.boot (Bench.umbrella_machine "SHA256_RSA2048" true))
    = (Ok false,
       {| env := Bench.umbrella_machine "SHA256_RSA2048" true;
          events := [] ++ logs ++ [Logged ErrNoPartitionImages] |})
    /\ Forall Trace.is_message logs.
Proof.
  apply (@nothing_to_rebuild Bench.Machine _ Bench.python
           (Bench.auto_self [Bench.key2048]) (Some ["recovery"; "dtbo.img"]) true false
           (Bench.boot (Bench.umbrella_machine "SHA256_RSA2048" true))).
  repeat constructor.
Defined.

Lemma chained_mode_without_chained_witness :
  exists evs,
    fst (rebuild_all Bench.python (Bench.auto_self [Bench.key2048]) None true true
                     (Bench.boot (Bench.umbrella_machine "SHA256_RSA2048" true)))
    = Ok false
    /\ Forall Spec.read_only evs
    /\ In (Logged ErrNoChainedPartitions) evs.
Proof.
  edestruct (@chained_mode_without_chained Bench.Machine _ Bench.python
               (Bench.auto_self [Bench.key2048]) None true
               (Bench.boot (Bench.umbrella_machine "SHA256_RSA2048" true))
               (Bench.boot (Bench.umbrella_machine "SHA256_RSA2048" true))
               {| env := Bench.umbrella_machine "SHA256_RSA2048" true;
                  events := [Invoked [Bench.python; Bench.tool; "info_image";
                                      "--image"; "boot.img"]] |}
               [("boot", "boot.img")] [("boot", "boot.img")])
    as [evs [Hrun [Hro Hin]]].
  - vm_compute. reflexivity.
  - discriminate.
  - vm_compute. reflexivity.
  - exists evs. rewrite Hrun. split; [reflexivity |]. split; [exact Hro | exact Hin].
Defined.

Lemma chained_salt_policy_witness :
  exists key,
    fst (chained_plan Bench.python (Bench.auto_self [Bench.key2048]) "boot" "boot.img"
                      Bench.size_64m "SHA256_RSA2048" (Some "0")
                      Bench.no_rollback_info true
                      (Bench.boot (Bench.machine [] true)))
    = Ok (chained_base_cmd Bench.python (Bench.auto_self [Bench.key2048]) "boot"
                           "boot.img" Bench.size_64m "SHA256_RSA2048" key (Some "0")
          ++ [Some "--salt"; Some "a1b2c3d4"]
          ++ [Some "--prop"; Some "com.android.build.boot.os_version:13"]).
Proof.
  edestruct (@chained_salt_policy Bench.Machine Bench.python
               (Bench.auto_self [Bench.key2048]) "boot" "boot.img" Bench.size_64m
               "SHA256_RSA2048" (Some "0") Bench.no_rollback_info true
               (Bench.boot (Bench.machine [] true)))
    as [key Hcmd].
  - vm_compute. reflexivity.
  - exists key. vm_compute. vm_compute in Hcmd. now rewrite Hcmd.
Defined.

Lemma regular_salt_policy_witness :
  exists salt,
    fst (hash_plan Bench.python (Bench.auto_self [Bench.key2048]) "boot" "boot.img"
                   Bench.size_64m None Bench.sha256_info false
                   (Bench.boot (Bench.machine [] true)))
    = Ok (hash_base_cmd Bench.python (Bench.auto_self [Bench.key2048]) "boot"
                        "boot.img" Bench.size_64m "NONE"
          ++ [Some "--salt"; Some salt]
          ++ [Some "--prop"; Some "com.android.build.boot.os_version:13";
              Some "--prop"; Some "com.android.build.boot.fingerprint:"])
    /\ salt = Bench.fixed_salt.
Proof.
  edestruct (@regular_salt_policy Bench.Machine _ Bench.python
               (Bench.auto_self [Bench.key2048]) "boot" "boot.img" Bench.size_64m
               None Bench.sha256_info false
               (Bench.boot (Bench.machine [] true)))
    as [salt [Hcmd Hsalt]].
  - vm_compute. reflexivity.
  - exists salt. vm_compute in Hsalt. destruct Hsalt as [Hfresh _].
    injection Hfresh as <-. split; reflexivity.
Defined.

Lemma vbmeta_success_replaces_image_witness :
  exists st' key,
    rebuild_vbmeta Bench.python (Bench.auto_self [Bench.key2048]) None
                   [("boot", "boot.img"); ("init_boot", "init_boot.img")]
                   (Bench.boot (Bench.umbrella_machine "SHA256_RSA2048" true))
      = (Ok true, st')
    /\ path_exists "vbmeta.img" (env st') = true
    /\ path_exists "vbmeta_new.img" (env st') = false
    /\ events st'
       = [Invoked [Bench.python; Bench.tool; "info_image"; "--image"; "vbmeta.img"];
          Invoked [Bench.python; Bench.tool; "make_vbmeta_image";
                   "--output"; "vbmeta_new.img";
                   "--algorithm"; "SHA256_RSA2048"; "--key"; key;
                   "--rollback_index"; "0"; "--flags"; "0";
                   "--rollback_index_location"; "0"; "--padding_size"; "4096";
                   "--include_descriptors_from_image"; "vbmeta.img";
                   "--include_descriptors_from_image"; "boot.img"]].
Proof.
  eexists.
  edestruct (@vbmeta_success_replaces_image Bench.Machine _ Bench.python
               (Bench.auto_self [Bench.key2048]) None
               [("boot", "boot.img"); ("init_boot", "init_boot.img")]
               (Bench.boot (Bench.umbrella_machine "SHA256_RSA2048" true)))
    as [stdout [alg [key [rollback [fl
         [Hout [Halg [Hrollback [Hflags [_ [_ [_ [_ Hevents]]]]]]]]]]]]].
  - vm_compute. reflexivity.
  - exists key.
    vm_compute in Hout. injection Hout as <-.
    vm_compute in Halg. injection Halg as <-.
    vm_compute in Hrollback. injection Hrollback as <-.
    vm_compute in Hflags. injection Hflags as <-.
    split; [vm_compute; reflexivity |].
    split; [vm_compute; reflexivity |].
    split; [vm_compute; reflexivity |].
    exact Hevents.
Defined.

Lemma main_needs_the_tool_witness :
  let args := {| a_partitions := None; a_working_dir := None;
                 a_avbtool := Some "/opt/avbtool.py";
                 a_private_key := None; a_regenerate_salt := false;
                 a_verify_only := false; a_chained_mode := true |} in
  let st := Bench.boot (Bench.umbrella_machine "SHA256_RSA2048" true) in
  exists others,
    main Bench.python args st
    = (Ok false,
       {| env := env st;
          events := events st
                    ++ [Logged (ErrMissingRequiredFiles
                                  (Trace.tool_of args (env st) :: others))] |}).
Proof.
  intros args st. apply (@main_needs_the_tool Bench.Machine _ Bench.python args st).
  - reflexivity.
  - vm_compute. reflexivity.
Defined.
